(** * AWX template synchronisation scripts: a shallow embedding

    This development embeds the pure and the remote-facing parts of
    [scripts/create_awx_templates.py] and [scripts/update_awx_k3s_app_survey.py]
    and states the properties of the reconciliation design over them.

    Conventions of the embedding.
    - A value decoded from YAML or JSON is a [value]; a Python [dict] with
      string keys is an association list in insertion order.  Floats and
      non-string mapping keys are outside the model.
    - Strings are sequences of 8-bit characters; the case functions follow
      Python on the ASCII range and leave every other character alone.
    - A Python exception is an [exn]; the handlers of the scripts tell apart
      only [requests.exceptions.RequestException] from the rest of
      [Exception], so [exn] has those two classes.
    - The remote service is an arbitrary transition function on an abstract
      world; every request that reaches it is appended to a call log, and
      every [print] to a console log of structured lines. *)

From Stdlib Require Import List String Ascii ZArith Bool Lia.
From Stdlib Require Import Sorting.Sorted Sorting.Permutation Sorting.Mergesort.
From Stdlib Require Import Orders.
From Stdlib Require DecimalString.
Import ListNotations.

Set Warnings "-register-all".

Local Open Scope string_scope.
Local Open Scope list_scope.

(* ------------------------------------------------------------------ *)
(** ** Dynamic values *)

Inductive value : Type :=
| VNone : value
| VBool : bool -> value
| VInt : Z -> value
| VStr : string -> value
| VList : list value -> value
| VDict : list (string * value) -> value.

(** A mapping, in insertion order.  Its keys are strings; a mapping with a
    key of another type, which YAML can produce, is outside the model, and
    so is whatever the code does with such a key. *)
Definition dict : Type := list (string * value).

(** Python truth value testing ([if x:], [not x]). *)
Definition truthy (v : value) : bool :=
  match v with
  | VNone => false
  | VBool b => b
  | VInt z => negb (z =? 0)%Z
  | VStr s => negb (s =? "")
  | VList l => match l with [] => false | _ :: _ => true end
  | VDict d => match d with [] => false | _ :: _ => true end
  end.

(** [k in d] and [d[k]] on a dict. *)
Fixpoint dict_get (d : dict) (k : string) : option value :=
  match d with
  | [] => None
  | (k', v) :: rest => if k' =? k then Some v else dict_get rest k
  end.

Definition dict_mem (d : dict) (k : string) : bool :=
  match dict_get d k with Some _ => true | None => false end.

(** [d[k] = v]: overwrite in place, or append a new entry. *)
Fixpoint dict_set (d : dict) (k : string) (v : value) : dict :=
  match d with
  | [] => [(k, v)]
  | (k', v') :: rest =>
      if k' =? k then (k, v) :: rest else (k', v') :: dict_set rest k v
  end.

(** The dict left by [d.pop(k, None)]. *)
Fixpoint dict_remove (d : dict) (k : string) : dict :=
  match d with
  | [] => []
  | (k', v') :: rest =>
      if k' =? k then dict_remove rest k else (k', v') :: dict_remove rest k
  end.

Definition dict_keys (d : dict) : list string := map fst d.

(* ------------------------------------------------------------------ *)
(** ** Exceptions and the error monad of the pure code *)

Inductive exn : Type :=
| RequestException : exn     (* requests.exceptions.RequestException and subclasses *)
| OtherException : exn.      (* any other subclass of Exception *)

Inductive result (A : Type) : Type :=
| Ok : A -> result A
| Err : exn -> result A.
Arguments Ok {A} _.
Arguments Err {A} _.

Definition rbind {A B} (r : result A) (k : A -> result B) : result B :=
  match r with
  | Ok a => k a
  | Err e => Err e
  end.

Declare Scope result_scope.
Delimit Scope result_scope with result.
Notation "x <- e ;; k" := (rbind e (fun x => k))
  (at level 61, e at next level, right associativity) : result_scope.

(** [d[k]] raising [KeyError]. *)
Definition py_getitem (d : dict) (k : string) : result value :=
  match dict_get d k with
  | Some v => Ok v
  | None => Err OtherException
  end.

(** [v.get(k, default)]; only a dict has the method. *)
Definition py_get (v : value) (k : string) (default : value) : result value :=
  match v with
  | VDict d => Ok (match dict_get d k with Some x => x | None => default end)
  | _ => Err OtherException
  end.

(** [isinstance(v, list)]. *)
Definition is_list (v : value) : bool :=
  match v with
  | VList _ => true
  | _ => false
  end.

(** [v[0]]: the head of a list or the first character of a string; an empty
    sequence, a dict (whose keys are strings) and a scalar raise. *)
Definition py_index0 (v : value) : result value :=
  match v with
  | VList (x :: _) => Ok x
  | VStr (String c _) => Ok (VStr (String c EmptyString))
  | _ => Err OtherException
  end.

(** [v[k]] for a string key: only a dict holding the key answers. *)
Definition py_subscript (v : value) (k : string) : result value :=
  match v with
  | VDict d => py_getitem d k
  | _ => Err OtherException
  end.

(** [sep.join(items)]: every item must be a [str]. *)
Fixpoint py_join_items (items : list value) : result (list string) :=
  match items with
  | [] => Ok []
  | VStr s :: rest =>
      match py_join_items rest with
      | Ok l => Ok (s :: l)
      | Err e => Err e
      end
  | _ :: _ => Err OtherException
  end.

Definition py_join (sep : string) (items : list value) : result string :=
  match py_join_items items with
  | Ok l => Ok (String.concat sep l)
  | Err e => Err e
  end.

(* ------------------------------------------------------------------ *)
(** ** String primitives used by the scripts *)

Definition is_ascii_upper (c : ascii) : bool :=
  let n := nat_of_ascii c in (65 <=? n)%nat && (n <=? 90)%nat.

Definition is_ascii_lower (c : ascii) : bool :=
  let n := nat_of_ascii c in (97 <=? n)%nat && (n <=? 122)%nat.

Definition is_cased (c : ascii) : bool := is_ascii_upper c || is_ascii_lower c.

Definition to_upper (c : ascii) : ascii :=
  if is_ascii_lower c then ascii_of_nat (nat_of_ascii c - 32) else c.

Definition to_lower (c : ascii) : ascii :=
  if is_ascii_upper c then ascii_of_nat (nat_of_ascii c + 32) else c.

(** [str.title()]: a character that follows a cased character is lowered,
    any other is raised.  The case mapping is the one of the ASCII letters,
    so this is [str.title] on ASCII text; on other text Python maps more
    characters and may change the length. *)
Fixpoint title_from (previous_is_cased : bool) (s : string) : string :=
  match s with
  | EmptyString => EmptyString
  | String c rest =>
      String (if previous_is_cased then to_lower c else to_upper c)
             (title_from (is_cased c) rest)
  end.

Definition title (s : string) : string := title_from false s.

(** [s.replace(a, b)] for single characters. *)
Fixpoint replace_char (a b : ascii) (s : string) : string :=
  match s with
  | EmptyString => EmptyString
  | String c rest => String (if Ascii.eqb c a then b else c) (replace_char a b rest)
  end.

(** [s.endswith(suffix)]. *)
Definition endswith (s suffix : string) : bool :=
  let n := String.length s in
  let m := String.length suffix in
  (m <=? n)%nat && (substring (n - m) m s =? suffix).

(** [needle in s] for strings. *)
Fixpoint contains (s needle : string) : bool :=
  prefix needle s ||
  match s with
  | EmptyString => false
  | String _ rest => contains rest needle
  end.

(** [needle in container] for the container types a decoded value can have. *)
Definition py_in (needle : string) (container : value) : result bool :=
  match container with
  | VStr s => Ok (contains s needle)
  | VList l =>
      Ok (existsb (fun x => match x with VStr s => s =? needle | _ => false end) l)
  | VDict d => Ok (dict_mem d needle)
  | _ => Err OtherException
  end.

(** [s.split(c)]. *)
Fixpoint split_on (c : ascii) (s : string) : list string :=
  match s with
  | EmptyString => [EmptyString]
  | String a rest =>
      if Ascii.eqb a c then EmptyString :: split_on c rest
      else match split_on c rest with
           | [] => [String a EmptyString]
           | h :: t => String a h :: t
           end
  end.

(** [s.rfind(c)], with [None] for -1. *)
Fixpoint rfind (c : ascii) (s : string) : option nat :=
  match s with
  | EmptyString => None
  | String a rest =>
      match rfind c rest with
      | Some i => Some (S i)
      | None => if Ascii.eqb a c then Some 0%nat else None
      end
  end.

(** [PurePosixPath(p).name]: the last component, where empty and ["."]
    components do not count. *)
Definition path_name (p : string) : string :=
  last (filter (fun part => negb (part =? "") && negb (part =? "."))
               (split_on "/" p)) "".

(** [PurePosixPath(p).stem]: the name without its last suffix. *)
Definition path_stem (p : string) : string :=
  let name := path_name p in
  match rfind "." name with
  | Some i =>
      if (0 <? i)%nat && (i <? String.length name - 1)%nat
      then substring 0 i name
      else name
  | None => name
  end.


(* ------------------------------------------------------------------ *)
(** ** [class PlaybookParser] *)

Module PlaybookParser.

Section Files.
(** [yaml.safe_load(open(filepath))]: the decoded document, or the
    exception raised by [open] or by the YAML parser. *)
Variable read_yaml : string -> result value.
(** [filepath.relative_to(Path.cwd())], [None] standing for [ValueError]. *)
Variable relative_to_cwd : string -> option string.

(** [parse_playbook]; the returned dict is empty or has the four keys. *)
Definition parse_playbook (filepath : string) : result dict :=
  (playbook <- read_yaml filepath ;;
   if negb (truthy playbook) || negb (is_list playbook) then Ok []
   else
     play <- py_index0 playbook ;;
     let rel_path :=
       match relative_to_cwd filepath with
       | Some p => p
       | None => filepath
       end in
     name <- py_get play "name" (VStr "") ;;
     hosts <- py_get play "hosts" (VStr "localhost") ;;
     vars <- py_get play "vars" (VDict []) ;;
     Ok [("name", name); ("hosts", hosts); ("vars", vars);
         ("filepath", VStr rel_path)])%result.
End Files.

Definition var_keys : list string :=
  ["k3s_context"; "esphome_namespace"; "esphome_deployment_name";
   "esphome_timeout"; "esphome_no_logs"].

Definition extract_extra_vars (playbook_vars : dict) : dict :=
  fold_left
    (fun extra_vars key =>
       match dict_get playbook_vars key with
       | Some v => dict_set extra_vars key v
       | None => extra_vars
       end)
    var_keys [].

(** The segments appended to [desc_parts] by the loop over
    [playbook_vars.keys()]. *)
Fixpoint pattern_parts (playbook_vars : dict) : result (list string) :=
  match playbook_vars with
  | [] => Ok []
  | (key, patterns) :: rest =>
      if endswith key "_patterns" then
        match patterns with
        | VList l =>
            (joined <- py_join ", " l ;;
             parts <- pattern_parts rest ;;
             Ok (("Patterns: " ++ joined)%string :: parts))%result
        | _ => pattern_parts rest
        end
      else pattern_parts rest
  end.

Definition generate_description (playbook_name : value) (playbook_vars : dict)
  : result string :=
  (parts <- pattern_parts playbook_vars ;;
   py_join " | " (playbook_name :: map VStr parts))%result.

End PlaybookParser.

(* ------------------------------------------------------------------ *)
(** ** Configuration and [build_template_data] *)

(** The entries of [CONFIG]; all but [verify_ssl] are strings taken from the
    environment. *)
Record Config : Type := {
  awx_url : string;
  awx_token : string;
  project_id : string;
  inventory_id : string;
  credential_id : string;
  execution_environment_id : string;
  playbook_dir : string;
  verify_ssl : bool
}.

Section Builder.
(** [int(s)] on a string, and [yaml.dump(d, default_flow_style=False)]. *)
Variable py_int : string -> result Z.
Variable yaml_dump : dict -> string.

(** [Path(p)] accepts a string only. *)
Definition as_path (v : value) : result string :=
  match v with
  | VStr p => Ok p
  | _ => Err OtherException
  end.

(** [playbook_meta['vars']] is used as a dict by both parser calls; on any
    other value [generate_description] fails on [.keys()], and nothing of
    [extract_extra_vars] is observable before that. *)
Definition as_dict (v : value) : result dict :=
  match v with
  | VDict d => Ok d
  | _ => Err OtherException
  end.

Definition build_template_data (playbook_meta : dict) (config : Config)
  : result dict :=
  (name <- py_getitem playbook_meta "name" ;;
   template_name <-
     (if negb (truthy name) then
        filepath <- py_getitem playbook_meta "filepath" ;;
        p <- as_path filepath ;;
        Ok (VStr (title (replace_char "_" " " (path_stem p))))
      else Ok name) ;;
   vars <- py_getitem playbook_meta "vars" ;;
   playbook_vars <- as_dict vars ;;
   let extra_vars := PlaybookParser.extract_extra_vars playbook_vars in
   description <- PlaybookParser.generate_description name playbook_vars ;;
   inventory <- py_int (inventory_id config) ;;
   project <- py_int (project_id config) ;;
   filepath <- py_getitem playbook_meta "filepath" ;;
   let template_data : dict :=
     [("name", template_name);
      ("description", VStr description);
      ("job_type", VStr "run");
      ("inventory", VInt inventory);
      ("project", VInt project);
      ("playbook", filepath);
      ("ask_variables_on_launch", VBool true);
      ("extra_vars", VStr (yaml_dump extra_vars))] in
   template_data <-
     (if negb (credential_id config =? "") then
        c <- py_int (credential_id config) ;;
        Ok (dict_set template_data "credentials" (VList [VInt c]))
      else Ok template_data) ;;
   template_data <-
     (if negb (execution_environment_id config =? "") then
        ee <- py_int (execution_environment_id config) ;;
        Ok (dict_set template_data "execution_environment" (VInt ee))
      else Ok template_data) ;;
   in_target <- py_in "target_device" filepath ;;
   in_all <- (if in_target then Ok true else py_in "all" filepath) ;;
   Ok (if in_all
       then dict_set template_data "ask_limit_on_launch" (VBool false)
       else template_data))%result.
End Builder.

(* ------------------------------------------------------------------ *)
(** ** Requests, responses and the console *)

(** The endpoints of the f-strings of the template script; an interpolated
    identifier is kept as the value it was formatted from. *)
Inductive endpoint : Type :=
| EP_job_templates : endpoint                          (* /job_templates/ *)
| EP_job_template : value -> endpoint                  (* /job_templates/{id}/ *)
| EP_job_template_credentials : value -> endpoint.     (* /job_templates/{id}/credentials/ *)

Inductive http_method : Type := GET | POST | PATCH.

(** The arguments of one [session.request] call. *)
Record request : Type := {
  req_method : http_method;
  req_endpoint : endpoint;
  req_params : dict;
  req_json : option dict
}.

(** What the scripts read off a [requests.Response]: the status code and what
    [response.json()] returns or raises. *)
Record response : Type := {
  status_code : Z;
  json : result value
}.

(** The lines printed by the modelled functions, one constructor for each
    [print] statement. *)
Inductive line : Type :=
| L_api_error_details : value -> line
| L_api_error_text : line
| L_error_checking : exn -> line
| L_updating : value -> line
| L_creating : value -> line
| L_associated : value -> line
| L_warn_associate : value -> exn -> line
| L_processing : string -> line
| L_skipping : line
| L_using_playbook : value -> line
| L_template_done : string -> value -> value -> line
| L_failed : exn -> line.

(* ------------------------------------------------------------------ *)
(** ** [class AWXTemplateManager] *)

Module AWXTemplateManager.

Section Remote.
(** The remote service: its state, and how it answers one request.
    [Err] is an exception raised by [session.request] itself. *)
Variable W : Type.
Variable session_request : request -> W -> result response * W.

Record state : Type := {
  world : W;
  calls : list request;
  console : list line
}.

(** State and exception monad of the remote-facing code.  An exception
    keeps the state reached when it was raised. *)
Definition M (A : Type) : Type := state -> result A * state.

Definition ret {A} (a : A) : M A := fun s => (Ok a, s).

Definition bind {A B} (m : M A) (k : A -> M B) : M B :=
  fun s =>
    match m s with
    | (Ok a, s') => k a s'
    | (Err e, s') => (Err e, s')
    end.

Definition lift {A} (r : result A) : M A := fun s => (r, s).

Definition print (l : line) : M unit :=
  fun s =>
    (Ok tt, {| world := world s; calls := calls s;
               console := console s ++ [l] |}).

(** [try: m except C as e: h e], where [handles] tells which exceptions
    are instances of [C]. *)
Definition try_except {A} (m : M A) (handles : exn -> bool) (h : exn -> M A)
  : M A :=
  fun s =>
    match m s with
    | (Ok a, s') => (Ok a, s')
    | (Err e, s') => if handles e then h e s' else (Err e, s')
    end.

Definition is_request_exception (e : exn) : bool :=
  match e with
  | RequestException => true
  | OtherException => false
  end.

Definition is_exception (e : exn) : bool := true.

Notation "x <- e ;; k" := (bind e (fun x => k))
  (at level 61, e at next level, right associativity).
Notation "e ;;; k" := (bind e (fun _ => k))
  (at level 61, right associativity).

(** [response.raise_for_status()] raises [HTTPError] on a 4xx or 5xx
    status. *)
Definition is_http_error (r : response) : bool :=
  (400 <=? status_code r)%Z && (status_code r <? 600)%Z.

Definition session_request_logged (req : request) : M response :=
  fun s =>
    let (r, w') := session_request req (world s) in
    (r, {| world := w'; calls := calls s ++ [req]; console := console s |}).

Definition _api_call (method : http_method) (ep : endpoint)
           (params : dict) (body : option dict) : M response :=
  resp <- session_request_logged
            {| req_method := method; req_endpoint := ep;
               req_params := params; req_json := body |} ;;
  if is_http_error resp then
    match json resp with
    | Ok error_detail => print (L_api_error_details error_detail)
    | Err _ => print L_api_error_text
    end ;;;
    lift (Err RequestException)
  else ret resp.

Definition get_template (name : value) : M value :=
  try_except
    (resp <- _api_call GET EP_job_templates [("name", name)] None ;;
     body <- lift (json resp) ;;
     results <- lift (py_get body "results" (VList [])) ;;
     if truthy results then lift (py_index0 results) else ret VNone)
    is_request_exception
    (fun e => print (L_error_checking e) ;;; ret VNone).

Definition create_template (template_data : dict) : M value :=
  resp <- _api_call POST EP_job_templates [] (Some template_data) ;;
  lift (json resp).

Definition update_template (template_id : value) (template_data : dict)
  : M value :=
  resp <- _api_call PATCH (EP_job_template template_id) []
            (Some template_data) ;;
  lift (json resp).

(** The items of [for x in v]; a scalar is not iterable. *)
Definition py_iter (v : value) : result (list value) :=
  match v with
  | VList l => Ok l
  | VDict d => Ok (map VStr (dict_keys d))
  | VStr s => Ok (map (fun c => VStr (String c EmptyString)) (list_ascii_of_string s))
  | _ => Err OtherException
  end.

Definition associate_one (template_id cred_id : value) : M unit :=
  try_except
    (_api_call POST (EP_job_template_credentials template_id) []
               (Some [("id", cred_id)]) ;;;
     print (L_associated cred_id))
    is_exception
    (fun e => print (L_warn_associate cred_id e)).

Fixpoint associate_each (template_id : value) (creds : list value) : M unit :=
  match creds with
  | [] => ret tt
  | cred_id :: rest =>
      associate_one template_id cred_id ;;;
      associate_each template_id rest
  end.

Definition associate_credentials (template_id credential_ids : value)
  : M unit :=
  creds <- lift (py_iter credential_ids) ;;
  associate_each template_id creds.

(** [create_or_update_template].  The caller's dict loses its
    ['credentials'] entry; the caller reads only ['name'] afterwards, so
    the popped dict is kept local here. *)
Definition create_or_update_template (template_data : dict) : M value :=
  name <- lift (py_getitem template_data "name") ;;
  existing <- get_template name ;;
  let credentials :=
    match dict_get template_data "credentials" with
    | Some c => c
    | None => VNone
    end in
  let template_data := dict_remove template_data "credentials" in
  written <-
    (if truthy existing then
       print (L_updating name) ;;;
       existing_id <- lift (py_subscript existing "id") ;;
       result <- update_template existing_id template_data ;;
       ret (result, existing_id)
     else
       print (L_creating name) ;;;
       result <- create_template template_data ;;
       template_id <- lift (py_subscript result "id") ;;
       ret (result, template_id)) ;;
  (if truthy credentials
   then associate_credentials (snd written) credentials
   else ret tt) ;;;
  ret (fst written).

(** *** The per-playbook loop of [main]

    The loop over the scanned playbooks and the summary it fills.  The
    project refresh that precedes the loop and the printing of the summary
    after it are not part of the embedding. *)

Variable read_yaml : string -> result value.
Variable relative_to_cwd : string -> option string.
Variable py_int : string -> result Z.
Variable yaml_dump : dict -> string.
Variable CONFIG : Config.

(** [results = {'created': [], 'updated': [], 'failed': []}]. *)
Record Results : Type := {
  created : list value;
  updated : list value;
  failed : list string
}.

Definition no_results : Results :=
  {| created := []; updated := []; failed := [] |}.

(** The body of [for playbook_path in playbooks]. *)
Definition process_playbook (playbook_path : string) (results : Results)
  : M Results :=
  print (L_processing (path_name playbook_path)) ;;;
  try_except
    (playbook_meta <-
       lift (PlaybookParser.parse_playbook read_yaml relative_to_cwd
               playbook_path) ;;
     meta_name <- lift (py_get (VDict playbook_meta) "name" VNone) ;;
     if negb (truthy meta_name) then
       print L_skipping ;;; ret results
     else
       template_data <-
         lift (build_template_data py_int yaml_dump playbook_meta CONFIG) ;;
       playbook <- lift (py_getitem template_data "playbook") ;;
       print (L_using_playbook playbook) ;;;
       result <- create_or_update_template template_data ;;
       result_id <- lift (py_get result "id" VNone) ;;
       if truthy result_id then
         name <- lift (py_getitem template_data "name") ;;
         existing <- get_template name ;;
         if truthy existing then
           print (L_template_done "updated" name result_id) ;;;
           ret {| created := created results;
                  updated := updated results ++ [name];
                  failed := failed results |}
         else
           print (L_template_done "created" name result_id) ;;;
           ret {| created := created results ++ [name];
                  updated := updated results;
                  failed := failed results |}
       else ret results)
    is_exception
    (fun e =>
       print (L_failed e) ;;;
       ret {| created := created results;
              updated := updated results;
              failed := failed results ++ [path_name playbook_path] |}).

Fixpoint main_loop (playbooks : list string) (results : Results)
  : M Results :=
  match playbooks with
  | [] => ret results
  | playbook_path :: rest =>
      results' <- process_playbook playbook_path results ;;
      main_loop rest results'
  end.

End Remote.

Arguments world {W} _.
Arguments calls {W} _.
Arguments console {W} _.
Arguments ret {W A} _ _.
Arguments bind {W A B} _ _ _.
Arguments lift {W A} _ _.
Arguments print {W} _ _.
Arguments try_except {W A} _ _ _ _.

End AWXTemplateManager.

(* ------------------------------------------------------------------ *)
(** ** [build_survey_spec] of the survey script *)

(** [sorted(names)] on strings: a stable insertion sort by code point order. *)
Fixpoint insert_sorted (x : string) (l : list string) : list string :=
  match l with
  | [] => [x]
  | y :: rest => if (x <=? y)%string then x :: y :: rest else y :: insert_sorted x rest
  end.

Definition py_sorted (l : list string) : list string :=
  fold_right insert_sorted [] l.

Definition build_survey_spec (applications : dict) : dict :=
  let app_names := py_sorted (dict_keys applications) in
  [("name", VStr "K3s Application Update Survey");
   ("description", VStr "Select which K3s application to update");
   ("spec",
    VList
      [VDict
         [("question_name", VStr "Application Name");
          ("question_description", VStr "Which application do you want to update?");
          ("required", VBool true);
          ("type", VStr "multiplechoice");
          ("variable", VStr "app_name");
          ("min", VNone);
          ("max", VNone);
          ("default", VStr "");
          ("choices", VList (map VStr app_names));
          ("new_question", VBool true)]])].

(** The questions of a survey spec, and the fields of a question. *)
Definition survey_questions (survey_spec : dict) : list value :=
  match dict_get survey_spec "spec" with
  | Some (VList qs) => qs
  | _ => []
  end.

Definition question_field (question : value) (k : string) : option value :=
  match question with
  | VDict d => dict_get d k
  | _ => None
  end.

(* ------------------------------------------------------------------ *)
(** ** A reference remote service

    An in-memory job-template store that answers the requests of the template
    script the way the interface of the remote service is described: a query by
    name lists the matching templates, a POST stores a new template under a
    fresh identifier, a PATCH overwrites the fields it is given, and a
    credential link answers with a configurable status.  The general theorems
    below hold for every remote; this one instantiates them. *)

Module ReferenceRemote.

Record store : Type := {
  templates : list (Z * dict);
  next_id : Z;
  linked : list (value * value);
  link_status : Z
}.

Definition resource (entry : Z * dict) : value :=
  VDict (("id", VInt (fst entry)) :: snd entry).

Definition has_name (name : value) (entry : Z * dict) : bool :=
  match name, dict_get (snd entry) "name" with
  | VStr n, Some (VStr n') => n =? n'
  | _, _ => false
  end.

Definition merge (fields patch : dict) : dict :=
  fold_left (fun acc kv => dict_set acc (fst kv) (snd kv)) patch fields.

Fixpoint patch_entry (id : Z) (patch : dict) (l : list (Z * dict))
  : list (Z * dict) :=
  match l with
  | [] => []
  | (i, fields) :: rest =>
      if (i =? id)%Z then (i, merge fields patch) :: rest
      else (i, fields) :: patch_entry id patch rest
  end.

Definition find_entry (id : Z) (l : list (Z * dict)) : option (Z * dict) :=
  find (fun entry => (fst entry =? id)%Z) l.

Definition reply (code : Z) (body : value) : result response :=
  Ok {| status_code := code; json := Ok body |}.

Definition not_found : result response :=
  reply 404 (VDict [("detail", VStr "Not found.")]).

Definition serve (req : request) (st : store) : result response * store :=
  match req_method req, req_endpoint req, req_json req with
  | GET, EP_job_templates, _ =>
      let name :=
        match dict_get (req_params req) "name" with
        | Some n => n
        | None => VNone
        end in
      let found := filter (has_name name) (templates st) in
      (reply 200
         (VDict [("count", VInt (Z.of_nat (List.length found)));
                 ("results", VList (map resource found))]),
       st)
  | POST, EP_job_templates, Some body =>
      let entry := (next_id st, body) in
      (reply 201 (resource entry),
       {| templates := templates st ++ [entry];
          next_id := next_id st + 1;
          linked := linked st;
          link_status := link_status st |})
  | PATCH, EP_job_template (VInt id), Some body =>
      let templates' := patch_entry id body (templates st) in
      match find_entry id templates' with
      | Some entry =>
          (reply 200 (resource entry),
           {| templates := templates';
              next_id := next_id st;
              linked := linked st;
              link_status := link_status st |})
      | None => (not_found, st)
      end
  | POST, EP_job_template_credentials id, Some body =>
      if (link_status st <? 400)%Z then
        (Ok {| status_code := link_status st; json := Err OtherException |},
         {| templates := templates st;
            next_id := next_id st;
            linked := linked st ++
                      [(id, match dict_get body "id" with
                            | Some c => c
                            | None => VNone
                            end)];
            link_status := link_status st |})
      else
        (reply (link_status st)
           (VDict [("error", VStr "credential rejected")]), st)
  | _, _, _ => (reply 405 (VDict [("detail", VStr "Method not allowed.")]), st)
  end.

Definition empty_store (status : Z) : store :=
  {| templates := []; next_id := 1; linked := []; link_status := status |}.

Definition start (st : store) : AWXTemplateManager.state store :=
  {| AWXTemplateManager.world := st;
     AWXTemplateManager.calls := [];
     AWXTemplateManager.console := [] |}.

End ReferenceRemote.

(* ------------------------------------------------------------------ *)
(** ** Instances of the environment used by the examples *)

(** [int(s)] on a string of decimal digits. *)
Definition digit_of (c : ascii) : option Z :=
  let n := nat_of_ascii c in
  if (48 <=? n)%nat && (n <=? 57)%nat then Some (Z.of_nat (n - 48)) else None.

Fixpoint decimal_from (acc : Z) (s : string) : result Z :=
  match s with
  | EmptyString => Ok acc
  | String c rest =>
      match digit_of c with
      | Some d => decimal_from (10 * acc + d) rest
      | None => Err OtherException
      end
  end.

Definition decimal_int (s : string) : result Z :=
  match s with
  | EmptyString => Err OtherException
  | _ => decimal_from 0 s
  end.

(** A block-style serialiser for flat mappings of scalars, keys in sorted
    order, standing for [yaml.dump] in the examples. *)
Definition dump_scalar (v : value) : string :=
  match v with
  | VNone => "null"
  | VBool true => "true"
  | VBool false => "false"
  | VInt z => DecimalString.NilZero.string_of_int (Z.to_int z)
  | VStr s => s
  | VList _ => "[...]"
  | VDict _ => "{...}"
  end.

Definition newline : string := String (ascii_of_nat 10) EmptyString.

Definition dump_block (d : dict) : string :=
  match d with
  | [] => "{}" ++ newline
  | _ =>
      String.concat ""
        (map (fun k =>
                match dict_get d k with
                | Some v => k ++ ": " ++ dump_scalar v ++ newline
                | None => ""
                end)
             (py_sorted (dict_keys d)))
  end%string.

Definition never_relative (filepath : string) : option string := None.

Definition sample_config : Config :=
  {| awx_url := "https://awx.example.com";
     awx_token := "token";
     project_id := "8";
     inventory_id := "2";
     credential_id := "5";
     execution_environment_id := "";
     playbook_dir := "playbooks/esphome";
     verify_ssl := true |}.

(** The descriptor of the end-to-end scenario of the spec. *)
Definition flash_all_meta : dict :=
  [("name", VStr "");
   ("hosts", VStr "localhost");
   ("vars", VDict [("esphome_timeout", VInt 30);
                   ("device_patterns", VList [VStr "a"; VStr "b"])]);
   ("filepath", VStr "flash_all.yaml")].

(** A directory with one named playbook. *)
Definition kitchen_path : string := "playbooks/esphome/flash_kitchen.yaml".

Definition kitchen_files (filepath : string) : result value :=
  if filepath =? kitchen_path then
    Ok (VList [VDict [("name", VStr "Flash Kitchen");
                      ("hosts", VStr "localhost");
                      ("vars", VDict [("esphome_timeout", VInt 30)])]])
  else Err OtherException.

(** The resource built for the kitchen playbook under [sample_config], and
    the payload left after its credentials are popped. *)
Definition kitchen_template_data : dict :=
  [("name", VStr "Flash Kitchen");
   ("description", VStr "Flash Kitchen");
   ("job_type", VStr "run");
   ("inventory", VInt 2);
   ("project", VInt 8);
   ("playbook", VStr kitchen_path);
   ("ask_variables_on_launch", VBool true);
   ("extra_vars", VStr ("esphome_timeout: 30" ++ newline));
   ("credentials", VList [VInt 5])].

Definition kitchen_payload : dict :=
  dict_remove kitchen_template_data "credentials".

(** A directory with one playbook that declares no name. *)
Definition unnamed_path : string := "playbooks/esphome/scratch.yaml".

Definition unnamed_files (filepath : string) : result value :=
  if filepath =? unnamed_path then
    Ok (VList [VDict [("hosts", VStr "localhost")]])
  else Err OtherException.

(* ------------------------------------------------------------------ *)
(** ** Specification vocabulary *)

(** A decoded document that is a sequence all of whose elements are
    mappings. *)
Definition is_dict (v : value) : bool :=
  match v with
  | VDict _ => true
  | _ => false
  end.

Definition is_sequence_of_mappings (doc : value) : bool :=
  match doc with
  | VList l => forallb is_dict l
  | _ => false
  end.

(** Code point order on strings, as a relation. *)
Definition str_le (a b : string) : Prop := (a <=? b)%string = true.

(** The requests the template manager issues. *)
Definition find_request (name : value) : request :=
  {| req_method := GET; req_endpoint := EP_job_templates;
     req_params := [("name", name)]; req_json := None |}.

Definition create_request (payload : dict) : request :=
  {| req_method := POST; req_endpoint := EP_job_templates;
     req_params := []; req_json := Some payload |}.

Definition update_request (template_id : value) (payload : dict) : request :=
  {| req_method := PATCH; req_endpoint := EP_job_template template_id;
     req_params := []; req_json := Some payload |}.

Definition link_request (template_id cred_id : value) : request :=
  {| req_method := POST;
     req_endpoint := EP_job_template_credentials template_id;
     req_params := []; req_json := Some [("id", cred_id)] |}.

(** A request that creates a job template. *)
Definition is_create (req : request) : bool :=
  match req_method req, req_endpoint req with
  | POST, EP_job_templates => true
  | _, _ => false
  end.

(** A request that links a credential. *)
Definition is_link (req : request) : bool :=
  match req_endpoint req with
  | EP_job_template_credentials _ => true
  | _ => false
  end.

(** A request whose body still has a ['credentials'] entry. *)
Definition carries_credentials (req : request) : bool :=
  match req_json req with
  | Some body => dict_mem body "credentials"
  | None => false
  end.

Definition is_creating_line (l : line) : bool :=
  match l with
  | L_creating _ => true
  | _ => false
  end.

(** Printed lines none of which announces a creation. *)
Definition quiet (ls : list line) : Prop :=
  Forall (fun l => is_creating_line l = false) ls.

(** The credentials [create_or_update_template] links for a payload: the
    items of a true ['credentials'] entry. *)
Definition credential_items (template_data : dict) : list value :=
  match dict_get template_data "credentials" with
  | Some c =>
      if truthy c then
        match AWXTemplateManager.py_iter c with
        | Ok l => l
        | Err _ => []
        end
      else []
  | None => []
  end.

(** [s'] is [s] after the requests [cs] and the printed lines [ls]. *)
Definition grows {W} (s s' : AWXTemplateManager.state W)
           (cs : list request) (ls : list line) : Prop :=
  AWXTemplateManager.calls s' = AWXTemplateManager.calls s ++ cs
  /\ AWXTemplateManager.console s' = AWXTemplateManager.console s ++ ls.

(** [s] after printing [l]. *)
Definition say {W} (l : line) (s : AWXTemplateManager.state W)
  : AWXTemplateManager.state W :=
  {| AWXTemplateManager.world := AWXTemplateManager.world s;
     AWXTemplateManager.calls := AWXTemplateManager.calls s;
     AWXTemplateManager.console := AWXTemplateManager.console s ++ [l] |}.

(** The last two steps of [create_or_update_template]: link the credentials,
    then return what the write returned. *)
Definition link_step {W} (session_request : request -> W -> result response * W)
           (template_id : value) (template_data : dict)
  : AWXTemplateManager.M W unit :=
  let credentials :=
    match dict_get template_data "credentials" with
    | Some c => c
    | None => VNone
    end in
  if truthy credentials
  then AWXTemplateManager.associate_credentials W session_request
         template_id credentials
  else AWXTemplateManager.ret tt.

Definition finish {W} (session_request : request -> W -> result response * W)
           (written template_id : value) (template_data : dict)
           (s : AWXTemplateManager.state W)
  : result value * AWXTemplateManager.state W :=
  match link_step session_request template_id template_data s with
  | (Ok _, s') => (Ok written, s')
  | (Err e, s') => (Err e, s')
  end.

(** Two remotes that answer every request other than a credential link alike
    and move through related worlds, whatever they answer to a link. *)
Definition agree_outside_links {W1 W2} (R : W1 -> W2 -> Prop)
           (remote1 : request -> W1 -> result response * W1)
           (remote2 : request -> W2 -> result response * W2) : Prop :=
  forall req w1 w2,
    R w1 w2 ->
    R (snd (remote1 req w1)) (snd (remote2 req w2))
    /\ (is_link req = false -> fst (remote1 req w1) = fst (remote2 req w2)).

(** States with related worlds and the same call log; consoles may differ. *)
Definition same_remote {W1 W2} (R : W1 -> W2 -> Prop)
           (s1 : AWXTemplateManager.state W1)
           (s2 : AWXTemplateManager.state W2) : Prop :=
  R (AWXTemplateManager.world s1) (AWXTemplateManager.world s2)
  /\ AWXTemplateManager.calls s1 = AWXTemplateManager.calls s2.

(** Two computations that, from such states, give the same outcome and end
    in such states. *)
Definition sim {W1 W2 A} (R : W1 -> W2 -> Prop)
           (m1 : AWXTemplateManager.M W1 A) (m2 : AWXTemplateManager.M W2 A)
  : Prop :=
  forall s1 s2,
    same_remote R s1 s2 ->
    fst (m1 s1) = fst (m2 s2) /\ same_remote R (snd (m1 s1)) (snd (m2 s2)).

(** Stores of the reference remote that hold the same templates. *)
Definition same_templates (w1 w2 : ReferenceRemote.store) : Prop :=
  ReferenceRemote.templates w1 = ReferenceRemote.templates w2
  /\ ReferenceRemote.next_id w1 = ReferenceRemote.next_id w2.

(* ------------------------------------------------------------------ *)
(** ** Vocabulary of the further properties *)

(** The state after one logged request that moved the remote to [w']. *)
Definition after_call {W} (req : request) (w' : W)
           (s : AWXTemplateManager.state W) : AWXTemplateManager.state W :=
  {| AWXTemplateManager.world := w';
     AWXTemplateManager.calls := AWXTemplateManager.calls s ++ [req];
     AWXTemplateManager.console := AWXTemplateManager.console s |}.

(** The three ways one playbook extends the summary. *)
Definition count_failed (file : string) (results : AWXTemplateManager.Results)
  : AWXTemplateManager.Results :=
  {| AWXTemplateManager.created := AWXTemplateManager.created results;
     AWXTemplateManager.updated := AWXTemplateManager.updated results;
     AWXTemplateManager.failed := AWXTemplateManager.failed results ++ [file] |}.

Definition count_created (name : value) (results : AWXTemplateManager.Results)
  : AWXTemplateManager.Results :=
  {| AWXTemplateManager.created := AWXTemplateManager.created results ++ [name];
     AWXTemplateManager.updated := AWXTemplateManager.updated results;
     AWXTemplateManager.failed := AWXTemplateManager.failed results |}.

Definition count_updated (name : value) (results : AWXTemplateManager.Results)
  : AWXTemplateManager.Results :=
  {| AWXTemplateManager.created := AWXTemplateManager.created results;
     AWXTemplateManager.updated := AWXTemplateManager.updated results ++ [name];
     AWXTemplateManager.failed := AWXTemplateManager.failed results |}.

(** The entries of the source that the projection keeps, in allow-list
    order. *)
Definition allowed_entries (playbook_vars : dict) : dict :=
  flat_map (fun key =>
              match dict_get playbook_vars key with
              | Some v => [(key, v)]
              | None => []
              end)
           PlaybookParser.var_keys.

(** The list values stored under keys that end in ["_patterns"], in
    mapping order. *)
Definition pattern_lists (playbook_vars : dict) : list (list value) :=
  flat_map (fun entry =>
              if endswith (fst entry) "_patterns" then
                match snd entry with
                | VList l => [l]
                | _ => []
                end
              else [])
           playbook_vars.

Definition is_str (v : value) : bool :=
  match v with
  | VStr _ => true
  | _ => false
  end.

Definition pattern_segment (items : list string) : string :=
  "Patterns: " ++ String.concat ", " items.

(** An optional identifier of the configuration: absent when the setting is
    empty, otherwise the integer it parses to. *)
Definition configured (py_int : string -> result Z) (setting : string)
  : result (option Z) :=
  if setting =? "" then Ok None
  else rbind (py_int setting) (fun z => Ok (Some z)).

(** The fields [build_template_data] adds after the eight fixed ones. *)
Definition optional_fields (credential environment : option Z) (limit : bool)
  : dict :=
  match credential with
  | Some c => [("credentials", VList [VInt c])]
  | None => []
  end
  ++ match environment with
     | Some ee => [("execution_environment", VInt ee)]
     | None => []
     end
  ++ (if limit then [("ask_limit_on_launch", VBool false)] else []).

(** The name [build_template_data] derives from a path. *)
Definition derived_name (filepath : string) : string :=
  title (replace_char "_" " " (path_stem filepath)).

Definition has_char (c : ascii) (s : string) : Prop :=
  In c (list_ascii_of_string s).

(** Text of ASCII characters only, on which [title] is [str.title]. *)
Definition ascii_only (s : string) : bool :=
  forallb (fun c => (nat_of_ascii c <? 128)%nat) (list_ascii_of_string s).


(* ------------------------------------------------------------------ *)
(** ** Further instances *)

(** A remote without state whose answers are read off a table. *)
Definition scripted (answer : request -> result response)
           (req : request) (w : unit) : result response * unit :=
  (answer req, w).

Definition scripted_start : AWXTemplateManager.state unit :=
  {| AWXTemplateManager.world := tt;
     AWXTemplateManager.calls := [];
     AWXTemplateManager.console := [] |}.

(** No connection: every request raises. *)
Definition offline (req : request) : result response := Err RequestException.

(** The reference remote behind a broken query endpoint: every GET is
    answered with status 500. *)
Definition blind_serve (req : request) (st : ReferenceRemote.store)
  : result response * ReferenceRemote.store :=
  match req_method req with
  | GET =>
      (ReferenceRemote.reply 500 (VDict [("detail", VStr "Server Error")]), st)
  | _ => ReferenceRemote.serve req st
  end.

(** The reference store once the kitchen template is created and linked. *)
Definition kitchen_store : ReferenceRemote.store :=
  {| ReferenceRemote.templates := [(1%Z, kitchen_payload)];
     ReferenceRemote.next_id := 2;
     ReferenceRemote.linked := [(VInt 1, VInt 5)];
     ReferenceRemote.link_status := 204 |}.

(** A remote that lists template 3 for every name and answers a PATCH with
    an object that has no ['id']. *)
Definition idless_answer (req : request) : result response :=
  match req_method req with
  | GET =>
      Ok {| status_code := 200;
            json := Ok (VDict [("results", VList [VDict [("id", VInt 3)]])]) |}
  | PATCH =>
      Ok {| status_code := 200;
            json := Ok (VDict [("detail", VStr "accepted")]) |}
  | POST => Ok {| status_code := 204; json := Err OtherException |}
  end.

(** A remote that finds nothing and refuses every write with status 400. *)
Definition refusing_answer (req : request) : result response :=
  match req_method req with
  | GET =>
      Ok {| status_code := 200; json := Ok (VDict [("results", VList [])]) |}
  | _ =>
      Ok {| status_code := 400;
            json := Ok (VDict [("detail", VStr "Bad Request")]) |}
  end.

(** What [parse_playbook] returns for the kitchen playbook, and the state in
    which the loop hands its resource to the reconciliation. *)
Definition kitchen_meta : dict :=
  [("name", VStr "Flash Kitchen");
   ("hosts", VStr "localhost");
   ("vars", VDict [("esphome_timeout", VInt 30)]);
   ("filepath", VStr kitchen_path)].

Definition kitchen_ready {W} (s : AWXTemplateManager.state W)
  : AWXTemplateManager.state W :=
  say (L_using_playbook (VStr kitchen_path))
    (say (L_processing "flash_kitchen.yaml") s).

(** A file whose document is a sequence of scalars. *)
Definition scalar_files (filepath : string) : result value :=
  Ok (VList [VStr "flash"]).

(** A named playbook that declares no variables. *)
Definition plain_meta : dict :=
  [("name", VStr "Reboot Devices");
   ("hosts", VStr "localhost");
   ("vars", VDict []);
   ("filepath", VStr "playbooks/esphome/reboot.yaml")].

(** Metadata whose declared name is a number. *)
Definition numbered_meta : dict :=
  [("name", VInt 7);
   ("hosts", VStr "localhost");
   ("vars", VDict []);
   ("filepath", VStr "seven.yaml")].

(* ------------------------------------------------------------------ *)
(** ** The survey script: [class AWXSurveyManager] and [main]

    The script has its own manager class and its own endpoints.  Its state
    logs every exchange with the remote, the request together with what
    [session.request] gave back.  [sys.exit] is the third way a computation
    can end, next to returning and raising; no handler of the script catches
    it. *)

Module SurveyScript.

(** The entries of [CONFIG] of the survey script. *)
Record Config : Type := {
  awx_url : string;
  awx_token : string;
  template_id : string;
  k3s_apps_file : string;
  verify_ssl : bool
}.

Inductive endpoint : Type :=
| EP_job_template : Z -> endpoint          (* /job_templates/{id}/ *)
| EP_survey_spec : Z -> endpoint.          (* /job_templates/{id}/survey_spec/ *)

Record request : Type := {
  req_method : http_method;
  req_endpoint : endpoint;
  req_json : option dict
}.

(** One constructor for each [print] of the script. *)
Inductive line : Type :=
| L_banner : line
| L_missing_config : list string -> line
| L_loading : string -> line
| L_file_not_found : string -> line
| L_found : Z -> line
| L_application : string -> value -> line
| L_fetching : Z -> line
| L_template_not_found : Z -> line
| L_template_name : value -> line
| L_template_playbook : value -> line
| L_current_survey : Z -> line
| L_building : line
| L_updating : Z -> line
| L_updated : line
| L_enabling : line
| L_enabled : line
| L_success : Z -> Z -> line
| L_failure : exn -> line
| L_api_error_details : value -> line
| L_api_error_text : line
| L_error_getting_template : exn -> line.

(** How a computation ends. *)
Inductive outcome (A : Type) : Type :=
| Val : A -> outcome A
| Raise : exn -> outcome A
| SysExit : Z -> outcome A.
Arguments Val {A} _.
Arguments Raise {A} _.
Arguments SysExit {A} _.

(** [config.get(k)] for the keys [validate_config] asks for. *)
Definition config_get (config : Config) (k : string) : string :=
  if k =? "awx_url" then awx_url config
  else if k =? "awx_token" then awx_token config
  else if k =? "template_id" then template_id config
  else "".

Definition required : list string := ["awx_url"; "awx_token"; "template_id"].

Definition missing (config : Config) : list string :=
  filter (fun k => config_get config k =? "") required.

(** [len(v)]; a scalar has no length. *)
Definition py_len (v : value) : result Z :=
  match v with
  | VStr s => Ok (Z.of_nat (String.length s))
  | VList l => Ok (Z.of_nat (List.length l))
  | VDict d => Ok (Z.of_nat (List.length d))
  | _ => Err OtherException
  end.

Section Remote.
Variable W : Type.
Variable session_request : request -> W -> result response * W.
(** [Path(filepath).exists()], [yaml.safe_load(open(filepath))] and [int]. *)
Variable file_exists : string -> bool.
Variable read_yaml : string -> result value.
Variable py_int : string -> result Z.

Record state : Type := {
  world : W;
  exchanges : list (request * result response);
  console : list line
}.

Definition M (A : Type) : Type := state -> outcome A * state.

Definition ret {A} (a : A) : M A := fun s => (Val a, s).

Definition bind {A B} (m : M A) (k : A -> M B) : M B :=
  fun s =>
    match m s with
    | (Val a, s') => k a s'
    | (Raise e, s') => (Raise e, s')
    | (SysExit code, s') => (SysExit code, s')
    end.

Definition lift {A} (r : result A) : M A :=
  fun s =>
    match r with
    | Ok a => (Val a, s)
    | Err e => (Raise e, s)
    end.

Definition raise {A} (e : exn) : M A := fun s => (Raise e, s).

Definition sys_exit {A} (code : Z) : M A := fun s => (SysExit code, s).

Definition print (l : line) : M unit :=
  fun s =>
    (Val tt, {| world := world s; exchanges := exchanges s;
                console := console s ++ [l] |}).

(** [try: m except C as e: h e]; [SystemExit] is not an [Exception]. *)
Definition try_except {A} (m : M A) (handles : exn -> bool) (h : exn -> M A)
  : M A :=
  fun s =>
    match m s with
    | (Raise e, s') => if handles e then h e s' else (Raise e, s')
    | other => other
    end.

Notation "x <- e ;; k" := (bind e (fun x => k))
  (at level 61, e at next level, right associativity).
Notation "e ;;; k" := (bind e (fun _ => k))
  (at level 61, right associativity).

Definition is_http_error (r : response) : bool :=
  (400 <=? status_code r)%Z && (status_code r <? 600)%Z.

Definition session_request_logged (req : request) : M response :=
  fun s =>
    let (r, w') := session_request req (world s) in
    let s' := {| world := w'; exchanges := exchanges s ++ [(req, r)];
                 console := console s |} in
    match r with
    | Ok resp => (Val resp, s')
    | Err e => (Raise e, s')
    end.

Definition _api_call (method : http_method) (ep : endpoint)
           (body : option dict) : M response :=
  resp <- session_request_logged
            {| req_method := method; req_endpoint := ep; req_json := body |} ;;
  if is_http_error resp then
    match json resp with
    | Ok error_detail => print (L_api_error_details error_detail)
    | Err _ => print L_api_error_text
    end ;;;
    raise RequestException
  else ret resp.

Definition is_request_exception (e : exn) : bool :=
  match e with
  | RequestException => true
  | OtherException => false
  end.

Definition is_exception (e : exn) : bool := true.

Definition get_template (template_id : Z) : M value :=
  try_except
    (resp <- _api_call GET (EP_job_template template_id) None ;;
     lift (json resp))
    is_request_exception
    (fun e => print (L_error_getting_template e) ;;; ret VNone).

Definition get_survey (template_id : Z) : M value :=
  try_except
    (resp <- _api_call GET (EP_survey_spec template_id) None ;;
     lift (json resp))
    is_request_exception
    (fun e => ret VNone).

Definition update_survey (template_id : Z) (survey_spec : dict) : M bool :=
  resp <- _api_call POST (EP_survey_spec template_id) (Some survey_spec) ;;
  ret (status_code resp =? 200)%Z.

Definition enable_survey (template_id : Z) : M value :=
  resp <- _api_call PATCH (EP_job_template template_id)
            (Some [("survey_enabled", VBool true)]) ;;
  lift (json resp).

Definition load_k3s_applications (filepath : string) : M value :=
  if negb (file_exists filepath) then
    print (L_file_not_found filepath) ;;; sys_exit 1
  else
    data <- lift (read_yaml filepath) ;;
    lift (py_get data "k3s_applications" (VDict [])).

Definition validate_config (config : Config) : M bool :=
  match missing config with
  | [] => ret true
  | missing_keys => print (L_missing_config missing_keys) ;;; ret false
  end.

(** [applications.keys()]. *)
Definition py_keys (v : value) : result (list string) :=
  match v with
  | VDict d => Ok (dict_keys d)
  | _ => Err OtherException
  end.

(** The loop that prints one line for each application. *)
Fixpoint list_applications (applications : value) (names : list string)
  : M unit :=
  match names with
  | [] => ret tt
  | app_name :: rest =>
      entry <- lift (py_subscript applications app_name) ;;
      deployment_method <-
        lift (py_get entry "deployment_method" (VStr "unknown")) ;;
      print (L_application app_name deployment_method) ;;;
      list_applications applications rest
  end.

(** [survey_spec['spec'][0]['choices']] of a survey spec. *)
Definition survey_choices (survey_spec : dict) : result value :=
  (spec <- py_getitem survey_spec "spec" ;;
   question <- py_index0 spec ;;
   py_subscript question "choices")%result.

Definition main (CONFIG : Config) : M unit :=
  print L_banner ;;;
  valid <- validate_config CONFIG ;;
  if negb valid then sys_exit 1 else
  print (L_loading (k3s_apps_file CONFIG)) ;;;
  applications <- load_k3s_applications (k3s_apps_file CONFIG) ;;
  count <- lift (py_len applications) ;;
  print (L_found count) ;;;
  names <- lift (py_keys applications) ;;
  list_applications applications (py_sorted names) ;;;
  template_id <- lift (py_int (template_id CONFIG)) ;;
  print (L_fetching template_id) ;;;
  template <- get_template template_id ;;
  if negb (truthy template) then
    print (L_template_not_found template_id) ;;; sys_exit 1
  else
  template_name <- lift (py_subscript template "name") ;;
  print (L_template_name template_name) ;;;
  template_playbook <- lift (py_get template "playbook" (VStr "N/A")) ;;
  print (L_template_playbook template_playbook) ;;;
  current_survey <- get_survey template_id ;;
  (if truthy current_survey then
     spec <- lift (py_get current_survey "spec" (VList [])) ;;
     questions <- lift (py_len spec) ;;
     print (L_current_survey questions)
   else ret tt) ;;;
  print L_building ;;;
  application_dict <- lift (as_dict applications) ;;
  let survey_spec := build_survey_spec application_dict in
  choices <- lift (survey_choices survey_spec) ;;
  choice_count <- lift (py_len choices) ;;
  print (L_updating choice_count) ;;;
  try_except
    (success <- update_survey template_id survey_spec ;;
     (if negb success then raise OtherException else ret tt) ;;;
     print L_updated ;;;
     print L_enabling ;;;
     enable_survey template_id ;;;
     print L_enabled ;;;
     print (L_success template_id choice_count))
    is_exception
    (fun e => print (L_failure e) ;;; sys_exit 1).

End Remote.

Arguments world {W} _.
Arguments exchanges {W} _.
Arguments console {W} _.

End SurveyScript.

(* ------------------------------------------------------------------ *)
(** ** Vocabulary of the survey script *)

(** The requests of the survey script, in the order [main] issues them. *)
Definition survey_protocol (template_id : Z) (applications : dict)
  : list SurveyScript.request :=
  [{| SurveyScript.req_method := GET;
      SurveyScript.req_endpoint := SurveyScript.EP_job_template template_id;
      SurveyScript.req_json := None |};
   {| SurveyScript.req_method := GET;
      SurveyScript.req_endpoint := SurveyScript.EP_survey_spec template_id;
      SurveyScript.req_json := None |};
   {| SurveyScript.req_method := POST;
      SurveyScript.req_endpoint := SurveyScript.EP_survey_spec template_id;
      SurveyScript.req_json := Some (build_survey_spec applications) |};
   {| SurveyScript.req_method := PATCH;
      SurveyScript.req_endpoint := SurveyScript.EP_job_template template_id;
      SurveyScript.req_json := Some [("survey_enabled", VBool true)] |}].

(** A state of the survey script after more printing and no exchange. *)
Definition only_printed {W} (s s' : SurveyScript.state W) : Prop :=
  SurveyScript.world s' = SurveyScript.world s
  /\ SurveyScript.exchanges s' = SurveyScript.exchanges s.

Section SurveyVocabulary.
Import SurveyScript.
Variable W : Type.
Variable session_request : request -> W -> result response * W.
Variable file_exists : string -> bool.
Variable read_yaml : string -> result value.
Variable py_int : string -> result Z.

(** A lookup of the survey script, [get_template] or [get_survey]. *)
Definition lookup_facts (req : request) (s s' : state W) (out : outcome value)
  : Prop :=
  let r := fst (session_request req (world s)) in
  exchanges s' = exchanges s ++ [(req, r)]
  /\ world s' = snd (session_request req (world s))
  /\ (forall code, out <> SysExit code)
  /\ out <> Raise RequestException
  /\ (r = Err RequestException
      \/ (exists resp, r = Ok resp /\ is_http_error resp = true) ->
      out = Val VNone)
  /\ (forall resp v,
         r = Ok resp -> is_http_error resp = false -> json resp = Ok v ->
         out = Val v).

(** The inventory was read and holds the applications [apps]. *)
Definition loaded (CONFIG : Config) (apps : dict) : Prop :=
  file_exists (k3s_apps_file CONFIG) = true
  /\ exists data,
      read_yaml (k3s_apps_file CONFIG) = Ok data
      /\ py_get data "k3s_applications" (VDict []) = Ok (VDict apps).

(** What a run of [main] leaves in the exchange log. *)
Definition survey_run (CONFIG : Config) (s s' : state W) (out : outcome unit)
  : Prop :=
  exists new,
    exchanges s' = exchanges s ++ new
    /\ (forall code, out = SysExit code -> code = 1%Z)
    /\ ((new = [] /\ out <> Val tt /\ world s' = world s)
        \/ exists i apps k,
            missing CONFIG = []
            /\ loaded CONFIG apps
            /\ py_int (template_id CONFIG) = Ok i
            /\ (1 <= k <= 4)%nat
            /\ map fst new = firstn k (survey_protocol i apps)
            /\ (out = Val tt -> k = 4%nat)
            /\ (k = 3%nat -> out = SysExit 1)
            /\ (k = 4%nat ->
                exists resp,
                  nth_error new 2 = Some (nth 2 (survey_protocol i apps)
                                              (nth 0 (survey_protocol i apps)
                                                   {| req_method := GET;
                                                      req_endpoint := EP_job_template i;
                                                      req_json := None |}),
                                          Ok resp)
                  /\ status_code resp = 200%Z)).

End SurveyVocabulary.

Arguments lookup_facts {W} _ _ _ _ _.
Arguments survey_run {W} _ _ _ _ _ _ _.

(* ------------------------------------------------------------------ *)
(** ** Instances of the survey script *)

(** A remote without state: the template exists, it has no survey yet, the
    survey update is answered with [update_status] and an empty body. *)
Definition survey_answer (update_status : Z) (req : SurveyScript.request)
           (w : unit) : result response * unit :=
  (Ok match SurveyScript.req_method req, SurveyScript.req_endpoint req with
      | GET, SurveyScript.EP_job_template i =>
          {| status_code := 200;
             json := Ok (VDict [("id", VInt i);
                                ("name", VStr "K3s - Update Application");
                                ("playbook", VStr "playbooks/k3s/update.yml")]) |}
      | GET, SurveyScript.EP_survey_spec _ =>
          {| status_code := 404;
             json := Ok (VDict [("detail", VStr "Not found.")]) |}
      | POST, _ => {| status_code := update_status; json := Err OtherException |}
      | PATCH, _ =>
          {| status_code := 200;
             json := Ok (VDict [("survey_enabled", VBool true)]) |}
      end, w).

(** A remote that cannot be reached. *)
Definition survey_unreachable (req : SurveyScript.request) (w : unit)
  : result response * unit :=
  (Err RequestException, w).

Definition survey_config : SurveyScript.Config :=
  {| SurveyScript.awx_url := "https://awx.example.net";
     SurveyScript.awx_token := "token";
     SurveyScript.template_id := "32";
     SurveyScript.k3s_apps_file := "inventories/group_vars/all/k3s_applications.yml";
     SurveyScript.verify_ssl := true |}.

Definition survey_config_without_token : SurveyScript.Config :=
  {| SurveyScript.awx_url := "https://awx.example.net";
     SurveyScript.awx_token := "";
     SurveyScript.template_id := "32";
     SurveyScript.k3s_apps_file := "inventories/group_vars/all/k3s_applications.yml";
     SurveyScript.verify_ssl := true |}.

Definition inventory_applications : dict :=
  [("grafana", VDict [("deployment_method", VStr "helm")]);
   ("awx", VDict [("deployment_method", VStr "operator")]);
   ("mosquitto", VDict [])].

Definition inventory_exists (filepath : string) : bool :=
  filepath =? "inventories/group_vars/all/k3s_applications.yml".

Definition inventory_yaml (filepath : string) : result value :=
  if filepath =? "inventories/group_vars/all/k3s_applications.yml" then
    Ok (VDict [("k3s_applications", VDict inventory_applications)])
  else if filepath =? "scalar.yml" then Ok (VInt 3)
  else Ok (VDict [("other", VInt 1)]).

Definition survey_start : SurveyScript.state unit :=
  {| SurveyScript.world := tt; SurveyScript.exchanges := [];
     SurveyScript.console := [] |}.

(* ------------------------------------------------------------------ *)
(** ** The maintenance script: [create_maintenance], [delete_maintenance]
    and [main]

    The script talks to Uptime Kuma through the methods of one
    [UptimeKumaApi] object.  Each method call is an [api_call]; the state
    logs the calls in the order they are made. *)

Module UptimeKuma.

(** [--action]: [disable] creates the maintenance window, [enable] deletes
    it. *)
Inductive action : Type := Disable | Enable.

(** The parsed command line: the four options are required. *)
Record Args : Type := {
  args_action : action;
  args_url : string;
  args_username : string;
  args_password : string
}.

Inductive api_call : Type :=
| Connect : string -> api_call                    (* UptimeKumaApi(url) *)
| Login : string -> string -> api_call            (* api.login(user, password) *)
| Get_monitors : api_call
| Add_maintenance : api_call                      (* title, description, MANUAL, active *)
| Add_monitor_maintenance : value -> list value -> api_call
| Get_status_pages : api_call
| Add_status_page_maintenance : value -> list value -> api_call
| Get_maintenances : api_call
| Delete_maintenance : value -> api_call
| Disconnect : api_call.

(** One constructor for each [print] of the script. *)
Inductive line : Type :=
| L_no_groups : line
| L_create_failed : line
| L_created_with_pages : value -> Z -> Z -> line
| L_created : value -> Z -> line
| L_deleted : value -> line
| L_nothing_to_delete : line
| L_deleted_count : Z -> line
| L_error : exn -> line.

(** How a computation ends: a value, an exception, or [sys.exit]. *)
Inductive outcome (A : Type) : Type :=
| Val : A -> outcome A
| Raise : exn -> outcome A
| SysExit : Z -> outcome A.
Arguments Val {A} _.
Arguments Raise {A} _.
Arguments SysExit {A} _.

(** The title the script gives to its window and looks for when deleting. *)
Definition window_title : string := "Ansible Maintenance Window".

(** [v == s] for a string literal [s]. *)
Definition py_eq_str (v : value) (s : string) : bool :=
  match v with
  | VStr t => t =? s
  | _ => false
  end.

(** [[{"id": m["id"]} for m in monitors if m.get("type") == "group"]]. *)
Fixpoint group_ids (monitors : list value) : result (list value) :=
  match monitors with
  | [] => Ok []
  | m :: rest =>
      (type <- py_get m "type" VNone ;;
       if py_eq_str type "group" then
         id <- py_subscript m "id" ;;
         ids <- group_ids rest ;;
         Ok (VDict [("id", id)] :: ids)
       else group_ids rest)%result
  end.

(** [[{"id": sp["id"]} for sp in status_pages]]. *)
Fixpoint page_ids (status_pages : list value) : result (list value) :=
  match status_pages with
  | [] => Ok []
  | sp :: rest =>
      (id <- py_subscript sp "id" ;;
       ids <- page_ids rest ;;
       Ok (VDict [("id", id)] :: ids))%result
  end.

Section Api.
Variable W : Type.
Variable api : api_call -> W -> result value * W.

Record state : Type := {
  world : W;
  calls : list api_call;
  console : list line
}.

Definition M (A : Type) : Type := state -> outcome A * state.

Definition ret {A} (a : A) : M A := fun s => (Val a, s).

Definition bind {A B} (m : M A) (k : A -> M B) : M B :=
  fun s =>
    match m s with
    | (Val a, s') => k a s'
    | (Raise e, s') => (Raise e, s')
    | (SysExit code, s') => (SysExit code, s')
    end.

Definition lift {A} (r : result A) : M A :=
  fun s =>
    match r with
    | Ok a => (Val a, s)
    | Err e => (Raise e, s)
    end.

Definition sys_exit {A} (code : Z) : M A := fun s => (SysExit code, s).

Definition print (l : line) : M unit :=
  fun s =>
    (Val tt, {| world := world s; calls := calls s;
                console := console s ++ [l] |}).

(** [try: m except Exception as e: h e]; [SystemExit] passes through. *)
Definition try_except {A} (m : M A) (h : exn -> M A) : M A :=
  fun s =>
    match m s with
    | (Raise e, s') => h e s'
    | other => other
    end.

Notation "x <- e ;; k" := (bind e (fun x => k))
  (at level 61, e at next level, right associativity).
Notation "e ;;; k" := (bind e (fun _ => k))
  (at level 61, right associativity).

(** One method call on the [api] object. *)
Definition call (c : api_call) : M value :=
  fun s =>
    let (r, w') := api c (world s) in
    let s' := {| world := w'; calls := calls s ++ [c];
                 console := console s |} in
    match r with
    | Ok v => (Val v, s')
    | Err e => (Raise e, s')
    end.

Definition create_maintenance : M bool :=
  monitors <- call Get_monitors ;;
  items <- lift (AWXTemplateManager.py_iter monitors) ;;
  monitor_ids <- lift (group_ids items) ;;
  match monitor_ids with
  | [] => print L_no_groups ;;; ret true
  | _ :: _ =>
      result <- call Add_maintenance ;;
      maintenance_id <- lift (py_get result "maintenanceID" VNone) ;;
      if negb (truthy maintenance_id) then
        print L_create_failed ;;; ret false
      else
        call (Add_monitor_maintenance maintenance_id monitor_ids) ;;;
        status_pages <- call Get_status_pages ;;
        (if truthy status_pages then
           pages <- lift (AWXTemplateManager.py_iter status_pages) ;;
           status_page_ids <- lift (page_ids pages) ;;
           call (Add_status_page_maintenance maintenance_id status_page_ids) ;;;
           print (L_created_with_pages maintenance_id
                    (Z.of_nat (List.length monitor_ids))
                    (Z.of_nat (List.length status_page_ids)))
         else
           print (L_created maintenance_id
                    (Z.of_nat (List.length monitor_ids)))) ;;;
        ret true
  end.

(** The loop of [delete_maintenance] over the listed windows. *)
Fixpoint delete_loop (maintenances : list value) (deleted_count : Z) : M Z :=
  match maintenances with
  | [] => ret deleted_count
  | maintenance :: rest =>
      title <- lift (py_get maintenance "title" VNone) ;;
      if py_eq_str title window_title then
        id <- lift (py_subscript maintenance "id") ;;
        call (Delete_maintenance id) ;;;
        print (L_deleted id) ;;;
        delete_loop rest (deleted_count + 1)%Z
      else delete_loop rest deleted_count
  end.

Definition delete_maintenance : M bool :=
  maintenances <- call Get_maintenances ;;
  items <- lift (AWXTemplateManager.py_iter maintenances) ;;
  deleted_count <- delete_loop items 0%Z ;;
  (if (deleted_count =? 0)%Z then print L_nothing_to_delete
   else print (L_deleted_count deleted_count)) ;;;
  ret true.

(** [parser.parse_args()] on the command line: the parsed arguments, or
    the status with which [argparse] ends the run, 2 after a usage error and
    0 after [--help]. *)
Variable parse_args : list string -> Args + Z.

Definition main (argv : list string) : M unit :=
  match parse_args argv with
  | inr status => sys_exit status
  | inl args =>
      try_except
        (call (Connect (args_url args)) ;;;
         call (Login (args_username args) (args_password args)) ;;;
         success <- match args_action args with
                    | Disable => create_maintenance
                    | Enable => delete_maintenance
                    end ;;
         call Disconnect ;;;
         sys_exit (if success then 0%Z else 1%Z))
        (fun e => print (L_error e) ;;; sys_exit 1%Z)
  end.

End Api.

Arguments world {W} _.
Arguments calls {W} _.
Arguments console {W} _.

End UptimeKuma.

(* ------------------------------------------------------------------ *)
(** ** Vocabulary of the maintenance script *)

(** The ids of the listed windows that carry the script's title. *)
Definition titled_ids (maintenances : list value) : list value :=
  flat_map (fun maintenance =>
              match maintenance with
              | VDict d =>
                  match dict_get d "title", dict_get d "id" with
                  | Some (VStr title), Some id =>
                      if title =? UptimeKuma.window_title then [id] else []
                  | _, _ => []
                  end
              | _ => []
              end) maintenances.

(** The monitors of type [group], each as the [{"id": ...}] the API takes. *)
Definition groups_of (monitors : list value) : list value :=
  flat_map (fun m =>
              match m with
              | VDict d =>
                  match dict_get d "type", dict_get d "id" with
                  | Some (VStr type), Some id =>
                      if type =? "group" then [VDict [("id", id)]] else []
                  | _, _ => []
                  end
              | _ => []
              end) monitors.

(** The calls of [create_maintenance] after the monitor listing, once a
    window id is known. *)
Definition association_calls (maintenance_id : value) (monitor_ids : list value)
           (status_page_ids : option (list value)) : list UptimeKuma.api_call :=
  [UptimeKuma.Add_monitor_maintenance maintenance_id monitor_ids;
   UptimeKuma.Get_status_pages]
  ++ match status_page_ids with
     | Some ids => [UptimeKuma.Add_status_page_maintenance maintenance_id ids]
     | None => []
     end.

(** The calls that open and close the session. *)
Definition is_session_call (c : UptimeKuma.api_call) : bool :=
  match c with
  | UptimeKuma.Connect _ | UptimeKuma.Login _ _ | UptimeKuma.Disconnect => true
  | _ => false
  end.

(* ------------------------------------------------------------------ *)
(** ** Instances of the maintenance script *)

Definition kuma_windows : list value :=
  [VDict [("id", VInt 4); ("title", VStr "Ansible Maintenance Window")];
   VDict [("id", VInt 5); ("title", VStr "Planned power cut")];
   VDict [("id", VInt 7); ("title", VStr "Ansible Maintenance Window")]].

(** An Uptime Kuma with two groups, one plain monitor, one status page and
    three maintenance windows, two of them the script's own.  The listing
    does not change when a window is deleted, which is enough here. *)
Definition kuma_api (c : UptimeKuma.api_call) (w : unit) : result value * unit :=
  (match c with
   | UptimeKuma.Get_monitors =>
       Ok (VList [VDict [("id", VInt 1); ("type", VStr "group")];
                  VDict [("id", VInt 2); ("type", VStr "http")];
                  VDict [("id", VInt 3); ("type", VStr "group")]])
   | UptimeKuma.Add_maintenance =>
       Ok (VDict [("msg", VStr "Added Successfully."); ("maintenanceID", VInt 7)])
   | UptimeKuma.Get_status_pages =>
       Ok (VList [VDict [("id", VInt 1); ("slug", VStr "home")]])
   | UptimeKuma.Get_maintenances => Ok (VList kuma_windows)
   | _ => Ok (VDict [("msg", VStr "ok")])
   end, w).

(** The same server without monitor groups. *)
Definition kuma_without_groups (c : UptimeKuma.api_call) (w : unit)
  : result value * unit :=
  (match c with
   | UptimeKuma.Get_monitors =>
       Ok (VList [VDict [("id", VInt 2); ("type", VStr "http")]])
   | _ => Ok (VDict [("msg", VStr "ok")])
   end, w).

(** A server whose login fails. *)
Definition kuma_rejecting (c : UptimeKuma.api_call) (w : unit)
  : result value * unit :=
  (match c with
   | UptimeKuma.Login _ _ => Err OtherException
   | _ => Ok (VDict [("msg", VStr "ok")])
   end, w).

Definition kuma_start : UptimeKuma.state unit :=
  {| UptimeKuma.world := tt; UptimeKuma.calls := []; UptimeKuma.console := [] |}.

(** A command line reader that takes the four options in the order of the
    usage text and knows [--help]. *)
Definition kuma_parse (argv : list string) : UptimeKuma.Args + Z :=
  match argv with
  | [help] => if help =? "--help" then inr 0%Z else inr 2%Z
  | [o1; action; o2; url; o3; username; o4; password] =>
      if (o1 =? "--action") && (o2 =? "--url") && (o3 =? "--username")
         && (o4 =? "--password")
      then
        if action =? "disable" then
          inl {| UptimeKuma.args_action := UptimeKuma.Disable;
                 UptimeKuma.args_url := url;
                 UptimeKuma.args_username := username;
                 UptimeKuma.args_password := password |}
        else if action =? "enable" then
          inl {| UptimeKuma.args_action := UptimeKuma.Enable;
                 UptimeKuma.args_url := url;
                 UptimeKuma.args_username := username;
                 UptimeKuma.args_password := password |}
        else inr 2%Z
      else inr 2%Z
  | _ => inr 2%Z
  end.

Definition kuma_argv (action : string) : list string :=
  ["--action"; action; "--url"; "https://uptime.example.net";
   "--username"; "ansible"; "--password"; "secret"].

(* ------------------------------------------------------------------ *)
(** * Properties *)

(** ** String primitives on the names of the repository *)

Example title_flash_all : title "flash all" = "Flash All".
Proof. reflexivity. Qed.

Example stem_flash_all : path_stem "playbooks/esphome/flash_all.yaml" = "flash_all".
Proof. reflexivity. Qed.

(** ** Dict lemmas *)

Lemma dict_get_set (d : dict) (k k' : string) (v : value) :
  dict_get (dict_set d k v) k' = if k =? k' then Some v else dict_get d k'.
Proof.
  induction d as [|[k0 v0] rest IH]; simpl.
  - reflexivity.
  - destruct (String.eqb_spec k0 k) as [->|Hne]; simpl.
    + destruct (k =? k'); reflexivity.
    + rewrite IH.
      destruct (String.eqb_spec k k') as [Heq|Hne'].
      * subst k'. apply String.eqb_neq in Hne. rewrite Hne. reflexivity.
      * reflexivity.
Qed.

Lemma dict_get_set_other (d : dict) (k k' : string) (v : value) :
  (k =? k') = false -> dict_get (dict_set d k v) k' = dict_get d k'.
Proof. intros H. rewrite dict_get_set, H. reflexivity. Qed.

Lemma dict_get_remove (d : dict) (k k' : string) :
  dict_get (dict_remove d k) k' = if k =? k' then None else dict_get d k'.
Proof.
  induction d as [|[k0 v0] rest IH]; simpl.
  - destruct (k =? k'); reflexivity.
  - destruct (String.eqb_spec k0 k) as [->|Hne]; simpl.
    + rewrite IH. destruct (k =? k'); reflexivity.
    + rewrite IH.
      destruct (String.eqb_spec k k') as [Heq|Hne'].
      * subst k'. apply String.eqb_neq in Hne. rewrite Hne. reflexivity.
      * reflexivity.
Qed.

(** ** The extra-variables projection *)

Lemma project_keys_get (src : dict) (keys : list string) (acc : dict) (k : string) :
  dict_get
    (fold_left
       (fun extra_vars key =>
          match dict_get src key with
          | Some v => dict_set extra_vars key v
          | None => extra_vars
          end) keys acc) k
  = if existsb (String.eqb k) keys
    then match dict_get src k with
         | Some v => Some v
         | None => dict_get acc k
         end
    else dict_get acc k.
Proof.
  revert acc. induction keys as [|key keys IH]; intros acc; simpl.
  - reflexivity.
  - rewrite IH. clear IH.
    destruct (String.eqb_spec k key) as [->|Hne]; simpl.
    + destruct (dict_get src key) as [v|] eqn:Hsrc.
      * rewrite dict_get_set, String.eqb_refl.
        destruct (existsb (String.eqb key) keys); reflexivity.
      * destruct (existsb (String.eqb key) keys); reflexivity.
    + assert (Hk : (key =? k) = false) by (apply String.eqb_neq; congruence).
      destruct (dict_get src key) as [v|]; [rewrite dict_get_set, Hk|]; reflexivity.
Qed.

Lemma existsb_eqb_In (k : string) (keys : list string) :
  existsb (String.eqb k) keys = true <-> In k keys.
Proof.
  rewrite existsb_exists. split.
  - intros [x [Hin Heq]]. apply String.eqb_eq in Heq. subst. exact Hin.
  - intros Hin. exists k. split; [exact Hin | apply String.eqb_refl].
Qed.

(** C6. The extra-variables projection emits exactly the allow-listed keys
    that the source mapping holds, each with the value of the source, and
    nothing else: a key of the payload is one of the five names and was
    present in the source with that same value.  In particular a key that
    differs from an allow-listed name only in casing is dropped, and the
    payload may be empty. *)
Theorem C6_extra_vars_allow_list :
  (forall (playbook_vars : dict) (k : string) (v : value),
      dict_get (PlaybookParser.extract_extra_vars playbook_vars) k = Some v
      <-> In k ["k3s_context"; "esphome_namespace"; "esphome_deployment_name";
                "esphome_timeout"; "esphome_no_logs"]
          /\ dict_get playbook_vars k = Some v)
  /\ PlaybookParser.extract_extra_vars [] = []
  /\ PlaybookParser.extract_extra_vars
       [("K3S_CONTEXT", VStr "prod"); ("Esphome_Timeout", VInt 30)] = [].
Proof.
  split; [|split; reflexivity].
  intros playbook_vars k v.
  unfold PlaybookParser.extract_extra_vars.
  rewrite project_keys_get.
  change ["k3s_context"; "esphome_namespace"; "esphome_deployment_name";
          "esphome_timeout"; "esphome_no_logs"] with PlaybookParser.var_keys.
  change (dict_get [] k) with (@None value).
  destruct (existsb (String.eqb k) PlaybookParser.var_keys) eqn:Hk.
  - apply existsb_eqb_In in Hk.
    destruct (dict_get playbook_vars k) as [x|]; split.
    + intros H. split; [exact Hk | exact H].
    + intros [_ H]. exact H.
    + discriminate.
    + intros [_ H]. discriminate.
  - split; [discriminate|].
    intros [Hin _]. apply existsb_eqb_In in Hin. congruence.
Qed.

Lemma dict_get_keys (d : dict) (k : string) :
  In k (dict_keys d) <-> exists v, dict_get d k = Some v.
Proof.
  induction d as [|[k0 v0] rest IH]; simpl.
  - split; [tauto | intros [v H]; discriminate].
  - destruct (String.eqb_spec k0 k) as [->|Hne].
    + split; [intros _; eexists; reflexivity | intros _; left; reflexivity].
    + rewrite <- IH. split; [intros [H|H]; [congruence | exact H] | tauto].
Qed.

(** ** The resource builder *)

Lemma rbind_ok {A B} (r : result A) (k : A -> result B) (b : B) :
  rbind r k = Ok b -> exists a, r = Ok a /\ k a = Ok b.
Proof.
  destruct r as [a|e]; simpl; intros H; [|discriminate].
  exists a. split; [reflexivity | exact H].
Qed.

Lemma Ok_inj {A} (a b : A) : Ok a = Ok b -> a = b.
Proof. intros H. injection H as H. exact H. Qed.

Ltac rbind_inv H :=
  let a := fresh "a" in
  let Ha := fresh "Ha" in
  apply rbind_ok in H; destruct H as (a & Ha & H).

(** What [build_template_data] returns, read off step by step. *)
Lemma build_template_data_ok
      (py_int : string -> result Z) (yaml_dump : dict -> string)
      (playbook_meta : dict) (config : Config) (template_data : dict) :
  build_template_data py_int yaml_dump playbook_meta config = Ok template_data ->
  exists name vars playbook_vars filepath template_name description limit,
    py_getitem playbook_meta "name" = Ok name
    /\ py_getitem playbook_meta "vars" = Ok vars
    /\ as_dict vars = Ok playbook_vars
    /\ py_getitem playbook_meta "filepath" = Ok filepath
    /\ (if truthy name then template_name = name
        else exists p, filepath = VStr p
             /\ template_name = VStr (title (replace_char "_" " " (path_stem p))))
    /\ PlaybookParser.generate_description name playbook_vars = Ok description
    /\ (limit = true <->
        py_in "target_device" filepath = Ok true \/ py_in "all" filepath = Ok true)
    /\ dict_get template_data "name" = Some template_name
    /\ dict_get template_data "description" = Some (VStr description)
    /\ dict_get template_data "playbook" = Some filepath
    /\ dict_get template_data "ask_variables_on_launch" = Some (VBool true)
    /\ dict_get template_data "extra_vars"
       = Some (VStr (yaml_dump (PlaybookParser.extract_extra_vars playbook_vars)))
    /\ dict_get template_data "ask_limit_on_launch"
       = (if limit then Some (VBool false) else None).
Proof.
  unfold build_template_data. intros H.
  apply rbind_ok in H. destruct H as (name & Hname & H).
  apply rbind_ok in H. destruct H as (template_name & Htn & H).
  apply rbind_ok in H. destruct H as (vars & Hvars & H).
  apply rbind_ok in H. destruct H as (playbook_vars & Hpv & H).
  apply rbind_ok in H. destruct H as (description & Hdesc & H).
  apply rbind_ok in H. destruct H as (inventory & Hinv & H).
  apply rbind_ok in H. destruct H as (project & Hproj & H).
  apply rbind_ok in H. destruct H as (filepath & Hfp & H).
  apply rbind_ok in H. destruct H as (td1 & Htd1 & H).
  apply rbind_ok in H. destruct H as (td2 & Htd2 & H).
  apply rbind_ok in H. destruct H as (in_target & Hit & H).
  apply rbind_ok in H. destruct H as (in_all & Hia & H).
  apply Ok_inj in H. subst template_data.
  exists name, vars, playbook_vars, filepath, template_name, description, in_all.
  assert (Hname' :
            if truthy name then template_name = name
            else exists p, filepath = VStr p
                 /\ template_name = VStr (title (replace_char "_" " " (path_stem p)))).
  { destruct (truthy name); simpl in Htn.
    - congruence.
    - rbind_inv Htn. rbind_inv Htn. injection Htn as <-.
      rewrite Hfp in Ha. injection Ha as <-.
      destruct filepath; try discriminate. injection Ha0 as <-.
      eexists. split; reflexivity. }
  assert (Hlimit : in_all = true <->
            py_in "target_device" filepath = Ok true \/ py_in "all" filepath = Ok true).
  { destruct in_target.
    - injection Hia as <-. split; [left; exact Hit | reflexivity].
    - rewrite Hia. split; [intros ->; right; reflexivity|].
      intros [Hc|Hc]; congruence. }
  assert (Htd1' : forall k, (k =? "credentials") = false ->
                            dict_get td1 k = dict_get
       [("name", template_name); ("description", VStr description);
        ("job_type", VStr "run"); ("inventory", VInt inventory);
        ("project", VInt project); ("playbook", filepath);
        ("ask_variables_on_launch", VBool true);
        ("extra_vars",
         VStr (yaml_dump (PlaybookParser.extract_extra_vars playbook_vars)))] k).
  { intros k Hk. destruct (negb (credential_id config =? "")).
    - rbind_inv Htd1. apply Ok_inj in Htd1. subst td1.
      apply dict_get_set_other. rewrite String.eqb_sym. exact Hk.
    - apply Ok_inj in Htd1. subst td1. reflexivity. }
  assert (Htd2' : forall k, (k =? "execution_environment") = false ->
                            dict_get td2 k = dict_get td1 k).
  { intros k Hk. destruct (negb (execution_environment_id config =? "")).
    - rbind_inv Htd2. apply Ok_inj in Htd2. subst td2.
      apply dict_get_set_other. rewrite String.eqb_sym. exact Hk.
    - apply Ok_inj in Htd2. subst td2. reflexivity. }
  assert (Hout : forall k, (k =? "ask_limit_on_launch") = false ->
                           (k =? "credentials") = false ->
                           (k =? "execution_environment") = false ->
                           dict_get (if in_all
                                     then dict_set td2 "ask_limit_on_launch" (VBool false)
                                     else td2) k
                           = dict_get
       [("name", template_name); ("description", VStr description);
        ("job_type", VStr "run"); ("inventory", VInt inventory);
        ("project", VInt project); ("playbook", filepath);
        ("ask_variables_on_launch", VBool true);
        ("extra_vars",
         VStr (yaml_dump (PlaybookParser.extract_extra_vars playbook_vars)))] k).
  { intros k H1 H2 H3. rewrite <- Htd1', <- Htd2' by assumption.
    destruct in_all; [|reflexivity].
    apply dict_get_set_other. rewrite String.eqb_sym. exact H1. }
  repeat split; try assumption; try tauto;
    try (rewrite Hout by reflexivity; reflexivity).
  destruct in_all.
  - rewrite dict_get_set. reflexivity.
  - rewrite Htd2', Htd1' by reflexivity. reflexivity.
Qed.

(** C7. The built resource carries the declared name itself whenever that
    name is non-empty; when the declared name is empty the name is the final
    segment of the source path without its suffix, underscores turned into
    spaces and title-cased, which for ["a_b_c.yaml"] is ["A B C"]. *)
Theorem C7_resource_name
        (py_int : string -> result Z) (yaml_dump : dict -> string)
        (playbook_meta : dict) (config : Config)
        (declared : value) (template_data : dict) :
  py_getitem playbook_meta "name" = Ok declared ->
  build_template_data py_int yaml_dump playbook_meta config = Ok template_data ->
  (truthy declared = true -> dict_get template_data "name" = Some declared)
  /\ (truthy declared = false ->
      exists p,
        py_getitem playbook_meta "filepath" = Ok (VStr p)
        /\ dict_get template_data "name"
           = Some (VStr (title (replace_char "_" " " (path_stem p)))))
  /\ title (replace_char "_" " " (path_stem "a_b_c.yaml")) = "A B C".
Proof.
  intros Hdecl Hbuild.
  apply build_template_data_ok in Hbuild.
  destruct Hbuild as (name & vars & pv & filepath & tn & desc & limit &
                      Hname & _ & _ & Hfp & Htn & _ & _ & Hget & _).
  rewrite Hdecl in Hname. apply Ok_inj in Hname. subst name.
  split; [|split; [|reflexivity]].
  - intros Ht. rewrite Ht in Htn. subst tn. exact Hget.
  - intros Hf. rewrite Hf in Htn. destruct Htn as (p & -> & ->).
    exists p. split; [exact Hfp | exact Hget].
Qed.

Lemma C7_resource_name_witness :
  py_getitem flash_all_meta "name" = Ok (VStr "")
  /\ (exists template_data,
         build_template_data decimal_int dump_block flash_all_meta sample_config
         = Ok template_data
         /\ dict_get template_data "name" = Some (VStr "Flash All")).
Proof.
  split; [reflexivity|].
  destruct (build_template_data decimal_int dump_block flash_all_meta sample_config)
    as [template_data|e] eqn:Hbuild; [|vm_compute in Hbuild; discriminate].
  exists template_data. split; [reflexivity|].
  destruct (C7_resource_name decimal_int dump_block flash_all_meta sample_config
              (VStr "") template_data eq_refl Hbuild) as (_ & Hderived & _).
  destruct (Hderived eq_refl) as (p & Hp & Hname).
  vm_compute in Hp. apply Ok_inj in Hp. injection Hp as Hp. subst p.
  exact Hname.
Defined.

(** C1. On the end-to-end descriptor (empty name, variables
    [{esphome_timeout: 30, device_patterns: ["a", "b"]}], path
    ["flash_all.yaml"]) the built resource has name ["Flash All"], the
    extra-variables payload [{esphome_timeout: 30}] and
    [ask_limit_on_launch = false]; its description, however, is built from
    the declared (empty) name and reads [" | Patterns: a, b"], not
    ["Flash All | Patterns: a, b"]. *)
Theorem C1_flash_all_description
        (py_int : string -> result Z) (yaml_dump : dict -> string)
        (config : Config) (template_data : dict) :
  build_template_data py_int yaml_dump flash_all_meta config = Ok template_data ->
  dict_get template_data "name" = Some (VStr "Flash All")
  /\ dict_get template_data "description" = Some (VStr " | Patterns: a, b")
  /\ dict_get template_data "description"
     <> Some (VStr "Flash All | Patterns: a, b")
  /\ dict_get template_data "extra_vars"
     = Some (VStr (yaml_dump [("esphome_timeout", VInt 30)]))
  /\ dict_get template_data "ask_limit_on_launch" = Some (VBool false).
Proof.
  intros Hbuild.
  apply build_template_data_ok in Hbuild.
  destruct Hbuild as (name & vars & pv & filepath & tn & desc & limit &
                      Hname & Hvars & Hpv & Hfp & Htn & Hdesc & Hlimit &
                      Hgn & Hgd & _ & _ & Hge & Hgl).
  vm_compute in Hname. apply Ok_inj in Hname. subst name.
  vm_compute in Hvars. apply Ok_inj in Hvars. subst vars.
  vm_compute in Hfp. apply Ok_inj in Hfp. subst filepath.
  simpl in Hpv. apply Ok_inj in Hpv. subst pv.
  vm_compute in Hdesc. apply Ok_inj in Hdesc. subst desc.
  simpl in Htn. destruct Htn as (p & Hp & ->). injection Hp as <-.
  assert (Hl : limit = true) by (apply Hlimit; right; reflexivity).
  subst limit.
  repeat split; try assumption.
  rewrite Hgd. discriminate.
Qed.

Lemma C1_flash_all_description_witness :
  build_template_data decimal_int dump_block flash_all_meta sample_config
  = Ok [("name", VStr "Flash All");
        ("description", VStr " | Patterns: a, b");
        ("job_type", VStr "run");
        ("inventory", VInt 2);
        ("project", VInt 8);
        ("playbook", VStr "flash_all.yaml");
        ("ask_variables_on_launch", VBool true);
        ("extra_vars", VStr ("esphome_timeout: 30" ++ newline));
        ("credentials", VList [VInt 5]);
        ("ask_limit_on_launch", VBool false)]
  /\ dict_get
       [("name", VStr "Flash All");
        ("description", VStr " | Patterns: a, b");
        ("job_type", VStr "run");
        ("inventory", VInt 2);
        ("project", VInt 8);
        ("playbook", VStr "flash_all.yaml");
        ("ask_variables_on_launch", VBool true);
        ("extra_vars", VStr ("esphome_timeout: 30" ++ newline));
        ("credentials", VList [VInt 5]);
        ("ask_limit_on_launch", VBool false)] "description"
     = Some (VStr " | Patterns: a, b").
Proof.
  split; [vm_compute; reflexivity|].
  apply (C1_flash_all_description decimal_int dump_block sample_config).
  vm_compute. reflexivity.
Defined.

(** ** The descriptor parser *)

(** C8. When the first unit of a descriptor is a mapping, parsing succeeds;
    a missing [hosts] becomes ["localhost"], a missing [vars] the empty
    mapping, and a missing [name] the empty string, with no name derived
    from the path.  A field that is present is passed on as it is. *)
Theorem C8_parse_defaults
        (read_yaml : string -> result value)
        (relative_to_cwd : string -> option string)
        (filepath : string) (play : dict) (others : list value) :
  read_yaml filepath = Ok (VList (VDict play :: others)) ->
  exists playbook_meta,
    PlaybookParser.parse_playbook read_yaml relative_to_cwd filepath
    = Ok playbook_meta
    /\ (dict_get play "hosts" = None ->
        dict_get playbook_meta "hosts" = Some (VStr "localhost"))
    /\ (dict_get play "vars" = None ->
        dict_get playbook_meta "vars" = Some (VDict []))
    /\ (dict_get play "name" = None ->
        dict_get playbook_meta "name" = Some (VStr ""))
    /\ (forall k v, In k ["name"; "hosts"; "vars"] ->
                    dict_get play k = Some v ->
                    dict_get playbook_meta k = Some v).
Proof.
  intros Hread.
  unfold PlaybookParser.parse_playbook. rewrite Hread. simpl.
  eexists. split; [reflexivity|].
  repeat split.
  - intros H. simpl. rewrite H. reflexivity.
  - intros H. simpl. rewrite H. reflexivity.
  - intros H. simpl. rewrite H. reflexivity.
  - intros k v Hin Hget.
    destruct Hin as [<-|[<-|[<-|[]]]]; simpl; rewrite Hget; reflexivity.
Qed.

Lemma C8_parse_defaults_witness :
  (fun _ : string => Ok (VList [VDict [("tasks", VList [])]])) "bare.yaml"
  = Ok (VList [VDict [("tasks", VList [])]])
  /\ exists playbook_meta,
      PlaybookParser.parse_playbook
        (fun _ => Ok (VList [VDict [("tasks", VList [])]]))
        never_relative "bare.yaml" = Ok playbook_meta
      /\ dict_get playbook_meta "hosts" = Some (VStr "localhost")
      /\ dict_get playbook_meta "vars" = Some (VDict [])
      /\ dict_get playbook_meta "name" = Some (VStr "").
Proof.
  split; [reflexivity|].
  destruct (C8_parse_defaults
              (fun _ => Ok (VList [VDict [("tasks", VList [])]]))
              never_relative "bare.yaml" [("tasks", VList [])] [] eq_refl)
    as (playbook_meta & Hparse & Hhosts & Hvars & Hname & _).
  exists playbook_meta.
  split; [exact Hparse|].
  split; [apply Hhosts; reflexivity|].
  split; [apply Hvars; reflexivity | apply Hname; reflexivity].
Defined.

(** C9 as stated fails: a descriptor that is a sequence whose first element
    is not a mapping is not a sequence of mappings, yet parsing it raises
    instead of returning the empty result. *)
Lemma C9_sequence_of_scalars_raises :
  is_sequence_of_mappings (VList [VStr "flash"]) = false
  /\ PlaybookParser.parse_playbook
       (fun _ => Ok (VList [VStr "flash"])) never_relative "notes.yaml"
     = Err OtherException.
Proof. split; reflexivity. Qed.

(** C9, amended. When the decoded descriptor is empty (null, an empty
    sequence or any other false value) or is not a sequence, parsing returns
    the empty result and raises nothing. *)
Theorem C9_parse_empty_result
        (read_yaml : string -> result value)
        (relative_to_cwd : string -> option string)
        (filepath : string) (doc : value) :
  read_yaml filepath = Ok doc ->
  truthy doc = false \/ is_list doc = false ->
  PlaybookParser.parse_playbook read_yaml relative_to_cwd filepath = Ok [].
Proof.
  intros Hread Hdoc.
  unfold PlaybookParser.parse_playbook. rewrite Hread. simpl.
  destruct Hdoc as [H|H]; rewrite H; simpl.
  - reflexivity.
  - rewrite orb_true_r. reflexivity.
Qed.

Lemma C9_parse_empty_result_witness :
  (fun _ : string => Ok (VDict [("name", VStr "not a list")])) "mapping.yaml"
  = Ok (VDict [("name", VStr "not a list")])
  /\ (truthy (VDict [("name", VStr "not a list")]) = false
      \/ is_list (VDict [("name", VStr "not a list")]) = false)
  /\ PlaybookParser.parse_playbook
       (fun _ => Ok (VDict [("name", VStr "not a list")]))
       never_relative "mapping.yaml" = Ok [].
Proof.
  split; [reflexivity|].
  split; [right; reflexivity|].
  apply (C9_parse_empty_result _ never_relative "mapping.yaml"
           (VDict [("name", VStr "not a list")])).
  - reflexivity.
  - right. reflexivity.
Defined.

(** ** The survey builder *)

Section StringOrder.

Lemma ascii_compare_eq (a b : ascii) : Ascii.compare a b = Eq -> a = b.
Proof. apply Ascii.compare_eq_iff. Qed.

Lemma ascii_compare_refl (a : ascii) : Ascii.compare a a = Eq.
Proof. unfold Ascii.compare. apply N.compare_refl. Qed.

Lemma ascii_compare_lt_trans (a b c : ascii) :
  Ascii.compare a b = Lt -> Ascii.compare b c = Lt -> Ascii.compare a c = Lt.
Proof.
  unfold Ascii.compare. rewrite !N.compare_lt_iff. apply N.lt_trans.
Qed.

Lemma string_compare_refl (s : string) : String.compare s s = Eq.
Proof.
  induction s as [|a s IH]; simpl; [reflexivity|].
  rewrite ascii_compare_refl. exact IH.
Qed.

Lemma string_compare_lt_trans (s1 s2 s3 : string) :
  String.compare s1 s2 = Lt -> String.compare s2 s3 = Lt ->
  String.compare s1 s3 = Lt.
Proof.
  revert s2 s3.
  induction s1 as [|a s1 IH]; intros [|b s2] [|c s3]; simpl;
    try discriminate; try reflexivity.
  destruct (Ascii.compare a b) eqn:Hab; try discriminate;
    destruct (Ascii.compare b c) eqn:Hbc; try discriminate; intros H12 H23.
  - apply ascii_compare_eq in Hab, Hbc. subst.
    rewrite ascii_compare_refl. eapply IH; eassumption.
  - apply ascii_compare_eq in Hab. subst. rewrite Hbc. reflexivity.
  - apply ascii_compare_eq in Hbc. subst. rewrite Hab. reflexivity.
  - rewrite (ascii_compare_lt_trans _ _ _ Hab Hbc). reflexivity.
Qed.

Lemma str_le_cases (a b : string) :
  str_le a b <-> String.compare a b = Lt \/ a = b.
Proof.
  unfold str_le, String.leb. split.
  - destruct (String.compare a b) eqn:H; intros E; try discriminate.
    + right. apply String.compare_eq_iff. exact H.
    + left. reflexivity.
  - intros [H|H].
    + rewrite H. reflexivity.
    + subst. rewrite string_compare_refl. reflexivity.
Qed.

Lemma str_le_refl (a : string) : str_le a a.
Proof. apply str_le_cases. right. reflexivity. Qed.

Lemma str_le_trans (a b c : string) : str_le a b -> str_le b c -> str_le a c.
Proof.
  rewrite !str_le_cases.
  intros [Hab|Hab] [Hbc|Hbc]; subst; auto.
  left. eapply string_compare_lt_trans; eassumption.
Qed.

Lemma str_le_antisym (a b : string) : str_le a b -> str_le b a -> a = b.
Proof. apply String.leb_antisym. Qed.

Lemma str_le_total (a b : string) : str_le a b \/ str_le b a.
Proof. apply String.leb_total. Qed.

End StringOrder.

Lemma insert_sorted_perm (x : string) (l : list string) :
  Permutation (x :: l) (insert_sorted x l).
Proof.
  induction l as [|y rest IH]; simpl.
  - apply Permutation_refl.
  - destruct (x <=? y)%string.
    + apply Permutation_refl.
    + eapply perm_trans; [apply perm_swap|]. apply perm_skip. exact IH.
Qed.

Lemma insert_sorted_sorted (x : string) (l : list string) :
  StronglySorted str_le l -> StronglySorted str_le (insert_sorted x l).
Proof.
  induction 1 as [|y rest Hrest IH Hy]; simpl.
  - constructor; constructor.
  - destruct (x <=? y)%string eqn:Hxy.
    + constructor.
      * constructor; assumption.
      * constructor; [exact Hxy|].
        eapply Forall_impl; [|exact Hy].
        intros z Hz. eapply str_le_trans; [exact Hxy | exact Hz].
    + constructor; [exact IH|].
      assert (Hyx : str_le y x).
      { destruct (str_le_total x y) as [H|H]; [|exact H].
        unfold str_le in H. congruence. }
      eapply Permutation_Forall; [apply insert_sorted_perm|].
      constructor; assumption.
Qed.

Lemma py_sorted_perm (l : list string) : Permutation l (py_sorted l).
Proof.
  induction l as [|x rest IH]; simpl.
  - constructor.
  - eapply perm_trans; [|apply insert_sorted_perm].
    apply perm_skip. exact IH.
Qed.

Lemma py_sorted_sorted (l : list string) : StronglySorted str_le (py_sorted l).
Proof.
  induction l as [|x rest IH]; simpl.
  - constructor.
  - apply insert_sorted_sorted. exact IH.
Qed.

(** A list has one sorted arrangement only. *)
Lemma sorted_perm_unique (l1 l2 : list string) :
  StronglySorted str_le l1 -> StronglySorted str_le l2 ->
  Permutation l1 l2 -> l1 = l2.
Proof.
  intros H1. revert l2.
  induction H1 as [|x l1 Hs1 IH Hx]; intros l2 H2 Hperm.
  - apply Permutation_nil in Hperm. subst. reflexivity.
  - destruct H2 as [|y l2 Hs2 Hy].
    + apply Permutation_sym, Permutation_nil in Hperm. discriminate.
    + assert (Hxy : x = y).
      { assert (Hin1 : In x (y :: l2))
          by (eapply Permutation_in; [exact Hperm | left; reflexivity]).
        assert (Hin2 : In y (x :: l1))
          by (eapply Permutation_in;
              [apply Permutation_sym; exact Hperm | left; reflexivity]).
        rewrite Forall_forall in Hx, Hy.
        destruct Hin1 as [E|Hin1]; [congruence|].
        destruct Hin2 as [E|Hin2]; [congruence|].
        apply str_le_antisym; [apply Hx | apply Hy]; assumption. }
      subst y. f_equal. apply IH; [exact Hs2|].
      eapply Permutation_cons_inv. exact Hperm.
Qed.

(** C10. For every applications mapping the survey has exactly one
    question, with variable ["app_name"], [required = true] and type
    ["multiplechoice"]; its choices are the application names arranged in
    code point order, the same list for every input order of the same names;
    an empty mapping gives an empty choice list. *)
Theorem C10_survey_question (applications : dict) :
  exists question choices,
    survey_questions (build_survey_spec applications) = [question]
    /\ question_field question "variable" = Some (VStr "app_name")
    /\ question_field question "required" = Some (VBool true)
    /\ question_field question "type" = Some (VStr "multiplechoice")
    /\ question_field question "choices" = Some (VList (map VStr choices))
    /\ StronglySorted str_le choices
    /\ Permutation (dict_keys applications) choices
    /\ (forall applications' : dict,
           Permutation (dict_keys applications') (dict_keys applications) ->
           survey_questions (build_survey_spec applications') = [question])
    /\ (applications = [] -> choices = []).
Proof.
  eexists. exists (py_sorted (dict_keys applications)).
  split; [reflexivity|].
  repeat split.
  - apply py_sorted_sorted.
  - apply py_sorted_perm.
  - intros applications' Hperm.
    assert (E : py_sorted (dict_keys applications')
                = py_sorted (dict_keys applications)).
    { apply sorted_perm_unique; try apply py_sorted_sorted.
      eapply perm_trans; [apply Permutation_sym, py_sorted_perm|].
      eapply perm_trans; [exact Hperm | apply py_sorted_perm]. }
    unfold build_survey_spec. rewrite E. reflexivity.
  - intros ->. reflexivity.
Qed.

Lemma C10_survey_question_witness :
  exists question,
    survey_questions
      (build_survey_spec [("zeta", VDict []); ("alpha", VDict [])]) = [question]
    /\ question_field question "choices"
       = Some (VList [VStr "alpha"; VStr "zeta"])
    /\ survey_questions
         (build_survey_spec [("alpha", VDict []); ("zeta", VDict [])])
       = [question].
Proof.
  destruct (C10_survey_question [("zeta", VDict []); ("alpha", VDict [])])
    as (question & choices & Hq & _ & _ & _ & _ & _ & _ & Hany & _).
  exists question.
  split; [exact Hq|].
  split.
  - vm_compute in Hq. injection Hq as <-. reflexivity.
  - apply Hany. apply perm_swap.
Defined.

(** ** The template manager: what one call does to the logs *)

Section ManagerFacts.
Import AWXTemplateManager.

Variable W : Type.
Variable session_request : request -> W -> result response * W.

Lemma grows_refl (s : state W) : grows s s [] [].
Proof. unfold grows. rewrite !app_nil_r. split; reflexivity. Qed.

Lemma grows_trans (s1 s2 s3 : state W) cs1 ls1 cs2 ls2 :
  grows s1 s2 cs1 ls1 -> grows s2 s3 cs2 ls2 ->
  grows s1 s3 (cs1 ++ cs2) (ls1 ++ ls2).
Proof.
  unfold grows. intros [Hc1 Hl1] [Hc2 Hl2].
  rewrite Hc2, Hc1, Hl2, Hl1, !app_assoc. split; reflexivity.
Qed.

Lemma api_call_grows method ep params body (s : state W) :
  exists ls,
    grows s (snd (_api_call W session_request method ep params body s))
          [{| req_method := method; req_endpoint := ep;
              req_params := params; req_json := body |}] ls
    /\ quiet ls.
Proof.
  unfold _api_call, bind, session_request_logged, grows.
  destruct (session_request _ (world s)) as [[resp|e] w']; simpl.
  - destruct (is_http_error resp); simpl.
    + destruct (json resp); simpl; eexists;
        (split; [split; reflexivity | repeat constructor]).
    + exists []. rewrite app_nil_r.
      split; [split; reflexivity | constructor].
  - exists []. rewrite app_nil_r.
    split; [split; reflexivity | constructor].
Qed.

(** The handler of [get_template] adds one line to a footprint. *)
Ltac with_error_line ls Hg Hq :=
  exists (ls ++ [L_error_checking RequestException]);
  split;
  [ destruct Hg as [Hc Hl]; split; simpl;
    [exact Hc | rewrite Hl, app_assoc; reflexivity]
  | apply Forall_app; split; [exact Hq | repeat constructor] ].

Lemma get_template_grows name (s : state W) :
  exists ls,
    grows s (snd (get_template W session_request name s))
          [find_request name] ls
    /\ quiet ls.
Proof.
  unfold get_template, try_except, bind at 1.
  destruct (api_call_grows GET EP_job_templates [("name", name)] None s)
    as (ls & Hg & Hq).
  fold (find_request name) in Hg.
  destruct (_api_call W session_request GET EP_job_templates
              [("name", name)] None s) as [[resp|e] s1]; simpl in *.
  - unfold bind, lift. destruct (json resp) as [body|e]; simpl.
    + destruct (py_get body "results" (VList [])) as [results|e]; simpl.
      * destruct (truthy results); simpl.
        -- destruct (py_index0 results) as [x|[|]]; simpl;
             try (exists ls; split; assumption).
           with_error_line ls Hg Hq.
        -- exists ls. split; assumption.
      * destruct e; simpl; try (exists ls; split; assumption).
        with_error_line ls Hg Hq.
    + destruct e; simpl; try (exists ls; split; assumption).
      with_error_line ls Hg Hq.
  - destruct e; simpl; try (exists ls; split; assumption).
    with_error_line ls Hg Hq.
Qed.

Lemma write_call_grows method ep body (s : state W) :
  exists ls,
    grows s
          (snd (bind (_api_call W session_request method ep [] (Some body))
                     (fun resp => lift (json resp)) s))
          [{| req_method := method; req_endpoint := ep;
              req_params := []; req_json := Some body |}] ls
    /\ quiet ls.
Proof.
  destruct (api_call_grows method ep [] (Some body) s) as (ls & Hg & Hq).
  unfold bind, lift.
  destruct (_api_call W session_request method ep [] (Some body) s)
    as [[resp|e] s1]; simpl in *; exists ls; split; assumption.
Qed.

Lemma associate_one_grows template_id cred_id (s : state W) :
  fst (associate_one W session_request template_id cred_id s) = Ok tt
  /\ exists ls,
      grows s (snd (associate_one W session_request template_id cred_id s))
            [link_request template_id cred_id] ls
      /\ quiet ls.
Proof.
  unfold associate_one, try_except, bind.
  destruct (api_call_grows POST (EP_job_template_credentials template_id) []
              (Some [("id", cred_id)]) s) as (ls & Hg & Hq).
  fold (link_request template_id cred_id) in Hg.
  destruct (_api_call W session_request POST
              (EP_job_template_credentials template_id) []
              (Some [("id", cred_id)]) s) as [[resp|e] s1]; simpl in *.
  - split; [reflexivity|].
    exists (ls ++ [L_associated cred_id]). split.
    + destruct Hg as [Hc Hl]. split; simpl; [exact Hc|].
      rewrite Hl, app_assoc. reflexivity.
    + apply Forall_app. split; [exact Hq | repeat constructor].
  - split; [reflexivity|].
    exists (ls ++ [L_warn_associate cred_id e]). split.
    + destruct Hg as [Hc Hl]. split; simpl; [exact Hc|].
      rewrite Hl, app_assoc. reflexivity.
    + apply Forall_app. split; [exact Hq | repeat constructor].
Qed.

Lemma associate_each_grows template_id creds (s : state W) :
  fst (associate_each W session_request template_id creds s) = Ok tt
  /\ exists ls,
      grows s (snd (associate_each W session_request template_id creds s))
            (map (link_request template_id) creds) ls
      /\ quiet ls.
Proof.
  revert s. induction creds as [|c rest IH]; intros s; simpl.
  - split; [reflexivity|]. exists []. split; [apply grows_refl | constructor].
  - unfold bind.
    destruct (associate_one_grows template_id c s) as (Hok & ls1 & Hg1 & Hq1).
    destruct (associate_one W session_request template_id c s) as [r s1].
    simpl in Hok, Hg1. subst r.
    destruct (IH s1) as (Hok2 & ls2 & Hg2 & Hq2).
    split; [exact Hok2|].
    exists (ls1 ++ ls2). split.
    + exact (grows_trans _ _ _ _ _ _ _ Hg1 Hg2).
    + apply Forall_app. split; assumption.
Qed.

Lemma create_or_update_unfold (template_data : dict) (name : value) (s : state W) :
  py_getitem template_data "name" = Ok name ->
  create_or_update_template W session_request template_data s =
  match get_template W session_request name s with
  | (Err e, s1) => (Err e, s1)
  | (Ok existing, s1) =>
      let payload := dict_remove template_data "credentials" in
      if truthy existing then
        match py_subscript existing "id" with
        | Err e => (Err e, say (L_updating name) s1)
        | Ok i =>
            match update_template W session_request i payload
                    (say (L_updating name) s1) with
            | (Err e, s3) => (Err e, s3)
            | (Ok result, s3) => finish session_request result i template_data s3
            end
        end
      else
        match create_template W session_request payload
                (say (L_creating name) s1) with
        | (Err e, s3) => (Err e, s3)
        | (Ok result, s3) =>
            match py_subscript result "id" with
            | Err e => (Err e, s3)
            | Ok tid => finish session_request result tid template_data s3
            end
        end
  end.
Proof.
  intros Hname. unfold create_or_update_template.
  rewrite Hname. unfold bind at 1, lift at 1. unfold bind at 1.
  destruct (get_template W session_request name s) as [[existing|e] s1];
    [|reflexivity].
  cbv zeta. unfold finish, link_step.
  destruct (truthy existing).
  - unfold bind, print, lift, ret, say.
    destruct (py_subscript existing "id") as [i|e]; [|reflexivity].
    destruct (update_template W session_request i _ _) as [[result|e] s3];
      [|reflexivity].
    simpl. reflexivity.
  - unfold bind, print, lift, ret, say.
    destruct (create_template W session_request _ _) as [[result|e] s3];
      [|reflexivity].
    destruct (py_subscript result "id") as [tid|e]; [|reflexivity].
    simpl. reflexivity.
Qed.

Lemma grows_say (l : line) (s : state W) : grows s (say l s) [] [l].
Proof. unfold grows, say. simpl. rewrite app_nil_r. split; reflexivity. Qed.

Lemma update_template_grows template_id payload (s : state W) :
  exists ls,
    grows s (snd (update_template W session_request template_id payload s))
          [update_request template_id payload] ls
    /\ quiet ls.
Proof. apply write_call_grows. Qed.

Lemma create_template_grows payload (s : state W) :
  exists ls,
    grows s (snd (create_template W session_request payload s))
          [create_request payload] ls
    /\ quiet ls.
Proof. apply write_call_grows. Qed.

Lemma link_step_grows template_id (template_data : dict) (s : state W) :
  exists links ls,
    grows s (snd (link_step session_request template_id template_data s)) links ls
    /\ quiet ls
    /\ (links = []
        \/ links = map (link_request template_id) (credential_items template_data))
    /\ (forall u, fst (link_step session_request template_id template_data s) = Ok u ->
                  links = map (link_request template_id)
                              (credential_items template_data)).
Proof.
  unfold link_step, credential_items.
  destruct (dict_get template_data "credentials") as [c|]; simpl.
  - destruct (truthy c); simpl.
    + unfold associate_credentials, bind, lift.
      destruct (py_iter c) as [l|e]; simpl.
      * destruct (associate_each_grows template_id l s)
          as (_ & ls & Hg & Hq).
        exists (map (link_request template_id) l), ls.
        split; [exact Hg|]. split; [exact Hq|].
        split; [right; reflexivity | intros; reflexivity].
      * exists [], [].
        split; [apply grows_refl|]. split; [constructor|].
        split; [left; reflexivity | intros u Hu; discriminate].
    + exists [], [].
      split; [apply grows_refl|]. split; [constructor|].
      split; [left; reflexivity | intros; reflexivity].
  - exists [], [].
    split; [apply grows_refl|]. split; [constructor|].
    split; [left; reflexivity | intros; reflexivity].
Qed.

Lemma finish_grows written template_id (template_data : dict) (s : state W) :
  exists links ls,
    grows s (snd (finish session_request written template_id template_data s)) links ls
    /\ quiet ls
    /\ (links = []
        \/ links = map (link_request template_id) (credential_items template_data))
    /\ (forall r, fst (finish session_request written template_id template_data s) = Ok r ->
                  r = written
                  /\ links = map (link_request template_id)
                                 (credential_items template_data)).
Proof.
  destruct (link_step_grows template_id template_data s)
    as (links & ls & Hg & Hq & Hshape & Hok).
  exists links, ls. unfold finish.
  destruct (link_step session_request template_id template_data s) as [[u|e] s'];
    simpl in *.
  - split; [exact Hg|]. split; [exact Hq|]. split; [exact Hshape|].
    intros r Hr. apply Ok_inj in Hr. split; [congruence|].
    apply (Hok u). reflexivity.
  - split; [exact Hg|]. split; [exact Hq|]. split; [exact Hshape|].
    intros r Hr. discriminate.
Qed.

Lemma in_quiet_app (l : line) (ls1 ls2 : list line) :
  In l (ls1 ++ l :: ls2).
Proof. apply in_or_app. right. left. reflexivity. Qed.

(** What [create_or_update_template] does, by the answer of the query. *)
Lemma create_or_update_trace (template_data : dict) (name : value) (s : state W) :
  py_getitem template_data "name" = Ok name ->
  let payload := dict_remove template_data "credentials" in
  let found := fst (get_template W session_request name s) in
  let out := fst (create_or_update_template W session_request template_data s) in
  let s' := snd (create_or_update_template W session_request template_data s) in
  exists cs ls,
    grows s s' (find_request name :: cs) ls
    /\ match found with
       | Err e => cs = [] /\ out = Err e
       | Ok existing =>
           exists links,
             (links = []
              \/ exists tid,
                 links = map (link_request tid) (credential_items template_data))
             /\ (forall r, out = Ok r ->
                    exists tid,
                      links = map (link_request tid)
                                  (credential_items template_data))
             /\ if truthy existing then
                  In (L_updating name) ls /\ quiet ls
                  /\ match py_subscript existing "id" with
                     | Ok i => cs = update_request i payload :: links
                     | Err e => cs = [] /\ out = Err e
                     end
                else
                  cs = create_request payload :: links
                  /\ In (L_creating name) ls
       end.
Proof.
  intros Hname. cbv zeta.
  rewrite (create_or_update_unfold _ _ _ Hname).
  destruct (get_template_grows name s) as (ls0 & Hg0 & Hq0).
  destruct (get_template W session_request name s) as [[existing|e] s1];
    simpl fst in *; simpl snd in *.
  2:{ exists [], ls0. split; [exact Hg0 | split; reflexivity]. }
  cbv beta iota zeta.
  destruct (truthy existing) eqn:Htruthy.
  - pose proof (grows_say (L_updating name) s1) as Hg1.
    destruct (py_subscript existing "id") as [i|e] eqn:Hid.
    + destruct (update_template_grows i
                  (dict_remove template_data "credentials")
                  (say (L_updating name) s1)) as (ls2 & Hg2 & Hq2).
      destruct (update_template W session_request i _ _) as [[written|e] s3];
        simpl fst in *; simpl snd in *.
      * destruct (finish_grows written i template_data s3)
          as (links & ls3 & Hg3 & Hq3 & Hshape & Hok).
        exists (update_request i (dict_remove template_data "credentials")
                  :: links), (ls0 ++ [L_updating name] ++ ls2 ++ ls3).
        split.
        -- exact (grows_trans _ _ _ _ _ _ _ Hg0
                    (grows_trans _ _ _ _ _ _ _ Hg1
                       (grows_trans _ _ _ _ _ _ _ Hg2 Hg3))).
        -- exists links. split; [|split].
           ++ destruct Hshape as [-> | ->]; [left; reflexivity|].
              right. exists i. reflexivity.
           ++ intros r Hr. exists i. apply (Hok r Hr).
           ++ cbv beta iota. split; [apply in_quiet_app|].
              split; [|reflexivity].
              apply Forall_app. split; [exact Hq0|].
              constructor; [reflexivity|].
              apply Forall_app. split; assumption.
      * exists [update_request i (dict_remove template_data "credentials")],
               (ls0 ++ [L_updating name] ++ ls2).
        split.
        -- exact (grows_trans _ _ _ _ _ _ _ Hg0
                    (grows_trans _ _ _ _ _ _ _ Hg1 Hg2)).
        -- exists []. split; [left; reflexivity|]. split.
           ++ intros r Hr. discriminate.
           ++ cbv beta iota. split; [apply in_quiet_app|].
              split; [|reflexivity].
              apply Forall_app. split; [exact Hq0|].
              constructor; [reflexivity | exact Hq2].
    + exists [], (ls0 ++ [L_updating name]). split.
      * exact (grows_trans _ _ _ _ _ _ _ Hg0 Hg1).
      * exists []. split; [left; reflexivity|]. split.
        -- intros r Hr. discriminate.
        -- cbv beta iota. split; [apply in_quiet_app|].
           split; [|split; reflexivity].
           apply Forall_app. split; [exact Hq0 | repeat constructor].
  - pose proof (grows_say (L_creating name) s1) as Hg1.
    destruct (create_template_grows
                (dict_remove template_data "credentials")
                (say (L_creating name) s1)) as (ls2 & Hg2 & Hq2).
    destruct (create_template W session_request _ _) as [[written|e] s3];
      simpl fst in *; simpl snd in *.
    + destruct (py_subscript written "id") as [tid|e] eqn:Hid.
      * destruct (finish_grows written tid template_data s3)
          as (links & ls3 & Hg3 & Hq3 & Hshape & Hok).
        exists (create_request (dict_remove template_data "credentials")
                  :: links), (ls0 ++ [L_creating name] ++ ls2 ++ ls3).
        split.
        -- exact (grows_trans _ _ _ _ _ _ _ Hg0
                    (grows_trans _ _ _ _ _ _ _ Hg1
                       (grows_trans _ _ _ _ _ _ _ Hg2 Hg3))).
        -- exists links. split; [|split].
           ++ destruct Hshape as [-> | ->]; [left; reflexivity|].
              right. exists tid. reflexivity.
           ++ intros r Hr. exists tid. apply (Hok r Hr).
           ++ cbv beta iota. split; [reflexivity | apply in_quiet_app].
      * exists [create_request (dict_remove template_data "credentials")],
               (ls0 ++ [L_creating name] ++ ls2).
        split.
        -- exact (grows_trans _ _ _ _ _ _ _ Hg0
                    (grows_trans _ _ _ _ _ _ _ Hg1 Hg2)).
        -- exists []. split; [left; reflexivity|]. split.
           ++ intros r Hr. discriminate.
           ++ cbv beta iota. split; [reflexivity | apply in_quiet_app].
    + exists [create_request (dict_remove template_data "credentials")],
             (ls0 ++ [L_creating name] ++ ls2).
      split.
      * exact (grows_trans _ _ _ _ _ _ _ Hg0
                 (grows_trans _ _ _ _ _ _ _ Hg1 Hg2)).
      * exists []. split; [left; reflexivity|]. split.
        -- intros r Hr. discriminate.
        -- cbv beta iota. split; [reflexivity | apply in_quiet_app].
Qed.
End ManagerFacts.

(** ** Remotes that differ only in how they answer credential links *)

Section Simulation.
Import AWXTemplateManager.

Variables W1 W2 : Type.
Variable R : W1 -> W2 -> Prop.
Variable remote1 : request -> W1 -> result response * W1.
Variable remote2 : request -> W2 -> result response * W2.
Hypothesis Hagree : agree_outside_links R remote1 remote2.

Lemma sim_ret {A} (a : A) : sim R (ret a) (ret a).
Proof. intros s1 s2 Hs. split; [reflexivity | exact Hs]. Qed.

Lemma sim_lift {A} (r : result A) : sim R (lift r) (lift r).
Proof. intros s1 s2 Hs. split; [reflexivity | exact Hs]. Qed.

Lemma sim_print (l1 l2 : line) : sim R (print l1) (print l2).
Proof. intros s1 s2 Hs. split; [reflexivity | exact Hs]. Qed.

Lemma sim_bind {A B} (m1 : M W1 A) (m2 : M W2 A)
      (k1 : A -> M W1 B) (k2 : A -> M W2 B) :
  sim R m1 m2 -> (forall a, sim R (k1 a) (k2 a)) ->
  sim R (bind m1 k1) (bind m2 k2).
Proof.
  intros Hm Hk s1 s2 Hs. unfold bind.
  destruct (Hm s1 s2 Hs) as [Hout Hs'].
  destruct (m1 s1) as [[a1|e1] s1'], (m2 s2) as [[a2|e2] s2'];
    simpl in Hout, Hs'; try discriminate.
  - apply Ok_inj in Hout. subst a2. apply Hk. exact Hs'.
  - injection Hout as ->. simpl. split; [reflexivity | exact Hs'].
Qed.

Lemma sim_try_except {A} (m1 : M W1 A) (m2 : M W2 A) (handles : exn -> bool)
      (h1 : exn -> M W1 A) (h2 : exn -> M W2 A) :
  sim R m1 m2 -> (forall e, sim R (h1 e) (h2 e)) ->
  sim R (try_except m1 handles h1) (try_except m2 handles h2).
Proof.
  intros Hm Hh s1 s2 Hs. unfold try_except.
  destruct (Hm s1 s2 Hs) as [Hout Hs'].
  destruct (m1 s1) as [[a1|e1] s1'], (m2 s2) as [[a2|e2] s2'];
    simpl in Hout, Hs'; try discriminate.
  - simpl. split; [exact Hout | exact Hs'].
  - injection Hout as ->.
    destruct (handles e2);
      [apply Hh; exact Hs' | simpl; split; [reflexivity | exact Hs']].
Qed.

Ltac sim_steps :=
  repeat first
    [ apply sim_ret
    | apply sim_lift
    | apply sim_print
    | apply sim_bind; [|intros ?]
    | match goal with
      | |- sim _ (if ?b then _ else _) (if ?b then _ else _) => destruct b
      | |- sim _ (match ?r with Ok _ => _ | Err _ => _ end)
               (match ?r with Ok _ => _ | Err _ => _ end) => destruct r
      end ].

Lemma sim_api_call method ep params body :
  is_link {| req_method := method; req_endpoint := ep;
             req_params := params; req_json := body |} = false ->
  sim R (_api_call W1 remote1 method ep params body)
      (_api_call W2 remote2 method ep params body).
Proof.
  intros Hlink. unfold _api_call.
  apply sim_bind.
  - intros s1 s2 [HR Hc]. unfold session_request_logged.
    destruct (Hagree {| req_method := method; req_endpoint := ep;
                        req_params := params; req_json := body |}
                (world s1) (world s2) HR) as [HR' Hout].
    specialize (Hout Hlink).
    destruct (remote1 _ (world s1)) as [r1 w1'],
             (remote2 _ (world s2)) as [r2 w2']; simpl in *.
    split; [exact Hout|].
    split; simpl; [exact HR' | rewrite Hc; reflexivity].
  - intros resp. sim_steps.
Qed.

Lemma sim_get_template name :
  sim R (get_template W1 remote1 name) (get_template W2 remote2 name).
Proof.
  unfold get_template. apply sim_try_except.
  - apply sim_bind; [apply sim_api_call; reflexivity|].
    intros resp. sim_steps.
  - intros e. sim_steps.
Qed.

(** A link is absorbed whatever the remote answers: both sides return
    normally and the worlds stay related. *)
Lemma sim_associate_one template_id cred_id :
  sim R (associate_one W1 remote1 template_id cred_id)
      (associate_one W2 remote2 template_id cred_id).
Proof.
  intros s1 s2 [HR Hc].
  destruct (Hagree (link_request template_id cred_id)
              (world s1) (world s2) HR) as [HR' _].
  unfold associate_one, try_except, bind, _api_call, bind,
    session_request_logged, print, lift, ret, is_exception.
  fold (link_request template_id cred_id).
  destruct (remote1 (link_request template_id cred_id) (world s1))
    as [[resp1|e1] w1'];
    destruct (remote2 (link_request template_id cred_id) (world s2))
      as [[resp2|e2] w2']; simpl in HR' |- *;
    repeat match goal with
           | |- context [is_http_error ?r] => destruct (is_http_error r); simpl
           | |- context [json ?r] => destruct (json r); simpl
           end;
    (split; [reflexivity | split; simpl; [exact HR' | rewrite Hc; reflexivity]]).
Qed.

Lemma sim_associate_each template_id creds :
  sim R (associate_each W1 remote1 template_id creds)
      (associate_each W2 remote2 template_id creds).
Proof.
  induction creds as [|c rest IH]; simpl.
  - apply sim_ret.
  - apply sim_bind; [apply sim_associate_one | intros _; exact IH].
Qed.

Lemma sim_associate_credentials template_id credential_ids :
  sim R (associate_credentials W1 remote1 template_id credential_ids)
      (associate_credentials W2 remote2 template_id credential_ids).
Proof.
  unfold associate_credentials.
  apply sim_bind; [apply sim_lift | intros creds; apply sim_associate_each].
Qed.

Lemma sim_create_or_update_template template_data :
  sim R (create_or_update_template W1 remote1 template_data)
      (create_or_update_template W2 remote2 template_data).
Proof.
  unfold create_or_update_template, create_template, update_template.
  apply sim_bind; [apply sim_lift | intros name].
  apply sim_bind; [apply sim_get_template | intros existing].
  cbv zeta.
  apply sim_bind.
  - destruct (truthy existing).
    + apply sim_bind; [apply sim_print | intros _].
      apply sim_bind; [apply sim_lift | intros existing_id].
      apply sim_bind; [|intros written; apply sim_ret].
      apply sim_bind; [apply sim_api_call; reflexivity|].
      intros resp. apply sim_lift.
    + apply sim_bind; [apply sim_print | intros _].
      apply sim_bind.
      * apply sim_bind; [apply sim_api_call; reflexivity|].
        intros resp. apply sim_lift.
      * intros written.
        apply sim_bind; [apply sim_lift | intros tid; apply sim_ret].
  - intros written.
    apply sim_bind; [|intros _; apply sim_ret].
    destruct (truthy _); [apply sim_associate_credentials | apply sim_ret].
Qed.

Variable read_yaml : string -> result value.
Variable relative_to_cwd : string -> option string.
Variable py_int : string -> result Z.
Variable yaml_dump : dict -> string.
Variable CONFIG : Config.

Lemma sim_process_playbook playbook_path results :
  sim R (process_playbook W1 remote1 read_yaml relative_to_cwd py_int
           yaml_dump CONFIG playbook_path results)
      (process_playbook W2 remote2 read_yaml relative_to_cwd py_int
           yaml_dump CONFIG playbook_path results).
Proof.
  unfold process_playbook.
  apply sim_bind; [apply sim_print | intros _].
  apply sim_try_except; [|intros e; sim_steps].
  apply sim_bind; [apply sim_lift | intros playbook_meta].
  apply sim_bind; [apply sim_lift | intros meta_name].
  destruct (negb (truthy meta_name)); [sim_steps|].
  apply sim_bind; [apply sim_lift | intros template_data].
  apply sim_bind; [apply sim_lift | intros playbook].
  apply sim_bind; [apply sim_print | intros _].
  apply sim_bind; [apply sim_create_or_update_template | intros written].
  apply sim_bind; [apply sim_lift | intros result_id].
  destruct (truthy result_id); [|apply sim_ret].
  apply sim_bind; [apply sim_lift | intros name].
  apply sim_bind; [apply sim_get_template | intros existing].
  destruct (truthy existing); sim_steps.
Qed.

Lemma sim_main_loop playbooks :
  forall results,
    sim R (main_loop W1 remote1 read_yaml relative_to_cwd py_int
             yaml_dump CONFIG playbooks results)
        (main_loop W2 remote2 read_yaml relative_to_cwd py_int
             yaml_dump CONFIG playbooks results).
Proof.
  induction playbooks as [|playbook_path rest IH]; intros results; simpl.
  - apply sim_ret.
  - apply sim_bind; [apply sim_process_playbook | intros results'; apply IH].
Qed.

End Simulation.

(** ** The main loop and reconciliation *)

Example kitchen_template_data_built :
  rbind (PlaybookParser.parse_playbook kitchen_files never_relative kitchen_path)
        (fun meta => build_template_data decimal_int dump_block meta sample_config)
  = Ok kitchen_template_data.
Proof. vm_compute. reflexivity. Qed.

Lemma py_get_truthy (d : dict) (k : string) (v : value) :
  py_get (VDict d) k VNone = Ok v -> truthy v = true -> dict_get d k = Some v.
Proof.
  simpl. intros H Ht. apply Ok_inj in H.
  destruct (dict_get d k) as [x|]; [congruence|].
  subst v. discriminate.
Qed.

(** C2. A playbook whose parsed metadata has an empty name is skipped by the
    main loop: the outcome is the unchanged summary, the remote and the call
    log are untouched, and only the two lines of the skip are printed; a run
    over such playbooks alone makes no remote call and counts nothing.  When
    the loop does build a resource the declared name is non-empty, so the
    resource carries the declared name and not one derived from the path. *)
Theorem C2_unnamed_playbook_skipped
        (W : Type) (session_request : request -> W -> result response * W)
        (read_yaml : string -> result value)
        (relative_to_cwd : string -> option string)
        (py_int : string -> result Z) (yaml_dump : dict -> string)
        (CONFIG : Config) :
  let unnamed playbook_path :=
    exists playbook_meta declared,
      PlaybookParser.parse_playbook read_yaml relative_to_cwd playbook_path
      = Ok playbook_meta
      /\ py_get (VDict playbook_meta) "name" VNone = Ok declared
      /\ truthy declared = false in
  let run := AWXTemplateManager.main_loop W session_request read_yaml
               relative_to_cwd py_int yaml_dump CONFIG in
  (forall playbook_path results s,
      unnamed playbook_path ->
      AWXTemplateManager.process_playbook W session_request read_yaml
        relative_to_cwd py_int yaml_dump CONFIG playbook_path results s
      = (Ok results,
         say L_skipping (say (L_processing (path_name playbook_path)) s)))
  /\ (forall playbooks results s,
         (forall playbook_path, In playbook_path playbooks -> unnamed playbook_path) ->
         fst (run playbooks results s) = Ok results
         /\ AWXTemplateManager.calls (snd (run playbooks results s))
            = AWXTemplateManager.calls s
         /\ AWXTemplateManager.world (snd (run playbooks results s))
            = AWXTemplateManager.world s)
  /\ (forall playbook_path playbook_meta declared template_data,
         PlaybookParser.parse_playbook read_yaml relative_to_cwd playbook_path
         = Ok playbook_meta ->
         py_get (VDict playbook_meta) "name" VNone = Ok declared ->
         truthy declared = true ->
         build_template_data py_int yaml_dump playbook_meta CONFIG
         = Ok template_data ->
         dict_get template_data "name" = Some declared).
Proof.
  cbv zeta.
  assert (Hone : forall playbook_path results s,
             (exists playbook_meta declared,
                 PlaybookParser.parse_playbook read_yaml relative_to_cwd
                   playbook_path = Ok playbook_meta
                 /\ py_get (VDict playbook_meta) "name" VNone = Ok declared
                 /\ truthy declared = false) ->
             AWXTemplateManager.process_playbook W session_request read_yaml
               relative_to_cwd py_int yaml_dump CONFIG playbook_path results s
             = (Ok results,
                say L_skipping (say (L_processing (path_name playbook_path)) s))).
  { intros playbook_path results s (meta & declared & Hparse & Hget & Hfalse).
    unfold AWXTemplateManager.process_playbook, AWXTemplateManager.bind,
      AWXTemplateManager.try_except, AWXTemplateManager.print,
      AWXTemplateManager.lift, AWXTemplateManager.ret.
    rewrite Hparse, Hget, Hfalse. reflexivity. }
  split; [exact Hone|]. split.
  - intros playbooks.
    induction playbooks as [|playbook_path rest IH]; intros results s Hall.
    + simpl. repeat split.
    + simpl. unfold AWXTemplateManager.bind.
      rewrite (Hone playbook_path results s) by (apply Hall; left; reflexivity).
      destruct (IH results
                  (say L_skipping (say (L_processing (path_name playbook_path)) s)))
        as (Hout & Hcalls & Hworld).
      { intros p Hp. apply Hall. right. exact Hp. }
      split; [exact Hout|]. split; [exact Hcalls | exact Hworld].
  - intros playbook_path playbook_meta declared template_data
           _ Hget Htruthy Hbuild.
    apply py_get_truthy in Hget; [|exact Htruthy].
    apply build_template_data_ok in Hbuild.
    destruct Hbuild as (name & vars & pv & filepath & tn & desc & limit &
                        Hname & _ & _ & _ & Htn & _ & _ & Hgn & _).
    unfold py_getitem in Hname. rewrite Hget in Hname.
    apply Ok_inj in Hname. subst name.
    rewrite Htruthy in Htn. subst tn. exact Hgn.
Qed.

Lemma C2_unnamed_playbook_skipped_witness :
  (exists playbook_meta declared,
      PlaybookParser.parse_playbook unnamed_files never_relative unnamed_path
      = Ok playbook_meta
      /\ py_get (VDict playbook_meta) "name" VNone = Ok declared
      /\ truthy declared = false)
  /\ AWXTemplateManager.process_playbook ReferenceRemote.store
       ReferenceRemote.serve unnamed_files never_relative decimal_int
       dump_block sample_config unnamed_path AWXTemplateManager.no_results
       (ReferenceRemote.start (ReferenceRemote.empty_store 204))
     = (Ok AWXTemplateManager.no_results,
        say L_skipping
          (say (L_processing (path_name unnamed_path))
             (ReferenceRemote.start (ReferenceRemote.empty_store 204)))).
Proof.
  assert (Hunnamed :
            exists playbook_meta declared,
              PlaybookParser.parse_playbook unnamed_files never_relative
                unnamed_path = Ok playbook_meta
              /\ py_get (VDict playbook_meta) "name" VNone = Ok declared
              /\ truthy declared = false).
  { eexists. exists (VStr "").
    split; [vm_compute; reflexivity|]. split; reflexivity. }
  split; [exact Hunnamed|].
  apply (C2_unnamed_playbook_skipped ReferenceRemote.store ReferenceRemote.serve
           unnamed_files never_relative decimal_int dump_block sample_config).
  exact Hunnamed.
Defined.

(** C3, on the code. On a remote that holds no template yet, the run over
    the kitchen playbook finds nothing, creates the template with a POST and
    links its credential; the summary is then decided by a second query,
    which finds the template just created, so the resource is counted under
    updated and the created list stays empty. *)
Theorem C3_created_counted_as_updated :
  let run :=
    AWXTemplateManager.main_loop ReferenceRemote.store ReferenceRemote.serve
      kitchen_files never_relative decimal_int dump_block sample_config
      [kitchen_path] AWXTemplateManager.no_results
      (ReferenceRemote.start (ReferenceRemote.empty_store 204)) in
  fst run
  = Ok {| AWXTemplateManager.created := [];
          AWXTemplateManager.updated := [VStr "Flash Kitchen"];
          AWXTemplateManager.failed := [] |}
  /\ AWXTemplateManager.calls (snd run)
     = [find_request (VStr "Flash Kitchen");
        create_request kitchen_payload;
        link_request (VInt 1) (VInt 5);
        find_request (VStr "Flash Kitchen")]
  /\ In (L_creating (VStr "Flash Kitchen")) (AWXTemplateManager.console (snd run))
  /\ In (L_template_done "updated" (VStr "Flash Kitchen") (VInt 1))
        (AWXTemplateManager.console (snd run)).
Proof.
  cbv zeta. split; [vm_compute; reflexivity|].
  split; [vm_compute; reflexivity|].
  split; vm_compute; tauto.
Qed.

Lemma link_requests_are_links (template_id : value) (creds : list value) :
  Forall (fun req => is_link req = true /\ is_create req = false
                     /\ carries_credentials req = false)
         (map (link_request template_id) creds).
Proof.
  induction creds as [|c rest IH]; simpl; constructor.
  - repeat split.
  - exact IH.
Qed.

Lemma payload_carries_no_credentials (template_data : dict) :
  dict_mem (dict_remove template_data "credentials") "credentials" = false.
Proof. unfold dict_mem. rewrite dict_get_remove. reflexivity. Qed.

(** C4. Let a first reconciliation of a desired resource have returned the
    resource [r1], and let the query by name now return that resource.  A
    second reconciliation of the same desired resource takes the update
    branch: it announces an update and no creation, issues no request that
    creates a template, and, [r1] having the identifier [i], its write is the
    PATCH of template [i] with the unchanged payload, followed by credential
    links only. *)
Theorem C4_second_run_updates
        (W : Type) (session_request : request -> W -> result response * W)
        (template_data : dict) (name r1 : value)
        (s0 s1 s2 : AWXTemplateManager.state W) :
  py_getitem template_data "name" = Ok name ->
  AWXTemplateManager.create_or_update_template W session_request
    template_data s0 = (Ok r1, s1) ->
  fst (AWXTemplateManager.get_template W session_request name s2) = Ok r1 ->
  truthy r1 = true ->
  let s3 := snd (AWXTemplateManager.create_or_update_template W session_request
                   template_data s2) in
  exists cs ls,
    grows s2 s3 (find_request name :: cs) ls
    /\ Forall (fun req => is_create req = false) cs
    /\ In (L_updating name) ls
    /\ quiet ls
    /\ (forall i,
           py_subscript r1 "id" = Ok i ->
           exists links,
             cs = update_request i (dict_remove template_data "credentials")
                  :: links
             /\ Forall (fun req => is_link req = true) links).
Proof.
  intros Hname _ Hfound Htruthy. cbv zeta.
  destruct (create_or_update_trace W session_request template_data name s2 Hname)
    as (cs & ls & Hgrows & Hcases).
  cbv zeta in Hcases. rewrite Hfound in Hcases.
  destruct Hcases as (links & Hshape & _ & Hbranch).
  rewrite Htruthy in Hbranch. destruct Hbranch as (Hin & Hquiet & Hwrite).
  assert (Hlinks : Forall (fun req => is_link req = true /\ is_create req = false
                                      /\ carries_credentials req = false) links).
  { destruct Hshape as [-> | [tid ->]];
      [constructor | apply link_requests_are_links]. }
  exists cs, ls.
  split; [exact Hgrows|]. split; [|split; [exact Hin | split; [exact Hquiet|]]].
  - destruct (py_subscript r1 "id") as [i|e].
    + subst cs. constructor; [reflexivity|].
      eapply Forall_impl; [|exact Hlinks]. intros req (_ & H & _). exact H.
    + destruct Hwrite as [-> _]. constructor.
  - intros i Hi. rewrite Hi in Hwrite. exists links.
    split; [exact Hwrite|].
    eapply Forall_impl; [|exact Hlinks]. intros req (H & _). exact H.
Qed.

(** The first run on the empty reference store, and the state it leaves. *)
Lemma C4_second_run_updates_witness :
  let first :=
    AWXTemplateManager.create_or_update_template ReferenceRemote.store
      ReferenceRemote.serve kitchen_template_data
      (ReferenceRemote.start (ReferenceRemote.empty_store 204)) in
  let r1 := VDict (("id", VInt 1) :: kitchen_payload) in
  fst first = Ok r1
  /\ fst (AWXTemplateManager.get_template ReferenceRemote.store
            ReferenceRemote.serve (VStr "Flash Kitchen") (snd first)) = Ok r1
  /\ truthy r1 = true
  /\ exists cs ls,
      grows (snd first)
            (snd (AWXTemplateManager.create_or_update_template
                    ReferenceRemote.store ReferenceRemote.serve
                    kitchen_template_data (snd first)))
            (find_request (VStr "Flash Kitchen") :: cs) ls
      /\ Forall (fun req => is_create req = false) cs
      /\ In (L_updating (VStr "Flash Kitchen")) ls.
Proof.
  cbv zeta.
  split; [vm_compute; reflexivity|].
  split; [vm_compute; reflexivity|].
  split; [reflexivity|].
  destruct (C4_second_run_updates ReferenceRemote.store ReferenceRemote.serve
              kitchen_template_data (VStr "Flash Kitchen")
              (VDict (("id", VInt 1) :: kitchen_payload))
              (ReferenceRemote.start (ReferenceRemote.empty_store 204))
              (snd (AWXTemplateManager.create_or_update_template
                      ReferenceRemote.store ReferenceRemote.serve
                      kitchen_template_data
                      (ReferenceRemote.start (ReferenceRemote.empty_store 204))))
              (snd (AWXTemplateManager.create_or_update_template
                      ReferenceRemote.store ReferenceRemote.serve
                      kitchen_template_data
                      (ReferenceRemote.start (ReferenceRemote.empty_store 204)))))
    as (cs & ls & Hgrows & Hcreate & Hin & _).
  - reflexivity.
  - vm_compute. reflexivity.
  - vm_compute. reflexivity.
  - reflexivity.
  - exists cs, ls. split; [exact Hgrows|]. split; [exact Hcreate | exact Hin].
Defined.

(** After the two runs the reference store holds one template. *)
Example two_runs_one_template :
  let first :=
    AWXTemplateManager.create_or_update_template ReferenceRemote.store
      ReferenceRemote.serve kitchen_template_data
      (ReferenceRemote.start (ReferenceRemote.empty_store 204)) in
  let second :=
    AWXTemplateManager.create_or_update_template ReferenceRemote.store
      ReferenceRemote.serve kitchen_template_data (snd first) in
  List.length (ReferenceRemote.templates (AWXTemplateManager.world (snd second)))
  = 1%nat
  /\ fst second = fst first.
Proof. vm_compute. split; reflexivity. Qed.

(** The reference remote, started with any two link statuses, answers
    everything but a credential link alike. *)
Lemma reference_remote_agrees :
  agree_outside_links same_templates ReferenceRemote.serve ReferenceRemote.serve.
Proof.
  intros [method ep params body] [t1 n1 l1 k1] [t2 n2 l2 k2] [Ht Hn].
  simpl in Ht, Hn. subst t2 n2.
  unfold ReferenceRemote.serve, same_templates, is_link; simpl.
  destruct method, ep as [|id|id], body as [b|]; simpl;
    try destruct id; simpl;
    repeat match goal with
           | |- context [ReferenceRemote.find_entry ?i ?l] =>
               destruct (ReferenceRemote.find_entry i l); simpl
           | |- context [(?k <? 400)%Z] => destruct (k <? 400)%Z; simpl
           end;
    (split; [split; reflexivity | first [intros _; reflexivity | discriminate]]).
Qed.

(** The rejected links of that run: the template is stored, no credential is
    linked, the warning is printed and the failed list is empty. *)
Example rejected_link_is_a_warning :
  let run :=
    AWXTemplateManager.main_loop ReferenceRemote.store ReferenceRemote.serve
      kitchen_files never_relative decimal_int dump_block sample_config
      [kitchen_path] AWXTemplateManager.no_results
      (ReferenceRemote.start (ReferenceRemote.empty_store 400)) in
  (exists results,
      fst run = Ok results /\ AWXTemplateManager.failed results = [])
  /\ List.length (ReferenceRemote.templates (AWXTemplateManager.world (snd run)))
     = 1%nat
  /\ ReferenceRemote.linked (AWXTemplateManager.world (snd run)) = []
  /\ In (L_warn_associate (VInt 5) RequestException)
        (AWXTemplateManager.console (snd run)).
Proof.
  cbv zeta. split; [eexists; split; vm_compute; reflexivity|].
  split; [vm_compute; reflexivity|].
  split; vm_compute; [reflexivity | tauto].
Qed.


(* ------------------------------------------------------------------ *)
(** * Further properties of the template script *)



Lemma dict_set_fresh (d : dict) (k : string) (v : value) :
  dict_get d k = None -> dict_set d k v = d ++ [(k, v)].
Proof.
  induction d as [|[k0 v0] rest IH]; simpl; [reflexivity|].
  destruct (k0 =? k); [discriminate|].
  intros H. rewrite IH by exact H. reflexivity.
Qed.

Lemma dict_get_app (d1 d2 : dict) (k : string) :
  dict_get (d1 ++ d2) k
  = match dict_get d1 k with
    | Some v => Some v
    | None => dict_get d2 k
    end.
Proof.
  induction d1 as [|[k0 v0] rest IH]; simpl; [reflexivity|].
  destruct (k0 =? k); [reflexivity | exact IH].
Qed.

Lemma project_fresh_keys (src : dict) (keys : list string) (acc : dict) :
  NoDup keys ->
  (forall k, In k keys -> dict_get acc k = None) ->
  fold_left
    (fun extra_vars key =>
       match dict_get src key with
       | Some v => dict_set extra_vars key v
       | None => extra_vars
       end) keys acc
  = acc ++ flat_map (fun key =>
                       match dict_get src key with
                       | Some v => [(key, v)]
                       | None => []
                       end) keys.
Proof.
  revert acc. induction keys as [|key keys IH]; intros acc Hnd Hfresh; simpl.
  - rewrite app_nil_r. reflexivity.
  - inversion Hnd as [|? ? Hnotin Hnd']; subst.
    destruct (dict_get src key) as [v|] eqn:Hsrc.
    + rewrite dict_set_fresh by (apply Hfresh; left; reflexivity).
      rewrite IH; [rewrite <- app_assoc; reflexivity | exact Hnd' |].
      intros k Hk. rewrite dict_get_app, Hfresh by (right; exact Hk). simpl.
      destruct (String.eqb_spec key k) as [->|_]; [contradiction | reflexivity].
    + simpl. apply IH; [exact Hnd'|].
      intros k Hk. apply Hfresh. right. exact Hk.
Qed.

Lemma var_keys_nodup : NoDup PlaybookParser.var_keys.
Proof.
  unfold PlaybookParser.var_keys.
  repeat constructor; simpl; intuition discriminate.
Qed.

Lemma extract_extra_vars_entries (playbook_vars : dict) :
  PlaybookParser.extract_extra_vars playbook_vars = allowed_entries playbook_vars.
Proof.
  unfold PlaybookParser.extract_extra_vars, allowed_entries.
  rewrite project_fresh_keys; [reflexivity | apply var_keys_nodup |].
  intros k _. reflexivity.
Qed.

Lemma allowed_entries_keys_sub (keys : list string) (src : dict) :
  forall k,
    In k (dict_keys (flat_map (fun key =>
                                 match dict_get src key with
                                 | Some v => [(key, v)]
                                 | None => []
                                 end) keys)) -> In k keys.
Proof.
  induction keys as [|key keys IH]; simpl; intros k Hin; [exact Hin|].
  unfold dict_keys in *. rewrite map_app in Hin. apply in_app_or in Hin.
  destruct Hin as [Hin|Hin].
  - destruct (dict_get src key); simpl in Hin; [|contradiction].
    destruct Hin as [<-|[]]. left. reflexivity.
  - right. apply IH. exact Hin.
Qed.

Lemma allowed_entries_nodup (keys : list string) (src : dict) :
  NoDup keys ->
  NoDup (dict_keys (flat_map (fun key =>
                                match dict_get src key with
                                | Some v => [(key, v)]
                                | None => []
                                end) keys)).
Proof.
  induction 1 as [|key keys Hnotin Hnd IH]; simpl; [constructor|].
  destruct (dict_get src key) as [v|]; simpl; [|exact IH].
  constructor; [|exact IH].
  intros Hin. apply Hnotin. eapply allowed_entries_keys_sub. exact Hin.
Qed.

Lemma flat_map_ext_in {A B} (f g : A -> list B) (l : list A) :
  (forall a, In a l -> f a = g a) -> flat_map f l = flat_map g l.
Proof.
  induction l as [|a rest IH]; simpl; intros H; [reflexivity|].
  rewrite H by (left; reflexivity). rewrite IH; [reflexivity|].
  intros b Hb. apply H. right. exact Hb.
Qed.

(** X10. The extra-variables payload lists the allow-listed entries of the
    source in the order of the allow-list, with no key twice; projecting a
    payload again gives the same payload, and two sources with the same
    lookups give the same payload, whatever their own order. *)
Theorem X10_extra_vars_canonical (playbook_vars : dict) :
  PlaybookParser.extract_extra_vars playbook_vars = allowed_entries playbook_vars
  /\ NoDup (dict_keys (PlaybookParser.extract_extra_vars playbook_vars))
  /\ PlaybookParser.extract_extra_vars
       (PlaybookParser.extract_extra_vars playbook_vars)
     = PlaybookParser.extract_extra_vars playbook_vars
  /\ (forall other : dict,
         (forall k, dict_get other k = dict_get playbook_vars k) ->
         PlaybookParser.extract_extra_vars other
         = PlaybookParser.extract_extra_vars playbook_vars).
Proof.
  split; [apply extract_extra_vars_entries|].
  split; [|split].
  - rewrite extract_extra_vars_entries. apply allowed_entries_nodup.
    apply var_keys_nodup.
  - rewrite !extract_extra_vars_entries. unfold allowed_entries.
    apply flat_map_ext_in. intros key Hkey.
    fold (allowed_entries playbook_vars).
    rewrite <- extract_extra_vars_entries.
    unfold PlaybookParser.extract_extra_vars. rewrite project_keys_get.
    apply existsb_eqb_In in Hkey. rewrite Hkey.
    destruct (dict_get playbook_vars key); reflexivity.
  - intros other Hsame. rewrite !extract_extra_vars_entries.
    unfold allowed_entries. apply flat_map_ext. intros key.
    rewrite Hsame. reflexivity.
Qed.


Lemma py_join_items_ok (items : list value) (strs : list string) :
  py_join_items items = Ok strs <-> items = map VStr strs.
Proof.
  revert strs. induction items as [|x rest IH]; intros strs; simpl.
  - split.
    + intros H. apply Ok_inj in H. subst. reflexivity.
    + destruct strs; [reflexivity | discriminate].
  - destruct x; try (split; [discriminate | destruct strs; discriminate]).
    destruct (py_join_items rest) as [l|e] eqn:Hrest.
    + split.
      * intros H. apply Ok_inj in H. subst strs. simpl. f_equal.
        apply IH. reflexivity.
      * destruct strs as [|s' strs]; [discriminate|]. simpl.
        intros H. injection H as -> Hrest'.
        apply IH in Hrest'. congruence.
    + split; [discriminate|].
      destruct strs as [|s' strs]; [discriminate|]. simpl.
      intros H. injection H as _ Hrest'. apply IH in Hrest'. discriminate.
Qed.

Lemma py_join_items_err (items : list value) (e : exn) :
  py_join_items items = Err e <-> e = OtherException /\ forallb is_str items = false.
Proof.
  induction items as [|x rest IH]; simpl.
  - split; [discriminate | intros [_ H]; discriminate].
  - destruct x; simpl;
      try (split; [intros H; injection H as <-; split; reflexivity
                  | intros [-> _]; reflexivity]).
    destruct (py_join_items rest) as [l|e'].
    + split; [discriminate|]. intros H. apply IH in H. discriminate.
    + split.
      * intros H. injection H as ->. apply IH. reflexivity.
      * intros H. apply IH in H. exact H.
Qed.

Lemma map_VStr_inj (a b : list string) : map VStr a = map VStr b -> a = b.
Proof.
  revert b. induction a as [|x a IH]; intros [|y b] H; try discriminate.
  - reflexivity.
  - simpl in H. injection H as -> H. f_equal. apply IH. exact H.
Qed.

Lemma map_map_VStr_inj (a b : list (list string)) :
  map (map VStr) a = map (map VStr) b -> a = b.
Proof.
  revert b. induction a as [|x a IH]; intros [|y b] H; try discriminate.
  - reflexivity.
  - simpl in H. injection H as Hxy H. f_equal.
    + apply map_VStr_inj. exact Hxy.
    + apply IH. exact H.
Qed.

Lemma pattern_parts_ok (playbook_vars : dict) (parts : list string) :
  PlaybookParser.pattern_parts playbook_vars = Ok parts
  <-> exists strs,
      pattern_lists playbook_vars = map (map VStr) strs
      /\ parts = map pattern_segment strs.
Proof.
  revert parts.
  induction playbook_vars as [|[key patterns] rest IH]; intros parts.
  - simpl. split.
    + intros H. apply Ok_inj in H. subst. exists []. split; reflexivity.
    + intros (strs & Hl & ->). destruct strs; [reflexivity | discriminate].
  - assert (Hskip :
              PlaybookParser.pattern_parts rest = Ok parts
              <-> exists strs,
                  pattern_lists rest = map (map VStr) strs
                  /\ parts = map pattern_segment strs) by apply IH.
    unfold pattern_lists. simpl. fold (pattern_lists rest).
    destruct (endswith key "_patterns"); [|exact Hskip].
    destruct patterns as [| | | |l|]; try exact Hskip.
    clear Hskip. unfold py_join. simpl.
    destruct (py_join_items l) as [items|e] eqn:Hitems; simpl.
    + apply py_join_items_ok in Hitems. subst l.
      split.
      * intros H. apply rbind_ok in H. destruct H as (tail & Htail & H).
        apply Ok_inj in H. subst parts.
        apply IH in Htail. destruct Htail as (strs & Hl & ->).
        exists (items :: strs). simpl. rewrite Hl. split; reflexivity.
      * intros (strs & Hl & ->).
        destruct strs as [|items' strs]; [discriminate|].
        simpl in Hl. injection Hl as Hi Hl.
        apply map_VStr_inj in Hi. subst items'.
        assert (Htail : PlaybookParser.pattern_parts rest
                        = Ok (map pattern_segment strs)).
        { apply IH. exists strs. split; [exact Hl | reflexivity]. }
        rewrite Htail. reflexivity.
    + split; [discriminate|].
      intros (strs & Hl & ->).
      destruct strs as [|items' strs]; [discriminate|].
      simpl in Hl. injection Hl as Hi _.
      assert (Hok : py_join_items l = Ok items')
        by (apply py_join_items_ok; exact Hi).
      congruence.
Qed.

Lemma all_str_map (l : list value) :
  forallb is_str l = true <-> exists strs, l = map VStr strs.
Proof.
  induction l as [|x rest IH]; simpl.
  - split; [intros _; exists []; reflexivity | reflexivity].
  - split.
    + intros H. apply andb_prop in H. destruct H as [Hx Hrest].
      apply IH in Hrest. destruct Hrest as (strs & ->).
      destruct x; try discriminate. exists (s :: strs). reflexivity.
    + intros (strs & H). destruct strs as [|s strs]; [discriminate|].
      simpl in H. injection H as -> H. simpl. apply IH. exists strs. exact H.
Qed.

Lemma all_lists_str_map (ls : list (list value)) :
  forallb (forallb is_str) ls = true <-> exists strs, ls = map (map VStr) strs.
Proof.
  induction ls as [|l rest IH]; simpl.
  - split; [intros _; exists []; reflexivity | reflexivity].
  - split.
    + intros H. apply andb_prop in H. destruct H as [Hl Hrest].
      apply all_str_map in Hl. destruct Hl as (items & ->).
      apply IH in Hrest. destruct Hrest as (strs & ->).
      exists (items :: strs). reflexivity.
    + intros (strs & H). destruct strs as [|items strs]; [discriminate|].
      simpl in H. injection H as -> ->. apply andb_true_intro. split.
      * apply all_str_map. exists items. reflexivity.
      * apply IH. exists strs. reflexivity.
Qed.

Lemma pattern_parts_exn (playbook_vars : dict) (e : exn) :
  PlaybookParser.pattern_parts playbook_vars = Err e -> e = OtherException.
Proof.
  induction playbook_vars as [|[key patterns] rest IH]; simpl; [discriminate|].
  destruct (endswith key "_patterns"); [|exact IH].
  destruct patterns as [| | | |l|]; try exact IH.
  unfold py_join.
  destruct (py_join_items l) as [items|e'] eqn:Hitems; simpl.
  - destruct (PlaybookParser.pattern_parts rest); simpl; [discriminate|].
    intros H. injection H as <-. apply IH. reflexivity.
  - intros H. injection H as <-. apply py_join_items_err in Hitems.
    destruct Hitems as [-> _]. reflexivity.
Qed.

Lemma prefix_append (a b : string) : prefix a (a ++ b) = true.
Proof.
  induction a as [|c a IH]; simpl.
  - destruct b; reflexivity.
  - destruct (ascii_dec c c) as [_|Hne]; [exact IH | contradiction].
Qed.

Lemma concat_cons (sep first : string) (others : list string) :
  String.concat sep (first :: others)
  = (first ++ match others with
              | [] => ""
              | _ :: _ => sep ++ String.concat sep others
              end)%string.
Proof.
  destruct others; simpl; [|reflexivity].
  induction first as [|c first IH]; simpl; [reflexivity|].
  rewrite <- IH. reflexivity.
Qed.

(** X11. When [generate_description] returns, the name is a string and
    the description is the name followed by one ["Patterns: a, b"] segment
    for each key ending in ["_patterns"] whose value is a list, in mapping
    order, joined by [" | "].  It starts with the name and is the name itself
    when there is no such key. *)
Theorem X11_description_segments (playbook_name : value) (playbook_vars : dict)
        (description : string) :
  PlaybookParser.generate_description playbook_name playbook_vars = Ok description ->
  exists name items,
    playbook_name = VStr name
    /\ pattern_lists playbook_vars = map (map VStr) items
    /\ description = String.concat " | " (name :: map pattern_segment items)
    /\ prefix name description = true
    /\ (pattern_lists playbook_vars = [] -> description = name).
Proof.
  unfold PlaybookParser.generate_description. intros H.
  apply rbind_ok in H. destruct H as (parts & Hparts & H).
  apply pattern_parts_ok in Hparts. destruct Hparts as (items & Hlists & ->).
  unfold py_join in H. simpl in H.
  destruct playbook_name as [| | |name| |]; try discriminate.
  destruct (py_join_items (map VStr (map pattern_segment items))) as [l|e] eqn:Hl;
    [|discriminate].
  apply py_join_items_ok in Hl. apply map_VStr_inj in Hl. subst l.
  apply Ok_inj in H. subst description.
  exists name, items.
  split; [reflexivity|]. split; [exact Hlists|]. split; [reflexivity|].
  split.
  - rewrite concat_cons. apply prefix_append.
  - intros Hnone. rewrite Hnone in Hlists.
    destruct items; [reflexivity | discriminate].
Qed.

(** X12. [generate_description] raises whenever the name is not a string
    or some list stored under a key ending in ["_patterns"] has an item that
    is not a string. *)
Theorem X12_description_errors (playbook_name : value) (playbook_vars : dict) :
  is_str playbook_name = false
  \/ forallb (forallb is_str) (pattern_lists playbook_vars) = false ->
  exists e,
    PlaybookParser.generate_description playbook_name playbook_vars = Err e.
Proof.
  intros Hbad. unfold PlaybookParser.generate_description.
  destruct (PlaybookParser.pattern_parts playbook_vars) as [parts|e] eqn:Hparts;
    simpl; [|exists e; reflexivity].
  assert (Hall : forallb (forallb is_str) (pattern_lists playbook_vars) = true).
  { apply all_lists_str_map. apply pattern_parts_ok in Hparts.
    destruct Hparts as (items & Hl & _). exists items. exact Hl. }
  destruct Hbad as [Hname|Hlists]; [|congruence].
  unfold py_join. simpl.
  destruct playbook_name as [| | |name| |]; simpl;
    try (eexists; reflexivity).
  discriminate Hname.
Qed.

Lemma case_keeps_other_chars (c x : ascii) :
  is_cased c = false ->
  (to_upper x = c -> x = c) /\ (to_lower x = c -> x = c).
Proof.
  intros Hc. unfold to_upper, to_lower. split.
  - destruct (is_ascii_lower x) eqn:Hx; [|auto].
    intros <-. exfalso.
    unfold is_cased, is_ascii_upper, is_ascii_lower in *.
    apply orb_false_elim in Hc. destruct Hc as [Hu _].
    apply andb_prop in Hx. destruct Hx as [H1 H2].
    apply Nat.leb_le in H1, H2.
    rewrite nat_ascii_embedding in Hu by lia.
    apply andb_false_elim in Hu.
    destruct Hu as [Hu|Hu]; apply Nat.leb_gt in Hu; lia.
  - destruct (is_ascii_upper x) eqn:Hx; [|auto].
    intros <-. exfalso.
    unfold is_cased, is_ascii_upper, is_ascii_lower in *.
    apply orb_false_elim in Hc. destruct Hc as [_ Hl].
    apply andb_prop in Hx. destruct Hx as [H1 H2].
    apply Nat.leb_le in H1, H2.
    rewrite nat_ascii_embedding in Hl by lia.
    apply andb_false_elim in Hl.
    destruct Hl as [Hl|Hl]; apply Nat.leb_gt in Hl; lia.
Qed.

Lemma title_from_chars (c : ascii) (previous : bool) (s : string) :
  is_cased c = false -> has_char c (title_from previous s) -> has_char c s.
Proof.
  intros Hc. revert previous.
  induction s as [|x rest IH]; intros previous; simpl; [auto|].
  unfold has_char in *. simpl.
  intros [H|H].
  - left. destruct previous;
      [apply (proj2 (case_keeps_other_chars c x Hc))
      | apply (proj1 (case_keeps_other_chars c x Hc))]; exact H.
  - right. eapply IH. exact H.
Qed.

Lemma title_from_length (previous : bool) (s : string) :
  String.length (title_from previous s) = String.length s.
Proof.
  revert previous. induction s as [|x rest IH]; intros previous; simpl;
    [reflexivity | rewrite IH; reflexivity].
Qed.

Lemma replace_char_length (a b : ascii) (s : string) :
  String.length (replace_char a b s) = String.length s.
Proof.
  induction s as [|x rest IH]; simpl; [reflexivity | rewrite IH; reflexivity].
Qed.

Lemma replace_char_chars (a b c : ascii) (s : string) :
  has_char c (replace_char a b s) -> (c = b \/ has_char c s) /\ (a <> b -> c <> a).
Proof.
  unfold has_char. induction s as [|x rest IH]; simpl; [intros []|].
  intros [H|H].
  - destruct (Ascii.eqb_spec x a) as [->|Hne].
    + subst c. split; [left; reflexivity | intros Hab Heq; congruence].
    + subst c. split; [right; left; reflexivity | intros _; exact Hne].
  - destruct (IH H) as [[->|Hin] Hne]; split; auto.
Qed.

Lemma split_on_parts (c : ascii) (s : string) :
  forall part, In part (split_on c s) -> ~ has_char c part.
Proof.
  unfold has_char. induction s as [|x rest IH]; simpl.
  - intros part [<-|[]]. simpl. auto.
  - destruct (Ascii.eqb_spec x c) as [->|Hne].
    + intros part [<-|Hin]; [simpl; auto | apply IH; exact Hin].
    + destruct (split_on c rest) as [|h t] eqn:Hsplit.
      * intros part [<-|[]]. simpl. intros [H|[]]. congruence.
      * intros part [<-|Hin].
        -- simpl. intros [H|H]; [congruence|].
           apply (IH h); [left; reflexivity | exact H].
        -- apply IH. right. exact Hin.
Qed.

Lemma last_in_or_default {A} (l : list A) (d : A) :
  last l d = d \/ In (last l d) l.
Proof.
  induction l as [|x rest IH]; simpl; [left; reflexivity|].
  destruct rest as [|y rest']; [right; left; reflexivity|].
  destruct IH as [H|H]; [|right; right; exact H].
  right. right. rewrite H.
  clear -H. simpl in H.
  (* last (y :: rest') d = d with nonempty list: d occurs as last element *)
  revert y H. induction rest' as [|z r IHr]; intros y H; simpl in *.
  - left. exact H.
  - right. apply IHr. exact H.
Qed.

Lemma path_name_no_slash (p : string) : ~ has_char "/" (path_name p).
Proof.
  unfold path_name.
  destruct (last_in_or_default
              (filter (fun part => negb (part =? "") && negb (part =? "."))
                      (split_on "/" p)) "") as [H|H].
  - rewrite H. unfold has_char. simpl. auto.
  - apply filter_In in H. destruct H as [H _].
    apply split_on_parts with (s := p). exact H.
Qed.

Lemma substring_chars (c : ascii) (n m : nat) (s : string) :
  has_char c (substring n m s) -> has_char c s.
Proof.
  unfold has_char. revert n m.
  induction s as [|x rest IH]; intros n m; simpl.
  - destruct n, m; simpl; auto.
  - destruct n as [|n].
    + destruct m as [|m]; simpl; [intros []|].
      intros [H|H]; [left; exact H | right; eapply IH; exact H].
    + intros H. right. eapply IH. exact H.
Qed.

Lemma path_stem_no_slash (p : string) : ~ has_char "/" (path_stem p).
Proof.
  unfold path_stem.
  pose proof (path_name_no_slash p) as Hname.
  destruct (rfind "." (path_name p)) as [i|]; [|exact Hname].
  destruct ((0 <? i)%nat && (i <? String.length (path_name p) - 1)%nat);
    [|exact Hname].
  intros H. apply Hname. eapply substring_chars. exact H.
Qed.

Lemma substring_prefix_length (i : nat) (s : string) :
  (i <= String.length s)%nat -> String.length (substring 0 i s) = i.
Proof.
  revert i. induction s as [|x rest IH]; intros i; simpl.
  - intros H. assert (i = 0)%nat by lia. subst. reflexivity.
  - destruct i as [|i]; [reflexivity|]. simpl. intros H.
    rewrite IH by lia. reflexivity.
Qed.

(** X15. When the stem of a path is ASCII text, the name derived from the
    path is as long as the stem and contains neither an underscore nor a
    slash.  For every path the stem is never longer than the file name and
    is the file name when that has no dot. *)
Theorem X15_derived_name_shape (filepath : string) :
  (ascii_only (path_stem filepath) = true ->
   String.length (derived_name filepath) = String.length (path_stem filepath)
   /\ ~ has_char "_" (derived_name filepath)
   /\ ~ has_char "/" (derived_name filepath))
  /\ (String.length (path_stem filepath) <= String.length (path_name filepath))%nat
  /\ (rfind "." (path_name filepath) = None ->
      path_stem filepath = path_name filepath).
Proof.
  unfold derived_name, title.
  split; [intros _; split; [|split]|split].
  - rewrite title_from_length, replace_char_length. reflexivity.
  - intros H. apply title_from_chars in H; [|reflexivity].
    apply replace_char_chars in H. destruct H as [_ H].
    apply H; [discriminate | reflexivity].
  - intros H. apply title_from_chars in H; [|reflexivity].
    apply replace_char_chars in H. destruct H as [[H|H] _]; [discriminate|].
    exact (path_stem_no_slash filepath H).
  - unfold path_stem.
    destruct (rfind "." (path_name filepath)) as [i|]; [|lia].
    destruct ((0 <? i)%nat && (i <? String.length (path_name filepath) - 1)%nat)
             eqn:Hi; [|lia].
    apply andb_prop in Hi. destruct Hi as [_ Hi]. apply Nat.ltb_lt in Hi.
    rewrite substring_prefix_length by lia. lia.
  - unfold path_stem. intros ->. reflexivity.
Qed.

Section BuilderFacts.
Variable py_int : string -> result Z.
Variable yaml_dump : dict -> string.

(** The built resource, entry by entry. *)
Lemma build_template_data_shape (playbook_meta : dict) (config : Config)
        (template_data : dict) :
  build_template_data py_int yaml_dump playbook_meta config = Ok template_data ->
  exists template_name description inventory project filepath playbook_vars
         credential environment limit,
    template_data
    = [("name", template_name);
       ("description", VStr description);
       ("job_type", VStr "run");
       ("inventory", VInt inventory);
       ("project", VInt project);
       ("playbook", filepath);
       ("ask_variables_on_launch", VBool true);
       ("extra_vars",
        VStr (yaml_dump (PlaybookParser.extract_extra_vars playbook_vars)))]
      ++ optional_fields credential environment limit
    /\ py_int (inventory_id config) = Ok inventory
    /\ py_int (project_id config) = Ok project
    /\ configured py_int (credential_id config) = Ok credential
    /\ configured py_int (execution_environment_id config) = Ok environment
    /\ py_getitem playbook_meta "filepath" = Ok filepath
    /\ py_getitem playbook_meta "vars" = Ok (VDict playbook_vars).
Proof.
  unfold build_template_data. intros H.
  apply rbind_ok in H. destruct H as (name & Hname & H).
  apply rbind_ok in H. destruct H as (template_name & Htn & H).
  apply rbind_ok in H. destruct H as (vars & Hvars & H).
  apply rbind_ok in H. destruct H as (playbook_vars & Hpv & H).
  apply rbind_ok in H. destruct H as (description & Hdesc & H).
  apply rbind_ok in H. destruct H as (inventory & Hinv & H).
  apply rbind_ok in H. destruct H as (project & Hproj & H).
  apply rbind_ok in H. destruct H as (filepath & Hfp & H).
  apply rbind_ok in H. destruct H as (td1 & Htd1 & H).
  apply rbind_ok in H. destruct H as (td2 & Htd2 & H).
  apply rbind_ok in H. destruct H as (in_target & Hit & H).
  apply rbind_ok in H. destruct H as (in_all & Hia & H).
  apply Ok_inj in H.
  destruct vars; try discriminate. apply Ok_inj in Hpv. subst playbook_vars.
  assert (Hcred : exists credential,
             configured py_int (credential_id config) = Ok credential
             /\ td1 = [("name", template_name);
                       ("description", VStr description);
                       ("job_type", VStr "run");
                       ("inventory", VInt inventory);
                       ("project", VInt project);
                       ("playbook", filepath);
                       ("ask_variables_on_launch", VBool true);
                       ("extra_vars",
                        VStr (yaml_dump (PlaybookParser.extract_extra_vars l)))]
                      ++ optional_fields credential None false).
  { unfold configured.
    destruct (credential_id config =? ""); simpl in Htd1 |- *.
    - apply Ok_inj in Htd1. subst td1. exists None. split; reflexivity.
    - apply rbind_ok in Htd1. destruct Htd1 as (c & Hc & Htd1).
      apply Ok_inj in Htd1. subst td1. rewrite Hc. exists (Some c).
      split; reflexivity. }
  destruct Hcred as (credential & Hcred & ->).
  assert (Henv : exists environment,
             configured py_int (execution_environment_id config) = Ok environment
             /\ td2 = [("name", template_name);
                       ("description", VStr description);
                       ("job_type", VStr "run");
                       ("inventory", VInt inventory);
                       ("project", VInt project);
                       ("playbook", filepath);
                       ("ask_variables_on_launch", VBool true);
                       ("extra_vars",
                        VStr (yaml_dump (PlaybookParser.extract_extra_vars l)))]
                      ++ optional_fields credential environment false).
  { unfold configured.
    destruct (execution_environment_id config =? ""); simpl in Htd2 |- *.
    - apply Ok_inj in Htd2. subst td2. exists None.
      split; [reflexivity | destruct credential; reflexivity].
    - apply rbind_ok in Htd2. destruct Htd2 as (ee & Hee & Htd2).
      apply Ok_inj in Htd2. subst td2. rewrite Hee. exists (Some ee).
      split; [reflexivity | destruct credential; reflexivity]. }
  destruct Henv as (environment & Henv & ->).
  exists template_name, description, inventory, project, filepath, l,
         credential, environment, in_all.
  split; [|repeat split; assumption].
  subst template_data.
  destruct in_all; destruct credential, environment; reflexivity.
Qed.

(** X13. A built resource has the eight fixed fields in their order,
    followed by ['credentials'], ['execution_environment'] and
    ['ask_limit_on_launch'] where they apply, and no key twice.  The
    inventory and project are the integers the settings parse to;
    ['credentials'] is a one-element list present exactly when the setting
    is non-empty, ['execution_environment'] likewise, and
    ['ask_limit_on_launch'] is false or absent, never true. *)
Theorem X13_build_fields (playbook_meta : dict) (config : Config)
        (template_data : dict) :
  build_template_data py_int yaml_dump playbook_meta config = Ok template_data ->
  exists inventory project credential environment limit,
    py_int (inventory_id config) = Ok inventory
    /\ py_int (project_id config) = Ok project
    /\ configured py_int (credential_id config) = Ok credential
    /\ configured py_int (execution_environment_id config) = Ok environment
    /\ dict_keys template_data
       = ["name"; "description"; "job_type"; "inventory"; "project"; "playbook";
          "ask_variables_on_launch"; "extra_vars"]
         ++ dict_keys (optional_fields credential environment limit)
    /\ NoDup (dict_keys template_data)
    /\ dict_get template_data "job_type" = Some (VStr "run")
    /\ dict_get template_data "inventory" = Some (VInt inventory)
    /\ dict_get template_data "project" = Some (VInt project)
    /\ dict_get template_data "ask_variables_on_launch" = Some (VBool true)
    /\ dict_get template_data "credentials"
       = option_map (fun c => VList [VInt c]) credential
    /\ dict_get template_data "execution_environment"
       = option_map VInt environment
    /\ dict_get template_data "ask_limit_on_launch"
       = (if limit then Some (VBool false) else None).
Proof.
  intros Hbuild.
  destruct (build_template_data_shape playbook_meta config template_data Hbuild)
    as (tn & desc & inventory & project & fp & pv & credential & environment &
        limit & -> & Hinv & Hproj & Hcred & Henv & _).
  exists inventory, project, credential, environment, limit.
  split; [exact Hinv|]. split; [exact Hproj|].
  split; [exact Hcred|]. split; [exact Henv|].
  destruct credential, environment, limit; simpl;
    (split; [reflexivity|]);
    (split; [repeat constructor; simpl; intuition discriminate|]);
    repeat split; reflexivity.
Qed.

(** X14. For a playbook that declares no variables, [build_template_data]
    returns whenever the declared name and the path are strings and every
    configured identifier parses as an integer: the inventory and the
    project always, the credential and the execution environment when they
    are set. *)
Theorem X14_build_returns (playbook_meta : dict) (config : Config)
        (name filepath : string)
        (inventory project : Z) (credential environment : option Z) :
  dict_get playbook_meta "name" = Some (VStr name) ->
  dict_get playbook_meta "vars" = Some (VDict []) ->
  dict_get playbook_meta "filepath" = Some (VStr filepath) ->
  py_int (inventory_id config) = Ok inventory ->
  py_int (project_id config) = Ok project ->
  configured py_int (credential_id config) = Ok credential ->
  configured py_int (execution_environment_id config) = Ok environment ->
  exists template_data,
    build_template_data py_int yaml_dump playbook_meta config = Ok template_data.
Proof.
  intros Hname Hvars Hfp Hinv Hproj Hcred Henv.
  unfold build_template_data, py_getitem.
  rewrite Hname, Hvars, Hfp. simpl.
  unfold PlaybookParser.generate_description. simpl.
  unfold py_join. simpl.
  rewrite Hinv, Hproj. simpl.
  unfold configured in Hcred, Henv.
  destruct (negb (name =? "")); simpl;
    destruct (credential_id config =? ""); simpl;
    destruct (execution_environment_id config =? ""); simpl;
    repeat match goal with
           | H : rbind (py_int ?x) _ = Ok _ |- _ =>
               let z := fresh "z" in
               let Hz := fresh "Hz" in
               apply rbind_ok in H; destruct H as (z & Hz & _);
               rewrite Hz; simpl
           end;
    destruct (contains filepath "target_device"); simpl;
    eexists; reflexivity.
Qed.

(** X6. A declared name that is true but is not a string (a number, a list)
    makes [build_template_data] raise, whatever the configuration: the
    description cannot be joined. *)
Theorem X6_non_string_name_fails (playbook_meta : dict) (config : Config)
        (declared : value) :
  dict_get playbook_meta "name" = Some declared ->
  truthy declared = true ->
  is_str declared = false ->
  build_template_data py_int yaml_dump playbook_meta config = Err OtherException.
Proof.
  intros Hname Htruthy Hstr.
  unfold build_template_data, py_getitem. rewrite Hname. simpl.
  rewrite Htruthy. simpl.
  destruct (dict_get playbook_meta "vars") as [vars|]; simpl; [|reflexivity].
  destruct vars as [| | | | |pv]; simpl; try reflexivity.
  unfold PlaybookParser.generate_description.
  destruct (PlaybookParser.pattern_parts pv) as [parts|e] eqn:Hparts; simpl.
  - unfold py_join. simpl. destruct declared; try discriminate; reflexivity.
  - rewrite (pattern_parts_exn _ _ Hparts). reflexivity.
Qed.
End BuilderFacts.

Lemma py_get_err (v : value) (k : string) (d : value) (e : exn) :
  py_get v k d = Err e -> e = OtherException.
Proof. destruct v; simpl; intros H; congruence. Qed.

Lemma py_index0_err (v : value) (e : exn) :
  py_index0 v = Err e -> e = OtherException.
Proof.
  destruct v as [| | |s|l|d]; simpl; try congruence.
  - destruct s; congruence.
  - destruct l; congruence.
Qed.

Section LookupFacts.
Import AWXTemplateManager.
Variable W : Type.
Variable session_request : request -> W -> result response * W.

Lemma get_template_run (name : value) (s : state W) :
  get_template W session_request name s =
  let (r, w') := session_request (find_request name) (world s) in
  let s1 := after_call (find_request name) w' s in
  let absorbed (s' : state W) :=
    (Ok VNone, say (L_error_checking RequestException) s') in
  match r with
  | Err RequestException => absorbed s1
  | Err OtherException => (Err OtherException, s1)
  | Ok resp =>
      if is_http_error resp then
        absorbed (say (match json resp with
                       | Ok detail => L_api_error_details detail
                       | Err _ => L_api_error_text
                       end) s1)
      else
        match json resp with
        | Err RequestException => absorbed s1
        | Err OtherException => (Err OtherException, s1)
        | Ok body =>
            match py_get body "results" (VList []) with
            | Err _ => (Err OtherException, s1)
            | Ok results =>
                if truthy results then
                  match py_index0 results with
                  | Ok x => (Ok x, s1)
                  | Err _ => (Err OtherException, s1)
                  end
                else (Ok VNone, s1)
            end
        end
  end.
Proof.
  unfold get_template, try_except, _api_call, bind, session_request_logged,
    lift, print, ret, after_call, say, is_request_exception.
  fold (find_request name).
  destruct (session_request (find_request name) (world s)) as [[resp|[|]] w'];
    simpl; try reflexivity.
  destruct (is_http_error resp); simpl.
  - destruct (json resp); reflexivity.
  - destruct (json resp) as [body|[|]]; simpl; try reflexivity.
    destruct (py_get body "results" (VList [])) as [results|e] eqn:Hget; simpl.
    + destruct (truthy results); simpl; try reflexivity.
      destruct (py_index0 results) as [x|e] eqn:Hidx; simpl; try reflexivity.
      rewrite (py_index0_err _ _ Hidx). reflexivity.
    + rewrite (py_get_err _ _ _ _ Hget). reflexivity.
Qed.

(** X1. [get_template] never raises a request exception: when the request
    itself raises one, or the remote answers with a 4xx or 5xx status, the
    lookup returns [None].  Whatever happens it issues exactly the one query
    by name and leaves the remote where that query left it. *)
Theorem X1_lookup_absorbs_request_errors (name : value) (s : state W) :
  fst (get_template W session_request name s) <> Err RequestException
  /\ (fst (session_request (find_request name) (world s)) = Err RequestException ->
      fst (get_template W session_request name s) = Ok VNone)
  /\ (forall resp,
         fst (session_request (find_request name) (world s)) = Ok resp ->
         is_http_error resp = true ->
         fst (get_template W session_request name s) = Ok VNone)
  /\ calls (snd (get_template W session_request name s))
     = calls s ++ [find_request name]
  /\ world (snd (get_template W session_request name s))
     = snd (session_request (find_request name) (world s)).
Proof.
  rewrite get_template_run.
  destruct (session_request (find_request name) (world s)) as [r w'].
  cbv zeta. simpl fst. simpl snd.
  split; [|split; [|split; [|split]]].
  - destruct r as [resp|[|]]; simpl; try discriminate.
    destruct (is_http_error resp); simpl; try discriminate.
    destruct (json resp) as [body|[|]]; simpl; try discriminate.
    destruct (py_get body "results" (VList [])); simpl; try discriminate.
    destruct (truthy v); simpl; try discriminate.
    destruct (py_index0 v); simpl; discriminate.
  - intros ->. reflexivity.
  - intros resp -> Herr. rewrite Herr. reflexivity.
  - destruct r as [resp|[|]]; simpl; try reflexivity.
    destruct (is_http_error resp); simpl; try reflexivity.
    destruct (json resp) as [body|[|]]; simpl; try reflexivity.
    destruct (py_get body "results" (VList [])); simpl; try reflexivity.
    destruct (truthy v); simpl; try reflexivity.
    destruct (py_index0 v); simpl; reflexivity.
  - destruct r as [resp|[|]]; simpl; try reflexivity.
    destruct (is_http_error resp); simpl; try reflexivity.
    destruct (json resp) as [body|[|]]; simpl; try reflexivity.
    destruct (py_get body "results" (VList [])); simpl; try reflexivity.
    destruct (truthy v); simpl; try reflexivity.
    destruct (py_index0 v); simpl; reflexivity.
Qed.

(** X2. When the query is answered without an error status by an object,
    [get_template] returns the first element of its ['results'] list, and
    [None] when that list is empty or the key is missing. *)
Theorem X2_lookup_returns_first_match (name : value) (s : state W)
        (resp : response) (body : dict) :
  fst (session_request (find_request name) (world s)) = Ok resp ->
  is_http_error resp = false ->
  json resp = Ok (VDict body) ->
  (forall first others,
      dict_get body "results" = Some (VList (first :: others)) ->
      fst (get_template W session_request name s) = Ok first)
  /\ (dict_get body "results" = Some (VList []) \/ dict_get body "results" = None ->
      fst (get_template W session_request name s) = Ok VNone).
Proof.
  intros Hreq Hstatus Hjson.
  rewrite get_template_run.
  destruct (session_request (find_request name) (world s)) as [r w'].
  simpl in Hreq. subst r. cbv zeta. rewrite Hstatus, Hjson. simpl.
  split.
  - intros first others ->. reflexivity.
  - intros [-> | ->]; reflexivity.
Qed.
End LookupFacts.

Section LoopFacts.
Import AWXTemplateManager.
Variable W : Type.
Variable session_request : request -> W -> result response * W.
Variable read_yaml : string -> result value.
Variable relative_to_cwd : string -> option string.
Variable py_int : string -> result Z.
Variable yaml_dump : dict -> string.
Variable CONFIG : Config.

Let process := process_playbook W session_request read_yaml relative_to_cwd
                 py_int yaml_dump CONFIG.
Let loop := main_loop W session_request read_yaml relative_to_cwd
              py_int yaml_dump CONFIG.

Lemma process_playbook_run (playbook_path : string) (results : Results)
      (s : state W) :
  process playbook_path results s =
  let s0 := say (L_processing (path_name playbook_path)) s in
  let fail (e : exn) (s' : state W) :=
    (Ok (count_failed (path_name playbook_path) results), say (L_failed e) s') in
  match PlaybookParser.parse_playbook read_yaml relative_to_cwd playbook_path with
  | Err e => fail e s0
  | Ok playbook_meta =>
      let declared :=
        match dict_get playbook_meta "name" with
        | Some x => x
        | None => VNone
        end in
      if truthy declared then
        match build_template_data py_int yaml_dump playbook_meta CONFIG with
        | Err e => fail e s0
        | Ok template_data =>
            match py_getitem template_data "playbook",
                  py_getitem template_data "name" with
            | Ok playbook, Ok name =>
                match create_or_update_template W session_request template_data
                        (say (L_using_playbook playbook) s0) with
                | (Err e, s2) => fail e s2
                | (Ok written, s2) =>
                    match py_get written "id" VNone with
                    | Err e => fail e s2
                    | Ok result_id =>
                        if truthy result_id then
                          match get_template W session_request name s2 with
                          | (Err e, s3) => fail e s3
                          | (Ok existing, s3) =>
                              if truthy existing then
                                (Ok (count_updated name results),
                                 say (L_template_done "updated" name result_id) s3)
                              else
                                (Ok (count_created name results),
                                 say (L_template_done "created" name result_id) s3)
                          end
                        else (Ok results, s2)
                    end
                end
            | _, _ => fail OtherException s0
            end
        end
      else (Ok results, say L_skipping s0)
  end.
Proof.
  unfold process, process_playbook, try_except, is_exception, bind, lift,
    print, ret, say, count_failed, count_created, count_updated, py_get.
  cbv beta iota zeta.
  destruct (PlaybookParser.parse_playbook read_yaml relative_to_cwd playbook_path)
    as [playbook_meta|e]; [|reflexivity].
  destruct (truthy match dict_get playbook_meta "name" with
                   | Some x => x
                   | None => VNone
                   end); cbv beta iota delta [negb]; [|reflexivity].
  destruct (build_template_data py_int yaml_dump playbook_meta CONFIG)
    as [template_data|e] eqn:Hbuild; [|reflexivity].
  apply build_template_data_ok in Hbuild.
  destruct Hbuild as (name & vars & pv & filepath & tn & desc & limit &
                      _ & _ & _ & _ & _ & _ & _ & Hgn & _ & Hgp & _).
  unfold py_getitem. rewrite Hgn, Hgp. cbv beta iota.
  destruct (create_or_update_template W session_request template_data _)
    as [[written|e] s2]; [|reflexivity].
  destruct written as [| | | | |d]; try reflexivity.
  destruct (truthy match dict_get d "id" with
                   | Some x => x
                   | None => VNone
                   end); [|reflexivity].
  destruct (get_template W session_request tn s2) as [[existing|e] s3];
    [|reflexivity].
  destruct (truthy existing); reflexivity.
Qed.

(** One playbook changes the summary in one of four ways. *)
Lemma process_playbook_outcome (playbook_path : string) (results : Results)
      (s : state W) :
  exists results',
    fst (process playbook_path results s) = Ok results'
    /\ (results' = results
        \/ results' = count_failed (path_name playbook_path) results
        \/ (exists name, results' = count_created name results)
        \/ (exists name, results' = count_updated name results)).
Proof.
  rewrite process_playbook_run. cbv zeta.
  destruct (PlaybookParser.parse_playbook read_yaml relative_to_cwd playbook_path)
    as [playbook_meta|e]; [|eexists; split; [reflexivity | auto]].
  destruct (truthy _); [|eexists; split; [reflexivity | auto]].
  destruct (build_template_data py_int yaml_dump playbook_meta CONFIG)
    as [template_data|e]; [|eexists; split; [reflexivity | auto]].
  destruct (py_getitem template_data "playbook") as [playbook|e];
    [|eexists; split; [reflexivity | auto]].
  destruct (py_getitem template_data "name") as [name|e];
    [|eexists; split; [reflexivity | auto]].
  destruct (create_or_update_template W session_request template_data _)
    as [[written|e] s2]; [|eexists; split; [reflexivity | auto]].
  destruct (py_get written "id" VNone) as [result_id|e];
    [|eexists; split; [reflexivity | auto]].
  destruct (truthy result_id); [|eexists; split; [reflexivity | auto]].
  destruct (get_template W session_request name s2) as [[existing|e] s3];
    [|eexists; split; [reflexivity | auto]].
  destruct (truthy existing); eexists; (split; [reflexivity|]).
  - right. right. right. exists name. reflexivity.
  - right. right. left. exists name. reflexivity.
Qed.

(** X4. The loop over the playbooks never raises: whatever the files and
    the remote do, it returns a summary.  The summary only grows: the three
    lists keep their earlier entries as a prefix, the entries added are at
    most one for each playbook, and every name added to the failed list is
    the file name of one of the playbooks. *)
Theorem X4_main_loop_isolates_failures (playbooks : list string)
        (results : Results) (s : state W) :
  exists results' c u f,
    fst (loop playbooks results s) = Ok results'
    /\ created results' = created results ++ c
    /\ updated results' = updated results ++ u
    /\ failed results' = failed results ++ f
    /\ (List.length c + List.length u + List.length f <= List.length playbooks)%nat
    /\ (forall file, In file f -> In file (map path_name playbooks)).
Proof.
  revert results s.
  induction playbooks as [|playbook_path rest IH]; intros results s.
  - exists results, [], [], []. simpl. rewrite !app_nil_r.
    repeat split; auto.
  - unfold loop. simpl. unfold bind. fold process. fold loop.
    destruct (process_playbook_outcome playbook_path results s)
      as (r1 & Hout & Hcases).
    destruct (process playbook_path results s) as [out s1].
    simpl in Hout. subst out.
    destruct (IH r1 s1) as (r2 & c & u & f & Hloop & Hc & Hu & Hf & Hlen & Hfiles).
    destruct Hcases as [-> | [-> | [[name ->] | [name ->]]]]; simpl in Hc, Hu, Hf.
    + exists r2, c, u, f. simpl.
      repeat split; auto; try lia; try (intros file Hin; right; auto).
    + exists r2, c, u, (path_name playbook_path :: f). simpl.
      rewrite <- app_assoc in Hf. simpl in Hf.
      repeat split; auto; try lia;
        try (intros file [<- | Hin]; [left; reflexivity | right; auto]).
    + exists r2, (name :: c), u, f. simpl.
      rewrite <- app_assoc in Hc. simpl in Hc.
      repeat split; auto; try lia; try (intros file Hin; right; auto).
    + exists r2, c, (name :: u), f. simpl.
      rewrite <- app_assoc in Hu. simpl in Hu.
      repeat split; auto; try lia; try (intros file Hin; right; auto).
Qed.

(** X5. A playbook that cannot be read or parsed, or whose resource cannot
    be built, is counted as failed under its file name; the created and
    updated lists are unchanged, and neither the remote nor the call log is
    touched. *)
Theorem X5_unbuildable_playbook_counts_failed (playbook_path : string)
        (results : Results) (s : state W) (e : exn) :
  PlaybookParser.parse_playbook read_yaml relative_to_cwd playbook_path = Err e
  \/ (exists playbook_meta declared,
         PlaybookParser.parse_playbook read_yaml relative_to_cwd playbook_path
         = Ok playbook_meta
         /\ dict_get playbook_meta "name" = Some declared
         /\ truthy declared = true
         /\ build_template_data py_int yaml_dump playbook_meta CONFIG = Err e) ->
  process playbook_path results s
  = (Ok (count_failed (path_name playbook_path) results),
     say (L_failed e) (say (L_processing (path_name playbook_path)) s)).
Proof.
  rewrite process_playbook_run. cbv zeta.
  intros [-> | (playbook_meta & declared & -> & -> & -> & ->)]; reflexivity.
Qed.

(** X7. When the reconciliation returns a reply whose ['id'] is missing or
    false, the playbook is counted in none of the three lists and no further
    request is made. *)
Theorem X7_reply_without_id_is_uncounted (playbook_path : string)
        (results : Results) (s s2 : state W)
        (playbook_meta template_data : dict)
        (declared playbook written result_id : value) :
  PlaybookParser.parse_playbook read_yaml relative_to_cwd playbook_path
  = Ok playbook_meta ->
  dict_get playbook_meta "name" = Some declared ->
  truthy declared = true ->
  build_template_data py_int yaml_dump playbook_meta CONFIG = Ok template_data ->
  py_getitem template_data "playbook" = Ok playbook ->
  create_or_update_template W session_request template_data
    (say (L_using_playbook playbook)
       (say (L_processing (path_name playbook_path)) s)) = (Ok written, s2) ->
  py_get written "id" VNone = Ok result_id ->
  truthy result_id = false ->
  process playbook_path results s = (Ok results, s2).
Proof.
  intros Hparse Hname Htruthy Hbuild Hplaybook Hwrite Hid Hfalse.
  rewrite process_playbook_run. cbv zeta.
  rewrite Hparse, Hname, Htruthy, Hbuild, Hplaybook.
  pose proof Hbuild as Hb. apply build_template_data_ok in Hb.
  destruct Hb as (name & vars & pv & filepath & tn & desc & limit &
                  _ & _ & _ & _ & _ & _ & _ & Hgn & _).
  unfold py_getitem at 1. rewrite Hgn.
  rewrite Hwrite, Hid, Hfalse. reflexivity.
Qed.

(** X8. When the reconciliation raises, the playbook is counted as failed
    under its file name and the loop goes on from the state the failed
    reconciliation reached. *)
Theorem X8_reconcile_exception_counts_failed (playbook_path : string)
        (results : Results) (s s2 : state W)
        (playbook_meta template_data : dict)
        (declared playbook : value) (e : exn) :
  PlaybookParser.parse_playbook read_yaml relative_to_cwd playbook_path
  = Ok playbook_meta ->
  dict_get playbook_meta "name" = Some declared ->
  truthy declared = true ->
  build_template_data py_int yaml_dump playbook_meta CONFIG = Ok template_data ->
  py_getitem template_data "playbook" = Ok playbook ->
  create_or_update_template W session_request template_data
    (say (L_using_playbook playbook)
       (say (L_processing (path_name playbook_path)) s)) = (Err e, s2) ->
  process playbook_path results s
  = (Ok (count_failed (path_name playbook_path) results), say (L_failed e) s2).
Proof.
  intros Hparse Hname Htruthy Hbuild Hplaybook Hwrite.
  rewrite process_playbook_run. cbv zeta.
  rewrite Hparse, Hname, Htruthy, Hbuild, Hplaybook.
  pose proof Hbuild as Hb. apply build_template_data_ok in Hb.
  destruct Hb as (name & vars & pv & filepath & tn & desc & limit &
                  _ & _ & _ & _ & _ & _ & _ & Hgn & _).
  unfold py_getitem at 1. rewrite Hgn.
  rewrite Hwrite. reflexivity.
Qed.

(** X9. For a reconciliation that returned a reply with a true ['id'], the
    list the playbook is counted in is chosen by the lookup made after the
    write: updated when that lookup finds something, created otherwise.  The
    name counted is the declared name. *)
Theorem X9_action_follows_second_lookup (playbook_path : string)
        (results : Results) (s s2 s3 : state W)
        (playbook_meta template_data : dict)
        (declared playbook written result_id existing : value) :
  PlaybookParser.parse_playbook read_yaml relative_to_cwd playbook_path
  = Ok playbook_meta ->
  dict_get playbook_meta "name" = Some declared ->
  truthy declared = true ->
  build_template_data py_int yaml_dump playbook_meta CONFIG = Ok template_data ->
  py_getitem template_data "playbook" = Ok playbook ->
  create_or_update_template W session_request template_data
    (say (L_using_playbook playbook)
       (say (L_processing (path_name playbook_path)) s)) = (Ok written, s2) ->
  py_get written "id" VNone = Ok result_id ->
  truthy result_id = true ->
  get_template W session_request declared s2 = (Ok existing, s3) ->
  fst (process playbook_path results s)
  = Ok (if truthy existing
        then count_updated declared results
        else count_created declared results).
Proof.
  intros Hparse Hname Htruthy Hbuild Hplaybook Hwrite Hid Hidt Hlookup.
  rewrite process_playbook_run. cbv zeta.
  rewrite Hparse, Hname, Htruthy, Hbuild, Hplaybook.
  pose proof Hbuild as Hb. apply build_template_data_ok in Hb.
  destruct Hb as (name & vars & pv & filepath & tn & desc & limit &
                  Hn & _ & _ & _ & Htn & _ & _ & Hgn & _).
  unfold py_getitem in Hn. rewrite Hname in Hn. apply Ok_inj in Hn. subst name.
  rewrite Htruthy in Htn. subst tn.
  unfold py_getitem at 1. rewrite Hgn.
  rewrite Hwrite, Hid, Hidt, Hlookup.
  destruct (truthy existing); reflexivity.
Qed.
End LoopFacts.

Section MoreManagerFacts.
Import AWXTemplateManager.
Variable W : Type.
Variable session_request : request -> W -> result response * W.

(** X3. A lookup that fails is read as "no such template": when the query
    raises a request exception or is answered with a 4xx or 5xx status,
    [create_or_update_template] announces a creation and its next request is
    the POST that creates the template, with the payload without
    credentials. *)
Theorem X3_failed_lookup_creates (template_data : dict) (name : value)
        (s : state W) :
  py_getitem template_data "name" = Ok name ->
  fst (session_request (find_request name) (world s)) = Err RequestException
  \/ (exists resp,
         fst (session_request (find_request name) (world s)) = Ok resp
         /\ is_http_error resp = true) ->
  exists links ls,
    grows s (snd (create_or_update_template W session_request template_data s))
          (find_request name
             :: create_request (dict_remove template_data "credentials")
             :: links) ls
    /\ In (L_creating name) ls.
Proof.
  intros Hname Hfail.
  destruct (create_or_update_trace W session_request template_data name s Hname)
    as (cs & ls & Hgrows & Hcases).
  cbv zeta in Hcases.
  assert (Hfound : fst (get_template W session_request name s) = Ok VNone).
  { rewrite get_template_run.
    destruct (session_request (find_request name) (world s)) as [r w'].
    simpl in Hfail. cbv zeta.
    destruct Hfail as [-> | (resp & -> & Herr)]; [reflexivity|].
    rewrite Herr. reflexivity. }
  rewrite Hfound in Hcases.
  destruct Hcases as (links & _ & _ & Hbranch). simpl in Hbranch.
  destruct Hbranch as [-> Hin].
  exists links, ls. split; assumption.
Qed.

Variable py_int : string -> result Z.
Variable yaml_dump : dict -> string.

Lemma built_credential_items (playbook_meta : dict) (config : Config)
      (template_data : dict) :
  build_template_data py_int yaml_dump playbook_meta config = Ok template_data ->
  exists credential,
    configured py_int (credential_id config) = Ok credential
    /\ credential_items template_data
       = match credential with
         | Some c => [VInt c]
         | None => []
         end.
Proof.
  intros Hbuild.
  destruct (build_template_data_shape py_int yaml_dump playbook_meta config
              template_data Hbuild)
    as (tn & desc & inv & proj & fp & pv & credential & environment & limit &
        -> & _ & _ & Hcred & _).
  exists credential. split; [exact Hcred|].
  unfold credential_items.
  destruct credential, environment, limit; reflexivity.
Qed.

(** X16. Reconciling a built resource that returns issues the query, one
    write and then a single credential link when a credential is configured,
    none otherwise. *)
Theorem X16_built_resource_links_once (playbook_meta : dict) (config : Config)
        (template_data : dict) (written : value) (s : state W) :
  build_template_data py_int yaml_dump playbook_meta config = Ok template_data ->
  fst (create_or_update_template W session_request template_data s) = Ok written ->
  exists name write template_id credential,
    py_getitem template_data "name" = Ok name
    /\ configured py_int (credential_id config) = Ok credential
    /\ calls (snd (create_or_update_template W session_request template_data s))
       = calls s
         ++ find_request name :: write
            :: match credential with
               | Some c => [link_request template_id (VInt c)]
               | None => []
               end
    /\ is_link write = false.
Proof.
  intros Hbuild Hout.
  destruct (built_credential_items _ _ _ Hbuild) as (credential & Hcred & Hitems).
  pose proof Hbuild as Hb. apply build_template_data_ok in Hb.
  destruct Hb as (n & vars & pv & filepath & tn & desc & limit &
                  _ & _ & _ & _ & _ & _ & _ & Hgn & _).
  assert (Hname : py_getitem template_data "name" = Ok tn)
    by (unfold py_getitem; rewrite Hgn; reflexivity).
  destruct (create_or_update_trace W session_request template_data tn s Hname)
    as (cs & ls & [Hcalls _] & Hcases).
  cbv zeta in Hcases.
  destruct (fst (get_template W session_request tn s)) as [existing|e].
  2:{ destruct Hcases as [_ Herr]. congruence. }
  destruct Hcases as (links & _ & Hok & Hbranch).
  destruct (Hok written Hout) as [tid Hlinks].
  rewrite Hitems in Hlinks.
  assert (Hlinks' : links = match credential with
                            | Some c => [link_request tid (VInt c)]
                            | None => []
                            end)
    by (rewrite Hlinks; destruct credential; reflexivity).
  destruct (truthy existing).
  - destruct Hbranch as (_ & _ & Hwrite).
    destruct (py_subscript existing "id") as [i|e].
    + exists tn, (update_request i (dict_remove template_data "credentials")),
             tid, credential.
      rewrite Hcalls, Hwrite, Hlinks'. repeat split; auto.
    + destruct Hwrite as [_ Herr]. congruence.
  - destruct Hbranch as [Hwrite _].
    exists tn, (create_request (dict_remove template_data "credentials")),
           tid, credential.
    rewrite Hcalls, Hwrite, Hlinks'. repeat split; auto.
Qed.
End MoreManagerFacts.

(* ------------------------------------------------------------------ *)
(** * Credential links are best effort *)

Section BestEffortFacts.
Import AWXTemplateManager.
Variable W : Type.
Variable session_request : request -> W -> result response * W.

(** With the credentials absent or a list, the last two steps return what
    the write returned and issue the link requests only. *)
Lemma finish_with_list (written template_id : value) (template_data : dict)
      (s : state W) :
  (forall c, dict_get template_data "credentials" = Some c -> is_list c = true) ->
  fst (finish session_request written template_id template_data s) = Ok written
  /\ calls (snd (finish session_request written template_id template_data s))
     = calls s ++ map (link_request template_id) (credential_items template_data).
Proof.
  intros Hlist. unfold finish, link_step, credential_items.
  destruct (dict_get template_data "credentials") as [c|].
  - specialize (Hlist c eq_refl).
    destruct c as [| | | |l|]; try discriminate Hlist.
    destruct l as [|c0 rest].
    + simpl. rewrite app_nil_r. split; reflexivity.
    + cbv beta iota delta [truthy py_iter].
      unfold associate_credentials, bind, lift. cbv beta iota delta [py_iter].
      destruct (associate_each_grows W session_request template_id (c0 :: rest) s)
        as (Hok & ls & [Hcalls _] & _).
      destruct (associate_each W session_request template_id (c0 :: rest) s)
        as [r s'].
      simpl in Hok, Hcalls. subst r. simpl. split; [reflexivity | exact Hcalls].
  - simpl. rewrite app_nil_r. split; reflexivity.
Qed.

Lemma create_path_returns (template_data : dict) (name existing written tid : value)
      (s s1 s3 : state W) :
  py_getitem template_data "name" = Ok name ->
  (forall c, dict_get template_data "credentials" = Some c -> is_list c = true) ->
  get_template W session_request name s = (Ok existing, s1) ->
  truthy existing = false ->
  create_template W session_request (dict_remove template_data "credentials")
    (say (L_creating name) s1) = (Ok written, s3) ->
  py_subscript written "id" = Ok tid ->
  fst (create_or_update_template W session_request template_data s) = Ok written
  /\ calls (snd (create_or_update_template W session_request template_data s))
     = calls s3 ++ map (link_request tid) (credential_items template_data).
Proof.
  intros Hname Hlist Hfind Hnone Hwrite Hid.
  rewrite (create_or_update_unfold W session_request _ _ _ Hname).
  rewrite Hfind. cbv beta iota zeta. rewrite Hnone, Hwrite. cbv beta iota.
  rewrite Hid.
  apply finish_with_list. exact Hlist.
Qed.

Lemma update_path_returns (template_data : dict) (name existing written i : value)
      (s s1 s3 : state W) :
  py_getitem template_data "name" = Ok name ->
  (forall c, dict_get template_data "credentials" = Some c -> is_list c = true) ->
  get_template W session_request name s = (Ok existing, s1) ->
  truthy existing = true ->
  py_subscript existing "id" = Ok i ->
  update_template W session_request i (dict_remove template_data "credentials")
    (say (L_updating name) s1) = (Ok written, s3) ->
  fst (create_or_update_template W session_request template_data s) = Ok written
  /\ calls (snd (create_or_update_template W session_request template_data s))
     = calls s3 ++ map (link_request i) (credential_items template_data).
Proof.
  intros Hname Hlist Hfind Hsome Hid Hwrite.
  rewrite (create_or_update_unfold W session_request _ _ _ Hname).
  rewrite Hfind. cbv beta iota zeta. rewrite Hsome, Hid, Hwrite. cbv beta iota.
  apply finish_with_list. exact Hlist.
Qed.

Variable read_yaml : string -> result value.
Variable relative_to_cwd : string -> option string.
Variable py_int : string -> result Z.
Variable yaml_dump : dict -> string.
Variable CONFIG : Config.

(** A playbook whose reconciliation returned is counted as failed only when
    the reply has no [get] or the later lookup raises. *)
Lemma reconciled_playbook_not_failed (playbook_path : string) (results : Results)
      (s : state W) (playbook_meta template_data : dict)
      (declared playbook name written result_id : value) :
  PlaybookParser.parse_playbook read_yaml relative_to_cwd playbook_path
  = Ok playbook_meta ->
  dict_get playbook_meta "name" = Some declared ->
  truthy declared = true ->
  build_template_data py_int yaml_dump playbook_meta CONFIG = Ok template_data ->
  py_getitem template_data "playbook" = Ok playbook ->
  py_getitem template_data "name" = Ok name ->
  fst (create_or_update_template W session_request template_data
         (say (L_using_playbook playbook)
            (say (L_processing (path_name playbook_path)) s))) = Ok written ->
  py_get written "id" VNone = Ok result_id ->
  (truthy result_id = true ->
   exists existing,
     fst (get_template W session_request name
            (snd (create_or_update_template W session_request template_data
                    (say (L_using_playbook playbook)
                       (say (L_processing (path_name playbook_path)) s)))))
     = Ok existing) ->
  exists results',
    fst (process_playbook W session_request read_yaml relative_to_cwd py_int
           yaml_dump CONFIG playbook_path results s) = Ok results'
    /\ failed results' = failed results.
Proof.
  intros Hparse Hdecl Htruthy Hbuild Hplaybook Hname Hout Hid Hlater.
  rewrite process_playbook_run. cbv zeta.
  rewrite Hparse, Hdecl, Htruthy, Hbuild, Hplaybook, Hname.
  destruct (create_or_update_template W session_request template_data _)
    as [r s2].
  simpl in Hout, Hlater. subst r. rewrite Hid.
  destruct (truthy result_id).
  - destruct (Hlater eq_refl) as (existing & Hexisting).
    destruct (get_template W session_request name s2) as [r3 s3].
    simpl in Hexisting. subst r3.
    destruct (truthy existing); eexists; split; reflexivity.
  - exists results. split; reflexivity.
Qed.

End BestEffortFacts.

(** C5. Credentials are popped from the payload before the write and linked
    one by one after it, and a link that fails is a warning only:
    - a reconciliation that returns has issued the query, then one write
      whose body has no ['credentials'] entry, then one link request for each
      credential, in order, and nothing else;
    - once the query and the write have succeeded, on the creating and on
      the updating path, the reconciliation returns what the write returned
      whatever the remote answers to the links, and all it does after the
      write is the link requests: no link failure undoes or repeats the
      write.  This is for a payload whose credentials are absent or a list;
    - linking a list of credentials returns normally whatever the remote
      answers, and a link whose call raises [e] leaves the warning line for
      that credential;
    - in the main loop a playbook whose reconciliation returned is not added
      to the failed list, unless the reply is no mapping or the lookup made
      afterwards raises;
    - for two remotes that differ only in what they answer to credential
      links, reconciliation returns the same outcome and the main loop the
      same summary. *)
Theorem C5_credential_links_best_effort :
  (forall (W : Type) (session_request : request -> W -> result response * W)
          (template_data : dict) (name r : value) (s : AWXTemplateManager.state W),
      py_getitem template_data "name" = Ok name ->
      fst (AWXTemplateManager.create_or_update_template W session_request
             template_data s) = Ok r ->
      exists write tid,
        AWXTemplateManager.calls
          (snd (AWXTemplateManager.create_or_update_template W session_request
                  template_data s))
        = AWXTemplateManager.calls s
          ++ find_request name :: write
             :: map (link_request tid) (credential_items template_data)
        /\ (write = create_request (dict_remove template_data "credentials")
            \/ exists i,
                write = update_request i (dict_remove template_data "credentials"))
        /\ carries_credentials write = false)
  /\ (forall (W : Type) (session_request : request -> W -> result response * W)
             (template_data : dict) (name existing written tid : value)
             (s s1 s3 : AWXTemplateManager.state W),
         py_getitem template_data "name" = Ok name ->
         (forall c, dict_get template_data "credentials" = Some c ->
                    is_list c = true) ->
         AWXTemplateManager.get_template W session_request name s
         = (Ok existing, s1) ->
         truthy existing = false ->
         AWXTemplateManager.create_template W session_request
           (dict_remove template_data "credentials") (say (L_creating name) s1)
         = (Ok written, s3) ->
         py_subscript written "id" = Ok tid ->
         fst (AWXTemplateManager.create_or_update_template W session_request
                template_data s) = Ok written
         /\ AWXTemplateManager.calls
              (snd (AWXTemplateManager.create_or_update_template W
                      session_request template_data s))
            = AWXTemplateManager.calls s3
              ++ map (link_request tid) (credential_items template_data))
  /\ (forall (W : Type) (session_request : request -> W -> result response * W)
             (template_data : dict) (name existing written i : value)
             (s s1 s3 : AWXTemplateManager.state W),
         py_getitem template_data "name" = Ok name ->
         (forall c, dict_get template_data "credentials" = Some c ->
                    is_list c = true) ->
         AWXTemplateManager.get_template W session_request name s
         = (Ok existing, s1) ->
         truthy existing = true ->
         py_subscript existing "id" = Ok i ->
         AWXTemplateManager.update_template W session_request i
           (dict_remove template_data "credentials") (say (L_updating name) s1)
         = (Ok written, s3) ->
         fst (AWXTemplateManager.create_or_update_template W session_request
                template_data s) = Ok written
         /\ AWXTemplateManager.calls
              (snd (AWXTemplateManager.create_or_update_template W
                      session_request template_data s))
            = AWXTemplateManager.calls s3
              ++ map (link_request i) (credential_items template_data))
  /\ (forall (W : Type) (session_request : request -> W -> result response * W)
             (template_id : value) (creds : list value)
             (s : AWXTemplateManager.state W),
         fst (AWXTemplateManager.associate_credentials W session_request
                template_id (VList creds) s) = Ok tt
         /\ AWXTemplateManager.calls
              (snd (AWXTemplateManager.associate_credentials W session_request
                      template_id (VList creds) s))
            = AWXTemplateManager.calls s ++ map (link_request template_id) creds)
  /\ (forall (W : Type) (session_request : request -> W -> result response * W)
             (template_id cred_id : value) (e : exn)
             (s : AWXTemplateManager.state W),
         fst (AWXTemplateManager._api_call W session_request POST
                (EP_job_template_credentials template_id) []
                (Some [("id", cred_id)]) s) = Err e ->
         AWXTemplateManager.associate_one W session_request template_id cred_id s
         = (Ok tt,
            say (L_warn_associate cred_id e)
              (snd (AWXTemplateManager._api_call W session_request POST
                      (EP_job_template_credentials template_id) []
                      (Some [("id", cred_id)]) s))))
  /\ (forall (W : Type) (session_request : request -> W -> result response * W)
             (read_yaml : string -> result value)
             (relative_to_cwd : string -> option string)
             (py_int : string -> result Z) (yaml_dump : dict -> string)
             (CONFIG : Config) (playbook_path : string)
             (results : AWXTemplateManager.Results)
             (s : AWXTemplateManager.state W)
             (playbook_meta template_data : dict)
             (declared playbook name written result_id : value),
         PlaybookParser.parse_playbook read_yaml relative_to_cwd playbook_path
         = Ok playbook_meta ->
         dict_get playbook_meta "name" = Some declared ->
         truthy declared = true ->
         build_template_data py_int yaml_dump playbook_meta CONFIG
         = Ok template_data ->
         py_getitem template_data "playbook" = Ok playbook ->
         py_getitem template_data "name" = Ok name ->
         fst (AWXTemplateManager.create_or_update_template W session_request
                template_data
                (say (L_using_playbook playbook)
                   (say (L_processing (path_name playbook_path)) s)))
         = Ok written ->
         py_get written "id" VNone = Ok result_id ->
         (truthy result_id = true ->
          exists existing,
            fst (AWXTemplateManager.get_template W session_request name
                   (snd (AWXTemplateManager.create_or_update_template W
                           session_request template_data
                           (say (L_using_playbook playbook)
                              (say (L_processing (path_name playbook_path)) s)))))
            = Ok existing) ->
         exists results',
           fst (AWXTemplateManager.process_playbook W session_request read_yaml
                  relative_to_cwd py_int yaml_dump CONFIG playbook_path
                  results s) = Ok results'
           /\ AWXTemplateManager.failed results'
              = AWXTemplateManager.failed results)
  /\ (forall (W1 W2 : Type) (R : W1 -> W2 -> Prop)
             (remote1 : request -> W1 -> result response * W1)
             (remote2 : request -> W2 -> result response * W2)
             (read_yaml : string -> result value)
             (relative_to_cwd : string -> option string)
             (py_int : string -> result Z) (yaml_dump : dict -> string)
             (CONFIG : Config) (template_data : dict)
             (playbooks : list string) (results : AWXTemplateManager.Results)
             (s1 : AWXTemplateManager.state W1) (s2 : AWXTemplateManager.state W2),
         agree_outside_links R remote1 remote2 ->
         same_remote R s1 s2 ->
         fst (AWXTemplateManager.create_or_update_template W1 remote1
                template_data s1)
         = fst (AWXTemplateManager.create_or_update_template W2 remote2
                  template_data s2)
         /\ fst (AWXTemplateManager.main_loop W1 remote1 read_yaml
                   relative_to_cwd py_int yaml_dump CONFIG playbooks results s1)
            = fst (AWXTemplateManager.main_loop W2 remote2 read_yaml
                     relative_to_cwd py_int yaml_dump CONFIG playbooks results s2)).
Proof.
  split; [|split; [|split; [|split; [|split; [|split]]]]].
  - intros W session_request template_data name r s Hname Hout.
    destruct (create_or_update_trace W session_request template_data name s Hname)
      as (cs & ls & [Hcalls _] & Hcases).
    cbv zeta in Hcases.
    destruct (fst (AWXTemplateManager.get_template W session_request name s))
      as [existing|e].
    2:{ destruct Hcases as [_ Herr]. congruence. }
    destruct Hcases as (links & _ & Hok & Hbranch).
    destruct (Hok r Hout) as [tid Hlinks].
    destruct (truthy existing).
    + destruct Hbranch as (_ & _ & Hwrite).
      destruct (py_subscript existing "id") as [i|e].
      * exists (update_request i (dict_remove template_data "credentials")), tid.
        rewrite Hcalls, Hwrite, Hlinks.
        split; [reflexivity|]. split; [right; exists i; reflexivity|].
        apply payload_carries_no_credentials.
      * destruct Hwrite as [_ Herr]. congruence.
    + destruct Hbranch as [Hwrite _].
      exists (create_request (dict_remove template_data "credentials")), tid.
      rewrite Hcalls, Hwrite, Hlinks.
      split; [reflexivity|]. split; [left; reflexivity|].
      apply payload_carries_no_credentials.
  - intros W session_request template_data name existing written tid s s1 s3.
    apply create_path_returns.
  - intros W session_request template_data name existing written i s s1 s3.
    apply update_path_returns.
  - intros W session_request template_id creds s.
    unfold AWXTemplateManager.associate_credentials, AWXTemplateManager.bind,
      AWXTemplateManager.lift. simpl.
    destruct (associate_each_grows W session_request template_id creds s)
      as (Hok & ls & [Hcalls _] & _).
    split; [exact Hok | exact Hcalls].
  - intros W session_request template_id cred_id e s Hraise.
    unfold AWXTemplateManager.associate_one, AWXTemplateManager.try_except,
      AWXTemplateManager.bind at 1.
    destruct (AWXTemplateManager._api_call W session_request POST
                (EP_job_template_credentials template_id) []
                (Some [("id", cred_id)]) s) as [[resp|e'] s'];
      simpl in Hraise; [discriminate|].
    injection Hraise as ->. reflexivity.
  - intros W session_request read_yaml relative_to_cwd py_int yaml_dump CONFIG
           playbook_path results s playbook_meta template_data declared
           playbook name written result_id.
    apply reconciled_playbook_not_failed.
  - intros W1 W2 R remote1 remote2 read_yaml relative_to_cwd py_int yaml_dump
           CONFIG template_data playbooks results s1 s2 Hagree Hsame.
    split.
    + apply (sim_create_or_update_template W1 W2 R remote1 remote2 Hagree
               template_data s1 s2 Hsame).
    + apply (sim_main_loop W1 W2 R remote1 remote2 Hagree read_yaml
               relative_to_cwd py_int yaml_dump CONFIG playbooks results
               s1 s2 Hsame).
Qed.

(** On the reference remote with every link rejected (400) the creation of
    the kitchen template still returns the stored template; and with links
    accepted (204) or rejected the run over the kitchen playbook gives one
    summary. *)
Lemma C5_credential_links_best_effort_witness :
  fst (AWXTemplateManager.create_or_update_template ReferenceRemote.store
         ReferenceRemote.serve kitchen_template_data
         (ReferenceRemote.start (ReferenceRemote.empty_store 400)))
  = Ok (VDict (("id", VInt 1) :: kitchen_payload))
  /\ agree_outside_links same_templates ReferenceRemote.serve
       ReferenceRemote.serve
  /\ same_remote same_templates
       (ReferenceRemote.start (ReferenceRemote.empty_store 204))
       (ReferenceRemote.start (ReferenceRemote.empty_store 400))
  /\ fst (AWXTemplateManager.main_loop ReferenceRemote.store
            ReferenceRemote.serve kitchen_files never_relative decimal_int
            dump_block sample_config [kitchen_path]
            AWXTemplateManager.no_results
            (ReferenceRemote.start (ReferenceRemote.empty_store 204)))
     = fst (AWXTemplateManager.main_loop ReferenceRemote.store
              ReferenceRemote.serve kitchen_files never_relative decimal_int
              dump_block sample_config [kitchen_path]
              AWXTemplateManager.no_results
              (ReferenceRemote.start (ReferenceRemote.empty_store 400))).
Proof.
  assert (Hsame : same_remote same_templates
                    (ReferenceRemote.start (ReferenceRemote.empty_store 204))
                    (ReferenceRemote.start (ReferenceRemote.empty_store 400))).
  { split; [split; reflexivity | reflexivity]. }
  destruct C5_credential_links_best_effort
    as (_ & Hcreate & _ & _ & _ & _ & Hsim).
  split.
  - apply (Hcreate ReferenceRemote.store ReferenceRemote.serve
             kitchen_template_data (VStr "Flash Kitchen") VNone
             (VDict (("id", VInt 1) :: kitchen_payload)) (VInt 1)
             (ReferenceRemote.start (ReferenceRemote.empty_store 400))
             (snd (AWXTemplateManager.get_template ReferenceRemote.store
                     ReferenceRemote.serve (VStr "Flash Kitchen")
                     (ReferenceRemote.start (ReferenceRemote.empty_store 400))))
             (snd (AWXTemplateManager.create_template ReferenceRemote.store
                     ReferenceRemote.serve
                     (dict_remove kitchen_template_data "credentials")
                     (say (L_creating (VStr "Flash Kitchen"))
                        (snd (AWXTemplateManager.get_template
                                ReferenceRemote.store ReferenceRemote.serve
                                (VStr "Flash Kitchen")
                                (ReferenceRemote.start
                                   (ReferenceRemote.empty_store 400))))))));
      try (vm_compute; reflexivity).
    intros c Hc. vm_compute in Hc. injection Hc as <-. reflexivity.
  - split; [exact reference_remote_agrees|].
    split; [exact Hsame|].
    apply (Hsim ReferenceRemote.store ReferenceRemote.store same_templates
             ReferenceRemote.serve ReferenceRemote.serve kitchen_files
             never_relative decimal_int dump_block sample_config
             kitchen_template_data [kitchen_path] AWXTemplateManager.no_results
             _ _ reference_remote_agrees Hsame).
Defined.

(** ** The further properties at concrete inputs *)

Lemma X1_lookup_absorbs_request_errors_witness :
  fst (scripted offline (find_request (VStr "Flash Kitchen")) tt)
  = Err RequestException
  /\ fst (AWXTemplateManager.get_template unit (scripted offline)
            (VStr "Flash Kitchen") scripted_start) = Ok VNone.
Proof.
  split; [reflexivity|].
  destruct (X1_lookup_absorbs_request_errors unit (scripted offline)
              (VStr "Flash Kitchen") scripted_start) as (_ & Hraise & _).
  apply Hraise. reflexivity.
Defined.

Lemma X2_lookup_returns_first_match_witness :
  let resource := VDict (("id", VInt 1) :: kitchen_payload) in
  let body := [("count", VInt 1); ("results", VList [resource])] in
  let resp := {| status_code := 200; json := Ok (VDict body) |} in
  fst (ReferenceRemote.serve (find_request (VStr "Flash Kitchen")) kitchen_store)
  = Ok resp
  /\ AWXTemplateManager.is_http_error resp = false
  /\ dict_get body "results" = Some (VList [resource])
  /\ fst (AWXTemplateManager.get_template ReferenceRemote.store
            ReferenceRemote.serve (VStr "Flash Kitchen")
            (ReferenceRemote.start kitchen_store)) = Ok resource.
Proof.
  cbv zeta.
  split; [vm_compute; reflexivity|].
  split; [reflexivity|].
  split; [reflexivity|].
  destruct (X2_lookup_returns_first_match ReferenceRemote.store
              ReferenceRemote.serve (VStr "Flash Kitchen")
              (ReferenceRemote.start kitchen_store)
              {| status_code := 200;
                 json := Ok (VDict [("count", VInt 1);
                                    ("results",
                                     VList [VDict (("id", VInt 1)
                                                     :: kitchen_payload)])]) |}
              [("count", VInt 1);
               ("results", VList [VDict (("id", VInt 1) :: kitchen_payload)])])
    as [Hfirst _].
  - vm_compute. reflexivity.
  - reflexivity.
  - reflexivity.
  - apply (Hfirst _ []). reflexivity.
Defined.

Lemma X3_failed_lookup_creates_witness :
  py_getitem kitchen_template_data "name" = Ok (VStr "Flash Kitchen")
  /\ (exists resp,
         fst (blind_serve (find_request (VStr "Flash Kitchen")) kitchen_store)
         = Ok resp
         /\ AWXTemplateManager.is_http_error resp = true)
  /\ exists links ls,
      grows (ReferenceRemote.start kitchen_store)
            (snd (AWXTemplateManager.create_or_update_template
                    ReferenceRemote.store blind_serve kitchen_template_data
                    (ReferenceRemote.start kitchen_store)))
            (find_request (VStr "Flash Kitchen")
               :: create_request kitchen_payload :: links) ls
      /\ In (L_creating (VStr "Flash Kitchen")) ls.
Proof.
  assert (Hblind : exists resp,
             fst (blind_serve (find_request (VStr "Flash Kitchen")) kitchen_store)
             = Ok resp
             /\ AWXTemplateManager.is_http_error resp = true).
  { eexists. split; reflexivity. }
  split; [reflexivity|]. split; [exact Hblind|].
  apply (X3_failed_lookup_creates ReferenceRemote.store blind_serve
           kitchen_template_data (VStr "Flash Kitchen")
           (ReferenceRemote.start kitchen_store)).
  - reflexivity.
  - right. exact Hblind.
Defined.

(** Behind the broken query endpoint the stored template is created again. *)
Example blind_lookup_duplicates :
  List.length
    (ReferenceRemote.templates
       (AWXTemplateManager.world
          (snd (AWXTemplateManager.create_or_update_template
                  ReferenceRemote.store blind_serve kitchen_template_data
                  (ReferenceRemote.start kitchen_store))))) = 2%nat.
Proof. vm_compute. reflexivity. Qed.

Lemma X5_unbuildable_playbook_counts_failed_witness :
  PlaybookParser.parse_playbook scalar_files never_relative
    "playbooks/esphome/notes.yaml" = Err OtherException
  /\ AWXTemplateManager.process_playbook ReferenceRemote.store
       ReferenceRemote.serve scalar_files never_relative decimal_int dump_block
       sample_config "playbooks/esphome/notes.yaml"
       AWXTemplateManager.no_results (ReferenceRemote.start kitchen_store)
     = (Ok (count_failed "notes.yaml" AWXTemplateManager.no_results),
        say (L_failed OtherException)
          (say (L_processing "notes.yaml") (ReferenceRemote.start kitchen_store))).
Proof.
  split; [reflexivity|].
  apply (X5_unbuildable_playbook_counts_failed ReferenceRemote.store
           ReferenceRemote.serve scalar_files never_relative decimal_int
           dump_block sample_config "playbooks/esphome/notes.yaml").
  left. reflexivity.
Defined.

Lemma X6_non_string_name_fails_witness :
  dict_get numbered_meta "name" = Some (VInt 7)
  /\ truthy (VInt 7) = true
  /\ is_str (VInt 7) = false
  /\ build_template_data decimal_int dump_block numbered_meta sample_config
     = Err OtherException.
Proof.
  split; [reflexivity|]. split; [reflexivity|]. split; [reflexivity|].
  apply (X6_non_string_name_fails decimal_int dump_block numbered_meta
           sample_config (VInt 7)); reflexivity.
Defined.

Lemma X4_main_loop_isolates_failures_witness :
  exists results' c u f,
    fst (AWXTemplateManager.main_loop ReferenceRemote.store ReferenceRemote.serve
           kitchen_files never_relative decimal_int dump_block sample_config
           [kitchen_path; unnamed_path] AWXTemplateManager.no_results
           (ReferenceRemote.start (ReferenceRemote.empty_store 204)))
    = Ok results'
    /\ AWXTemplateManager.created results' = [] ++ c
    /\ AWXTemplateManager.updated results' = [] ++ u
    /\ AWXTemplateManager.failed results' = [] ++ f
    /\ (List.length c + List.length u + List.length f <= 2)%nat.
Proof.
  destruct (X4_main_loop_isolates_failures ReferenceRemote.store
              ReferenceRemote.serve kitchen_files never_relative decimal_int
              dump_block sample_config [kitchen_path; unnamed_path]
              AWXTemplateManager.no_results
              (ReferenceRemote.start (ReferenceRemote.empty_store 204)))
    as (results' & c & u & f & Hout & Hc & Hu & Hf & Hlen & _).
  exists results', c, u, f. repeat split; assumption.
Defined.

Lemma X7_reply_without_id_is_uncounted_witness :
  PlaybookParser.parse_playbook kitchen_files never_relative kitchen_path
  = Ok kitchen_meta
  /\ build_template_data decimal_int dump_block kitchen_meta sample_config
     = Ok kitchen_template_data
  /\ fst (AWXTemplateManager.create_or_update_template unit
            (scripted idless_answer) kitchen_template_data
            (kitchen_ready scripted_start))
     = Ok (VDict [("detail", VStr "accepted")])
  /\ AWXTemplateManager.process_playbook unit (scripted idless_answer)
       kitchen_files never_relative decimal_int dump_block sample_config
       kitchen_path AWXTemplateManager.no_results scripted_start
     = (Ok AWXTemplateManager.no_results,
        snd (AWXTemplateManager.create_or_update_template unit
               (scripted idless_answer) kitchen_template_data
               (kitchen_ready scripted_start))).
Proof.
  split; [vm_compute; reflexivity|].
  split; [vm_compute; reflexivity|].
  split; [vm_compute; reflexivity|].
  apply (X7_reply_without_id_is_uncounted unit (scripted idless_answer)
           kitchen_files never_relative decimal_int dump_block sample_config
           kitchen_path AWXTemplateManager.no_results scripted_start _
           kitchen_meta kitchen_template_data (VStr "Flash Kitchen")
           (VStr kitchen_path) (VDict [("detail", VStr "accepted")]) VNone).
  - vm_compute. reflexivity.
  - reflexivity.
  - reflexivity.
  - vm_compute. reflexivity.
  - reflexivity.
  - vm_compute. reflexivity.
  - reflexivity.
  - reflexivity.
Defined.

Lemma X8_reconcile_exception_counts_failed_witness :
  fst (AWXTemplateManager.create_or_update_template unit
         (scripted refusing_answer) kitchen_template_data
         (kitchen_ready scripted_start)) = Err RequestException
  /\ AWXTemplateManager.process_playbook unit (scripted refusing_answer)
       kitchen_files never_relative decimal_int dump_block sample_config
       kitchen_path AWXTemplateManager.no_results scripted_start
     = (Ok (count_failed "flash_kitchen.yaml" AWXTemplateManager.no_results),
        say (L_failed RequestException)
          (snd (AWXTemplateManager.create_or_update_template unit
                  (scripted refusing_answer) kitchen_template_data
                  (kitchen_ready scripted_start)))).
Proof.
  split; [vm_compute; reflexivity|].
  apply (X8_reconcile_exception_counts_failed unit (scripted refusing_answer)
           kitchen_files never_relative decimal_int dump_block sample_config
           kitchen_path AWXTemplateManager.no_results scripted_start _
           kitchen_meta kitchen_template_data (VStr "Flash Kitchen")
           (VStr kitchen_path) RequestException).
  - vm_compute. reflexivity.
  - reflexivity.
  - reflexivity.
  - vm_compute. reflexivity.
  - reflexivity.
  - vm_compute. reflexivity.
Defined.

Lemma X9_action_follows_second_lookup_witness :
  let first :=
    AWXTemplateManager.create_or_update_template ReferenceRemote.store
      ReferenceRemote.serve kitchen_template_data
      (kitchen_ready (ReferenceRemote.start (ReferenceRemote.empty_store 204))) in
  let resource := VDict (("id", VInt 1) :: kitchen_payload) in
  fst first = Ok resource
  /\ fst (AWXTemplateManager.get_template ReferenceRemote.store
            ReferenceRemote.serve (VStr "Flash Kitchen") (snd first))
     = Ok resource
  /\ fst (AWXTemplateManager.process_playbook ReferenceRemote.store
            ReferenceRemote.serve kitchen_files never_relative decimal_int
            dump_block sample_config kitchen_path AWXTemplateManager.no_results
            (ReferenceRemote.start (ReferenceRemote.empty_store 204)))
     = Ok (count_updated (VStr "Flash Kitchen") AWXTemplateManager.no_results).
Proof.
  cbv zeta.
  split; [vm_compute; reflexivity|].
  split; [vm_compute; reflexivity|].
  eapply (X9_action_follows_second_lookup ReferenceRemote.store
           ReferenceRemote.serve kitchen_files never_relative decimal_int
           dump_block sample_config kitchen_path AWXTemplateManager.no_results
           (ReferenceRemote.start (ReferenceRemote.empty_store 204)) _ _
           kitchen_meta kitchen_template_data (VStr "Flash Kitchen")
           (VStr kitchen_path) (VDict (("id", VInt 1) :: kitchen_payload))
           (VInt 1) (VDict (("id", VInt 1) :: kitchen_payload))).
  - vm_compute. reflexivity.
  - reflexivity.
  - reflexivity.
  - vm_compute. reflexivity.
  - reflexivity.
  - vm_compute. reflexivity.
  - reflexivity.
  - reflexivity.
  - vm_compute. reflexivity.
Defined.

Lemma X10_extra_vars_canonical_witness :
  let source := [("esphome_timeout", VInt 30); ("device", VStr "kitchen");
                 ("k3s_context", VStr "prod")] in
  let other := [("k3s_context", VStr "prod"); ("esphome_timeout", VInt 30);
                ("device", VStr "kitchen")] in
  PlaybookParser.extract_extra_vars source
  = [("k3s_context", VStr "prod"); ("esphome_timeout", VInt 30)]
  /\ PlaybookParser.extract_extra_vars other
     = PlaybookParser.extract_extra_vars source.
Proof.
  cbv zeta. split; [reflexivity|].
  destruct (X10_extra_vars_canonical
              [("esphome_timeout", VInt 30); ("device", VStr "kitchen");
               ("k3s_context", VStr "prod")]) as (_ & _ & _ & Hsame).
  apply Hsame. clear Hsame. intros k. unfold dict_get.
  destruct (String.eqb_spec "k3s_context" k) as [E1|N1];
    destruct (String.eqb_spec "esphome_timeout" k) as [E2|N2];
    destruct (String.eqb_spec "device" k) as [E3|N3];
    try reflexivity; subst; discriminate.
Defined.

Lemma X11_description_segments_witness :
  let vars := [("esphome_timeout", VInt 30);
               ("device_patterns", VList [VStr "a"; VStr "b"]);
               ("skip_patterns", VStr "none");
               ("room_patterns", VList [VStr "attic"])] in
  PlaybookParser.generate_description (VStr "Flash") vars
  = Ok "Flash | Patterns: a, b | Patterns: attic"
  /\ exists name items,
      VStr "Flash" = VStr name
      /\ pattern_lists vars = map (map VStr) items
      /\ "Flash | Patterns: a, b | Patterns: attic"
         = String.concat " | " (name :: map pattern_segment items).
Proof.
  cbv zeta. split; [reflexivity|].
  destruct (X11_description_segments (VStr "Flash")
              [("esphome_timeout", VInt 30);
               ("device_patterns", VList [VStr "a"; VStr "b"]);
               ("skip_patterns", VStr "none");
               ("room_patterns", VList [VStr "attic"])]
              "Flash | Patterns: a, b | Patterns: attic" eq_refl)
    as (name & items & Hname & Hlists & Hdesc & _).
  exists name, items. split; [exact Hname|]. split; [exact Hlists | exact Hdesc].
Defined.

Lemma X13_build_fields_witness :
  build_template_data decimal_int dump_block kitchen_meta sample_config
  = Ok kitchen_template_data
  /\ dict_keys kitchen_template_data
     = ["name"; "description"; "job_type"; "inventory"; "project"; "playbook";
        "ask_variables_on_launch"; "extra_vars"; "credentials"]
  /\ exists inventory project credential environment limit,
      decimal_int (inventory_id sample_config) = Ok inventory
      /\ decimal_int (project_id sample_config) = Ok project
      /\ configured decimal_int (credential_id sample_config) = Ok credential
      /\ configured decimal_int (execution_environment_id sample_config)
         = Ok environment
      /\ dict_keys kitchen_template_data
         = ["name"; "description"; "job_type"; "inventory"; "project";
            "playbook"; "ask_variables_on_launch"; "extra_vars"]
           ++ dict_keys (optional_fields credential environment limit).
Proof.
  assert (Hbuild : build_template_data decimal_int dump_block kitchen_meta
                     sample_config = Ok kitchen_template_data)
    by (vm_compute; reflexivity).
  split; [exact Hbuild|]. split; [reflexivity|].
  destruct (X13_build_fields decimal_int dump_block kitchen_meta sample_config
              kitchen_template_data Hbuild)
    as (inventory & project & credential & environment & limit &
        Hinv & Hproj & Hcred & Henv & Hkeys & _).
  exists inventory, project, credential, environment, limit.
  repeat split; assumption.
Defined.

Lemma X12_description_errors_witness :
  is_str (VInt 7) = false
  /\ exists e,
      PlaybookParser.generate_description (VInt 7)
        [("device_patterns", VList [VStr "a"])] = Err e.
Proof.
  split; [reflexivity|].
  apply X12_description_errors. left. reflexivity.
Defined.

Lemma X14_build_returns_witness :
  configured decimal_int (credential_id sample_config) = Ok (Some 5%Z)
  /\ configured decimal_int (execution_environment_id sample_config) = Ok None
  /\ exists template_data,
      build_template_data decimal_int dump_block plain_meta sample_config
      = Ok template_data.
Proof.
  split; [reflexivity|]. split; [reflexivity|].
  apply (X14_build_returns decimal_int dump_block plain_meta sample_config
           "Reboot Devices" "playbooks/esphome/reboot.yaml"
           2%Z 8%Z (Some 5%Z) None); reflexivity.
Defined.

Lemma X15_derived_name_shape_witness :
  ascii_only (path_stem "playbooks/esphome/flash_all") = true
  /\ rfind "." (path_name "playbooks/esphome/flash_all") = None
  /\ path_stem "playbooks/esphome/flash_all" = "flash_all"
  /\ String.length (derived_name "playbooks/esphome/flash_all") = 9%nat.
Proof.
  destruct (X15_derived_name_shape "playbooks/esphome/flash_all")
    as (Hascii & _ & Hstem).
  split; [reflexivity|]. split; [reflexivity|].
  split; [rewrite Hstem; reflexivity|].
  destruct (Hascii eq_refl) as (Hlen & _).
  rewrite Hlen, Hstem; reflexivity.
Defined.

Lemma X16_built_resource_links_once_witness :
  build_template_data decimal_int dump_block kitchen_meta sample_config
  = Ok kitchen_template_data
  /\ fst (AWXTemplateManager.create_or_update_template ReferenceRemote.store
            ReferenceRemote.serve kitchen_template_data
            (ReferenceRemote.start (ReferenceRemote.empty_store 204)))
     = Ok (VDict (("id", VInt 1) :: kitchen_payload))
  /\ exists name write template_id credential,
      py_getitem kitchen_template_data "name" = Ok name
      /\ configured decimal_int (credential_id sample_config) = Ok credential
      /\ AWXTemplateManager.calls
           (snd (AWXTemplateManager.create_or_update_template
                   ReferenceRemote.store ReferenceRemote.serve
                   kitchen_template_data
                   (ReferenceRemote.start (ReferenceRemote.empty_store 204))))
         = [] ++ find_request name :: write
              :: match credential with
                 | Some c => [link_request template_id (VInt c)]
                 | None => []
                 end.
Proof.
  assert (Hbuild : build_template_data decimal_int dump_block kitchen_meta
                     sample_config = Ok kitchen_template_data)
    by (vm_compute; reflexivity).
  assert (Hout : fst (AWXTemplateManager.create_or_update_template
                        ReferenceRemote.store ReferenceRemote.serve
                        kitchen_template_data
                        (ReferenceRemote.start (ReferenceRemote.empty_store 204)))
                 = Ok (VDict (("id", VInt 1) :: kitchen_payload)))
    by (vm_compute; reflexivity).
  split; [exact Hbuild|]. split; [exact Hout|].
  destruct (X16_built_resource_links_once ReferenceRemote.store
              ReferenceRemote.serve decimal_int dump_block kitchen_meta
              sample_config kitchen_template_data _
              (ReferenceRemote.start (ReferenceRemote.empty_store 204))
              Hbuild Hout)
    as (name & write & template_id & credential & Hname & Hcred & Hcalls & _).
  exists name, write, template_id, credential.
  split; [exact Hname|]. split; [exact Hcred | exact Hcalls].
Defined.

(* ------------------------------------------------------------------ *)
(** * Properties of the survey script *)

Section SurveyFacts.
Import SurveyScript.
Variable W : Type.
Variable session_request : request -> W -> result response * W.
Variable file_exists : string -> bool.
Variable read_yaml : string -> result value.
Variable py_int : string -> result Z.

Lemma list_applications_quiet (applications : value) (names : list string)
      (s : state W) :
  only_printed s (snd (list_applications W applications names s))
  /\ forall code, fst (list_applications W applications names s) <> SysExit code.
Proof.
  revert s. induction names as [|name rest IH]; intros s; simpl.
  - split; [split; reflexivity | discriminate].
  - unfold bind, lift, print.
    destruct (py_subscript applications name) as [entry|e];
      [|split; [split; reflexivity | discriminate]].
    destruct (py_get entry "deployment_method" (VStr "unknown")) as [dm|e];
      [|split; [split; reflexivity | discriminate]].
    match goal with
    | |- context [list_applications W applications rest ?s1] =>
        destruct (IH s1) as [[Hw Hx] Hexit]
    end.
    split; [split; [rewrite Hw | rewrite Hx]; reflexivity | exact Hexit].
Qed.

(** One call: the exchange is logged, the world moves, and the call returns
    the response unless the transport raised or the status is an error. *)
Lemma api_call_exchange method ep body (s s' : state W) (out : outcome response) :
  _api_call W session_request method ep body s = (out, s') ->
  let req := {| req_method := method; req_endpoint := ep; req_json := body |} in
  let r := fst (session_request req (world s)) in
  exchanges s' = exchanges s ++ [(req, r)]
  /\ world s' = snd (session_request req (world s))
  /\ out = match r with
           | Err e => Raise e
           | Ok resp => if is_http_error resp then Raise RequestException
                        else Val resp
           end.
Proof.
  cbv zeta. unfold _api_call, bind, session_request_logged, print, raise, ret.
  destruct (session_request _ (world s)) as [[resp|e] w']; simpl.
  - destruct (is_http_error resp); simpl.
    + destruct (json resp); simpl; intros H; injection H as <- <-;
        repeat split; reflexivity.
    + intros H; injection H as <- <-. repeat split; reflexivity.
  - intros H; injection H as <- <-. repeat split; reflexivity.
Qed.

Lemma lookup_exchange (ep : endpoint) (h : exn -> M W value)
      (s s' : state W) (out : outcome value) :
  (forall e s1, exists s2,
        h e s1 = (Val VNone, s2)
        /\ exchanges s2 = exchanges s1 /\ world s2 = world s1) ->
  try_except W
    (bind W (_api_call W session_request GET ep None)
          (fun resp => lift W (json resp)))
    is_request_exception h s = (out, s') ->
  lookup_facts session_request {| req_method := GET; req_endpoint := ep; req_json := None |}
               s s' out.
Proof.
  intros Hh. unfold try_except, bind, lookup_facts. cbv zeta.
  destruct (_api_call W session_request GET ep None s) as [o s1] eqn:Hcall.
  apply api_call_exchange in Hcall. cbv zeta in Hcall.
  destruct Hcall as (Hx & Hw & Hout).
  destruct (fst (session_request
                   {| req_method := GET; req_endpoint := ep; req_json := None |}
                   (world s))) as [resp|e].
  - destruct (is_http_error resp) eqn:Herr; subst o; simpl.
    + destruct (Hh RequestException s1) as (s2 & -> & Hx2 & Hw2).
      intros H; injection H as <- <-.
      rewrite Hx2, Hw2.
      split; [exact Hx|]. split; [exact Hw|].
      split; [discriminate|]. split; [discriminate|].
      split; [reflexivity|].
      intros resp' v H Hfalse _. injection H as <-. congruence.
    + unfold lift. destruct (json resp) as [v|[|]] eqn:Hjson; simpl.
      * intros H; injection H as <- <-.
        split; [exact Hx|]. split; [exact Hw|].
        split; [discriminate|]. split; [discriminate|].
        split.
        -- intros [H|(resp' & H & H')]; [discriminate|].
           injection H as <-. congruence.
        -- intros resp' v' H _ Hj. injection H as <-. congruence.
      * destruct (Hh RequestException s1) as (s2 & -> & Hx2 & Hw2).
        intros H; injection H as <- <-.
        rewrite Hx2, Hw2.
        split; [exact Hx|]. split; [exact Hw|].
        split; [discriminate|]. split; [discriminate|].
        split; [reflexivity|].
        intros resp' v H _ Hj. injection H as <-. congruence.
      * intros H; injection H as <- <-.
        split; [exact Hx|]. split; [exact Hw|].
        split; [discriminate|]. split; [discriminate|].
        split.
        -- intros [H|(resp' & H & H')]; [discriminate|].
           injection H as <-. congruence.
        -- intros resp' v' H _ Hj. injection H as <-. congruence.
  - subst o. destruct e; simpl.
    + destruct (Hh RequestException s1) as (s2 & -> & Hx2 & Hw2).
      intros H; injection H as <- <-.
      rewrite Hx2, Hw2.
      split; [exact Hx|]. split; [exact Hw|].
      split; [discriminate|]. split; [discriminate|].
      split; [reflexivity|].
      intros resp' v H. discriminate.
    + intros H; injection H as <- <-.
      split; [exact Hx|]. split; [exact Hw|].
      split; [discriminate|]. split; [discriminate|].
      split.
      * intros [H|(resp' & H & _)]; discriminate.
      * intros resp' v H. discriminate.
Qed.

Lemma get_template_exchange (i : Z) (s s' : state W) (out : outcome value) :
  get_template W session_request i s = (out, s') ->
  lookup_facts session_request {| req_method := GET; req_endpoint := EP_job_template i;
                  req_json := None |} s s' out.
Proof.
  unfold get_template. apply lookup_exchange.
  intros e s1. eexists. split; [reflexivity|]. split; reflexivity.
Qed.

Lemma get_survey_exchange (i : Z) (s s' : state W) (out : outcome value) :
  get_survey W session_request i s = (out, s') ->
  lookup_facts session_request {| req_method := GET; req_endpoint := EP_survey_spec i;
                  req_json := None |} s s' out.
Proof.
  unfold get_survey. apply lookup_exchange.
  intros e s1. eexists. split; [reflexivity|]. split; reflexivity.
Qed.

Lemma update_survey_exchange (i : Z) (survey_spec : dict) (s s' : state W)
      (out : outcome bool) :
  update_survey W session_request i survey_spec s = (out, s') ->
  let req := {| req_method := POST; req_endpoint := EP_survey_spec i;
                req_json := Some survey_spec |} in
  let r := fst (session_request req (world s)) in
  exchanges s' = exchanges s ++ [(req, r)]
  /\ world s' = snd (session_request req (world s))
  /\ out = match r with
           | Err e => Raise e
           | Ok resp =>
               if is_http_error resp then Raise RequestException
               else Val (status_code resp =? 200)%Z
           end.
Proof.
  cbv zeta. unfold update_survey, bind.
  destruct (_api_call W session_request POST (EP_survey_spec i)
              (Some survey_spec) s) as [o s1] eqn:Hcall.
  apply api_call_exchange in Hcall. cbv zeta in Hcall.
  destruct Hcall as (Hx & Hw & Hout).
  destruct (fst (session_request _ (world s))) as [resp|e].
  - destruct (is_http_error resp); subst o; simpl;
      intros H; injection H as <- <-; repeat split; assumption.
  - subst o. intros H; injection H as <- <-. repeat split; assumption.
Qed.

Lemma enable_survey_exchange (i : Z) (s s' : state W) (out : outcome value) :
  enable_survey W session_request i s = (out, s') ->
  let req := {| req_method := PATCH; req_endpoint := EP_job_template i;
                req_json := Some [("survey_enabled", VBool true)] |} in
  let r := fst (session_request req (world s)) in
  exchanges s' = exchanges s ++ [(req, r)]
  /\ world s' = snd (session_request req (world s))
  /\ (forall code, out <> SysExit code).
Proof.
  cbv zeta. unfold enable_survey, bind.
  destruct (_api_call W session_request PATCH (EP_job_template i)
              (Some [("survey_enabled", VBool true)]) s) as [o s1] eqn:Hcall.
  apply api_call_exchange in Hcall. cbv zeta in Hcall.
  destruct Hcall as (Hx & Hw & Hout).
  destruct (fst (session_request _ (world s))) as [resp|e].
  - destruct (is_http_error resp); subst o; simpl.
    + intros H; injection H as <- <-. repeat split; try assumption. discriminate.
    + unfold lift. destruct (json resp);
        intros H; injection H as <- <-; repeat split; try assumption;
        discriminate.
  - subst o. intros H; injection H as <- <-.
    repeat split; try assumption. discriminate.
Qed.

Lemma bind_inv {A B} (m : M W A) (k : A -> M W B) (s s' : state W)
      (out : outcome B) :
  bind W m k s = (out, s') ->
  (exists a s1, m s = (Val a, s1) /\ k a s1 = (out, s'))
  \/ (exists e, m s = (Raise e, s') /\ out = Raise e)
  \/ (exists code, m s = (SysExit code, s') /\ out = SysExit code).
Proof.
  unfold bind. destruct (m s) as [[a|e|code] s1]; intros H.
  - left. exists a, s1. split; [reflexivity | exact H].
  - right. left. injection H as <- <-. exists e. split; reflexivity.
  - right. right. injection H as <- <-. exists code. split; reflexivity.
Qed.

Lemma try_inv {A} (m : M W A) (handles : exn -> bool) (h : exn -> M W A)
      (s s' : state W) (out : outcome A) :
  try_except W m handles h s = (out, s') ->
  (exists a, m s = (Val a, s') /\ out = Val a)
  \/ (exists code, m s = (SysExit code, s') /\ out = SysExit code)
  \/ (exists e s1,
         m s = (Raise e, s1)
         /\ if handles e then h e s1 = (out, s')
            else out = Raise e /\ s' = s1).
Proof.
  unfold try_except. destruct (m s) as [[a|e|code] s1]; intros H.
  - left. injection H as <- <-. exists a. split; reflexivity.
  - right. right. exists e, s1. split; [reflexivity|].
    destruct (handles e); [exact H|].
    injection H as <- <-. split; reflexivity.
  - right. left. injection H as <- <-. exists code. split; reflexivity.
Qed.

Lemma lift_inv {A} (r : result A) (s s' : state W) (out : outcome A) :
  lift W r s = (out, s') ->
  s' = s /\ out = match r with Ok a => Val a | Err e => Raise e end.
Proof.
  unfold lift. destruct r; intros H; injection H as <- <-; split; reflexivity.
Qed.

Lemma print_inv (l : line) (s s' : state W) (out : outcome unit) :
  print W l s = (out, s') ->
  out = Val tt /\ world s' = world s /\ exchanges s' = exchanges s.
Proof.
  unfold print. intros H; injection H as <- <-. repeat split.
Qed.

Lemma load_inv (filepath : string) (s s' : state W) (out : outcome value) :
  load_k3s_applications W file_exists read_yaml filepath s = (out, s') ->
  world s' = world s /\ exchanges s' = exchanges s
  /\ (forall code, out = SysExit code ->
                   code = 1%Z /\ file_exists filepath = false)
  /\ (forall applications,
         out = Val applications ->
         file_exists filepath = true
         /\ exists data,
             read_yaml filepath = Ok data
             /\ py_get data "k3s_applications" (VDict []) = Ok applications)
  /\ (file_exists filepath = false -> out = SysExit 1).
Proof.
  unfold load_k3s_applications.
  destruct (file_exists filepath); simpl.
  - unfold bind, lift.
    destruct (read_yaml filepath) as [data|e].
    + destruct (py_get data "k3s_applications" (VDict [])) as [apps|e] eqn:Hget;
        intros H; injection H as <- <-;
        (split; [reflexivity|]); (split; [reflexivity|]);
        (split; [discriminate|]); (split; [|discriminate]).
      * intros applications H. injection H as <-.
        split; [reflexivity|]. exists data. split; [reflexivity | exact Hget].
      * discriminate.
    + intros H; injection H as <- <-.
      split; [reflexivity|]. split; [reflexivity|].
      split; [discriminate|]. split; discriminate.
  - unfold bind, print, sys_exit. intros H; injection H as <- <-.
    split; [reflexivity|]. split; [reflexivity|].
    split; [intros code H; injection H as <-; split; reflexivity|].
    split; [discriminate | reflexivity].
Qed.

Ltac pstep H Hw Hx :=
  let u := fresh "u" in
  let s1 := fresh "s" in
  let Hm := fresh "Hm" in
  apply bind_inv in H;
  destruct H as [(u & s1 & Hm & H) | [(? & Hm & ?) | (? & Hm & ?)]];
  [ apply print_inv in Hm; destruct Hm as (_ & Hw & Hx)
  | apply print_inv in Hm; destruct Hm as (Hm & _); discriminate Hm
  | apply print_inv in Hm; destruct Hm as (Hm & _); discriminate Hm ].

Ltac lift_value E :=
  match goal with
  | Hr : Val _ = match ?r with Ok _ => _ | Err _ => _ end |- _ =>
      destruct r eqn:E; [injection Hr as <- | discriminate Hr]
  end.

Ltac lift_exit :=
  match goal with
  | Hr : SysExit _ = match ?r with Ok _ => _ | Err _ => _ end |- _ =>
      destruct r; discriminate Hr
  end.

Tactic Notation "lstep" hyp(H) ident(a) ident(E) :=
  let s1 := fresh "s" in
  let Hm := fresh "Hm" in
  apply bind_inv in H;
  destruct H as [(a & s1 & Hm & H) | [(? & Hm & ?) | (? & Hm & ?)]];
  apply lift_inv in Hm; destruct Hm as (? & ?);
  [ subst s1; lift_value E | subst | exfalso; subst; lift_exit ].

Ltac chain :=
  repeat match goal with
         | H : exchanges ?a = _ |- context [exchanges ?a] => rewrite H
         end;
  rewrite <- ?app_assoc; simpl.

Ltac wchain :=
  repeat match goal with
         | H : world ?a = _ |- context [world ?a] => rewrite H
         end.

Ltac leafk i apps k :=
  eexists; split; [chain; reflexivity|];
  split;
  [ let Hc := fresh in
    intros ? Hc; try discriminate Hc; try (injection Hc as <-; reflexivity)|];
  right; exists i, apps, k;
  split; [assumption|]; split; [assumption|]; split; [assumption|];
  split; [lia|]; split; [reflexivity|];
  split; [let Hc := fresh in intros Hc; try discriminate Hc; try reflexivity|];
  split; [let Hc := fresh in intros Hc; try discriminate Hc; try reflexivity|];
  let Hc := fresh in intros Hc; try discriminate Hc.

Ltac leaf0 :=
  exists []; rewrite app_nil_r;
  split; [chain; reflexivity|];
  split; [intros ? ?; try discriminate; try congruence|];
  left; split; [reflexivity|]; split; [discriminate | wchain; reflexivity].

Lemma main_trace (CONFIG : Config) (s s' : state W) (out : outcome unit) :
  main W session_request file_exists read_yaml py_int CONFIG s = (out, s') ->
  survey_run file_exists read_yaml py_int CONFIG s s' out.
Proof.
  unfold main. intros H.
  pstep H Hw0 Hx0.
  apply bind_inv in H.
  destruct H as [(valid & s1 & Hvalid & H) | [(e & Hvalid & ->) | (c & Hvalid & ->)]].
  2:{ unfold validate_config in Hvalid.
      destruct (missing CONFIG); [discriminate|].
      unfold bind, print, ret in Hvalid. discriminate. }
  2:{ unfold validate_config in Hvalid.
      destruct (missing CONFIG); [discriminate|].
      unfold bind, print, ret in Hvalid. discriminate. }
  assert (Hv : world s1 = world s0 /\ exchanges s1 = exchanges s0
               /\ (valid = true -> missing CONFIG = [])).
  { unfold validate_config in Hvalid.
    destruct (missing CONFIG).
    - unfold ret in Hvalid. injection Hvalid as <- <-. repeat split.
    - unfold bind, print, ret in Hvalid. injection Hvalid as <- <-.
      repeat split. discriminate. }
  destruct Hv as (Hw1 & Hx1 & Hmissing).
  destruct valid; simpl negb in H; cbv iota in H.
  2:{ unfold sys_exit in H. injection H as <- <-.
      exists []. rewrite app_nil_r.
      split; [chain; reflexivity|].
      split; [intros code Hc; injection Hc as <-; reflexivity|].
      left. split; [reflexivity|]. split; [discriminate|]. wchain. reflexivity. }
  specialize (Hmissing eq_refl).
  pstep H Hw2 Hx2.
  apply bind_inv in H.
  destruct H as [(applications & s3 & Hload & H) | [(e & Hload & ->) | (c & Hload & ->)]];
    apply load_inv in Hload;
    destruct Hload as (Hw3 & Hx3 & Hexit & Hval & _).
  2:{ leaf0. }
  2:{ destruct (Hexit c eq_refl) as [-> _].
      exists []. rewrite app_nil_r.
      split; [chain; reflexivity|].
      split; [intros code Hc; injection Hc as <-; reflexivity|].
      left. split; [reflexivity|]. split; [discriminate|]. wchain. reflexivity. }
  destruct (Hval applications eq_refl) as (Hexists & data & Hread & Hget).
  clear Hexit Hval.
  lstep H count Hcount; [|leaf0].
  pstep H Hw4 Hx4.
  lstep H names Hnames; [|leaf0].
  destruct applications as [| | | | |apps]; try discriminate.
  simpl in Hnames. injection Hnames as <-.
  assert (Hloaded : loaded file_exists read_yaml CONFIG apps).
  { split; [exact Hexists|]. exists data. split; assumption. }
  apply bind_inv in H.
  destruct H as [(done & s5 & Hlist & H) | [(e & Hlist & ->) | (c & Hlist & ->)]];
    destruct (list_applications_quiet (VDict apps) (py_sorted (dict_keys apps)) s4)
      as [[Hw5 Hx5] Hnoexit];
    rewrite Hlist in Hw5, Hx5, Hnoexit; simpl in Hw5, Hx5, Hnoexit.
  2:{ leaf0. }
  2:{ exfalso. apply (Hnoexit c). reflexivity. }
  lstep H i Hi; [|leaf0].
  pstep H Hw6 Hx6.
  (* first exchange: the template *)
  apply bind_inv in H.
  destruct H as [(template & s7 & Hgt & H) | [(e & Hgt & ->) | (c & Hgt & ->)]];
    apply get_template_exchange in Hgt; unfold lookup_facts in Hgt;
    cbv zeta in Hgt; destruct Hgt as (Hx7 & Hw7 & Hne7 & _).
  2:{ leafk i apps 1%nat. }
  2:{ exfalso. apply (Hne7 c). reflexivity. }
  clear Hne7.
  destruct (negb (truthy template)).
  { pstep H Hw8 Hx8. unfold sys_exit in H. injection H as <- <-.
    leafk i apps 1%nat. }
  lstep H template_name Hname; [|leafk i apps 1%nat].
  pstep H Hw8 Hx8.
  lstep H template_playbook Hplaybook; [|leafk i apps 1%nat].
  pstep H Hw9 Hx9.
  (* second exchange: the current survey *)
  apply bind_inv in H.
  destruct H as [(current & s10 & Hgs & H) | [(e & Hgs & ->) | (c & Hgs & ->)]];
    apply get_survey_exchange in Hgs; unfold lookup_facts in Hgs;
    cbv zeta in Hgs; destruct Hgs as (Hx10 & Hw10 & Hne10 & _).
  2:{ leafk i apps 2%nat. }
  2:{ exfalso. apply (Hne10 c). reflexivity. }
  clear Hne10.
  apply bind_inv in H.
  destruct H as [(shown & s11 & Hshow & H) | [(e & Hshow & ->) | (c & Hshow & ->)]].
  2:{ destruct (truthy current); [|discriminate].
      lstep Hshow spec Hspec; [|leafk i apps 2%nat].
      lstep Hshow questions Hquestions; [|leafk i apps 2%nat].
      apply print_inv in Hshow. destruct Hshow as (Hshow & _). discriminate. }
  2:{ exfalso. destruct (truthy current); [|discriminate].
      lstep Hshow spec Hspec; [|discriminate].
      lstep Hshow questions Hquestions; [|discriminate].
      apply print_inv in Hshow. destruct Hshow as (Hshow & _). discriminate. }
  assert (Hshown : world s11 = world s10 /\ exchanges s11 = exchanges s10).
  { destruct (truthy current).
    - lstep Hshow spec Hspec; [|discriminate].
      lstep Hshow questions Hquestions; [|discriminate].
      apply print_inv in Hshow. destruct Hshow as (_ & Hw & Hx).
      split; assumption.
    - unfold ret in Hshow.
      assert (Hsame : s11 = s10) by congruence.
      rewrite Hsame. split; reflexivity. }
  destruct Hshown as (Hw11 & Hx11). clear Hshow.
  pstep H Hw12 Hx12.
  lstep H application_dict Hdict; [|leafk i apps 2%nat].
  simpl in Hdict. injection Hdict as <-.
  cbv zeta in H.
  lstep H choices Hchoices; [|leafk i apps 2%nat].
  lstep H choice_count Hchoice_count; [|leafk i apps 2%nat].
  pstep H Hw13 Hx13.
  (* third and fourth exchange: the new survey, then the flag *)
  assert (Htail :
            forall (o : outcome unit) (t : state W),
              bind W (update_survey W session_request i (build_survey_spec apps))
                (fun success : bool =>
                   bind W (if negb success then raise W OtherException
                           else ret W tt)
                     (fun _ : unit =>
                        bind W (print W L_updated)
                          (fun _ : unit =>
                             bind W (print W L_enabling)
                               (fun _ : unit =>
                                  bind W (enable_survey W session_request i)
                                    (fun _ : value =>
                                       bind W (print W L_enabled)
                                         (fun _ : unit =>
                                            print W (L_success i choice_count)))))))
                s13 = (o, t) ->
              (forall code, o <> SysExit code)
              /\ exists r3,
                  (exchanges t
                   = exchanges s13
                     ++ [({| req_method := POST;
                             req_endpoint := EP_survey_spec i;
                             req_json := Some (build_survey_spec apps) |}, r3)]
                   /\ o <> Val tt)
                  \/ exists resp r4,
                      r3 = Ok resp /\ status_code resp = 200%Z
                      /\ exchanges t
                         = exchanges s13
                           ++ [({| req_method := POST;
                                   req_endpoint := EP_survey_spec i;
                                   req_json := Some (build_survey_spec apps) |},
                                r3);
                               ({| req_method := PATCH;
                                   req_endpoint := EP_job_template i;
                                   req_json :=
                                     Some [("survey_enabled", VBool true)] |},
                                r4)]).
  { intros o t Ht.
    apply bind_inv in Ht.
    destruct Ht as [(success & t1 & Hup & Ht) | [(e & Hup & ->) | (c & Hup & ->)]];
      apply update_survey_exchange in Hup; cbv zeta in Hup;
      destruct Hup as (Hxu & Hwu & Hou).
    2:{ split; [discriminate|]. eexists. left. split; [exact Hxu | discriminate]. }
    2:{ exfalso.
        destruct (fst (session_request _ (world s13))) as [resp|e];
          [destruct (is_http_error resp)|]; discriminate. }
    destruct (fst (session_request
                     {| req_method := POST; req_endpoint := EP_survey_spec i;
                        req_json := Some (build_survey_spec apps) |}
                     (world s13))) as [resp|e] eqn:Hr3; [|discriminate].
    destruct (is_http_error resp); [discriminate|].
    injection Hou as ->.
    destruct (status_code resp =? 200)%Z eqn:Hstatus; simpl negb in Ht.
    - apply Z.eqb_eq in Hstatus.
      apply bind_inv in Ht.
      destruct Ht as [(u8 & t2 & Hret & Ht) | [(e & Hret & _) | (c & Hret & _)]];
        try discriminate.
      unfold ret in Hret. assert (Ht2 : t2 = t1) by congruence. subst t2.
      pstep Ht Hwa Hxa. pstep Ht Hwb Hxb.
      apply bind_inv in Ht.
      destruct Ht as [(enabled & t3 & Hen & Ht) | [(e & Hen & ->) | (c & Hen & ->)]];
        apply enable_survey_exchange in Hen; cbv zeta in Hen;
        destruct Hen as (Hxe & Hwe & Hne).
      + pstep Ht Hwc Hxc. apply print_inv in Ht. destruct Ht as (-> & Hwd & Hxd).
        split; [discriminate|]. exists (Ok resp). right. eexists. eexists.
        split; [reflexivity|]. split; [exact Hstatus|].
        rewrite Hxd, Hxc, Hxe, Hxb, Hxa, Hxu, <- app_assoc. reflexivity.
      + split; [discriminate|]. exists (Ok resp). right. eexists. eexists.
        split; [reflexivity|]. split; [exact Hstatus|].
        rewrite Hxe, Hxb, Hxa, Hxu, <- app_assoc. reflexivity.
      + exfalso. apply (Hne c). reflexivity.
    - apply bind_inv in Ht.
      destruct Ht as [(u8 & t2 & Hret & Ht) | [(e & Hret & ->) | (c & Hret & _)]];
        try discriminate.
      unfold raise in Hret. injection Hret as <- <-.
      split; [discriminate|]. exists (Ok resp). left.
      split; [exact Hxu | discriminate]. }
  apply try_inv in H.
  destruct H as [(a & Hm & ->) | [(c & Hm & ->) | (e & t & Hm & Hh)]];
    apply Htail in Hm; destruct Hm as (Hnoexit' & r3 & Hcases).
  - destruct a.
    destruct Hcases as [[_ Habs] | (resp & r4 & -> & Hstatus & Hxt)];
      [exfalso; apply Habs; reflexivity|].
    leafk i apps 4%nat.
    exists resp. split; [reflexivity | exact Hstatus].
  - exfalso. apply (Hnoexit' c). reflexivity.
  - simpl in Hh. pstep Hh Hwz Hxz.
    unfold sys_exit in Hh. injection Hh as <- <-.
    destruct Hcases as [[Hxt _] | (resp & r4 & -> & Hstatus & Hxt)].
    + leafk i apps 3%nat.
    + leafk i apps 4%nat.
      exists resp. split; [reflexivity | exact Hstatus].
Qed.

(** X17. Whatever the remote answers, [main] of the survey script sends its
    requests in one fixed order: the template lookup, the survey lookup, the
    survey update and the patch that enables the survey, all for the template
    id read from the configuration.  A run makes none of them or stops after
    some first ones; the body of the update is [build_survey_spec] of the
    applications read from the inventory file. *)
Theorem X17_survey_requests_in_order (CONFIG : Config) (s s' : state W)
        (out : outcome unit) :
  main W session_request file_exists read_yaml py_int CONFIG s = (out, s') ->
  exists new,
    exchanges s' = exchanges s ++ new
    /\ (new = []
        \/ exists i apps k,
            py_int (template_id CONFIG) = Ok i
            /\ loaded file_exists read_yaml CONFIG apps
            /\ map fst new = firstn k (survey_protocol i apps)).
Proof.
  intros H. apply main_trace in H.
  destruct H as (new & Hx & _ & [(-> & _) | (i & apps & k & _ & Hl & Hi & _ & Hmap & _)]).
  - exists []. split; [exact Hx | left; reflexivity].
  - exists new. split; [exact Hx|]. right. exists i, apps, k.
    split; [exact Hi|]. split; [exact Hl | exact Hmap].
Qed.

(** X18. The survey is enabled only after the update was answered with
    status 200: when the log of a run holds a PATCH request, its third
    exchange is the POST, answered with status 200.  A run that returns
    normally made all four exchanges, and a run that stops after the update
    exits with status 1. *)
Theorem X18_survey_enabled_only_after_200 (CONFIG : Config) (s s' : state W)
        (out : outcome unit) :
  main W session_request file_exists read_yaml py_int CONFIG s = (out, s') ->
  exists new,
    exchanges s' = exchanges s ++ new
    /\ (out = Val tt -> List.length new = 4%nat)
    /\ (List.length new = 3%nat -> out = SysExit 1)
    /\ (forall enable r,
           In (enable, r) new -> req_method enable = PATCH ->
           exists update resp,
             nth_error new 2 = Some (update, Ok resp)
             /\ req_method update = POST
             /\ status_code resp = 200%Z).
Proof.
  intros H. apply main_trace in H.
  destruct H as (new & Hx & _ & [(-> & Hout & _) | (i & apps & k & _ & _ & _ & Hk & Hmap & Hval & Hthree & Hfour)]).
  - exists []. split; [exact Hx|]. split; [intros Hv; contradiction|].
    split; [discriminate|].
    intros enable r [].
  - assert (Hlen : List.length new = k).
    { apply (f_equal (@List.length request)) in Hmap.
      rewrite length_map, length_firstn in Hmap.
      unfold survey_protocol in Hmap. simpl List.length in Hmap. lia. }
    exists new. split; [exact Hx|]. split; [|split].
    + intros Hv. rewrite Hlen. exact (Hval Hv).
    + intros H3. apply Hthree. rewrite <- Hlen. exact H3.
    + intros enable r Hin Hpatch.
      assert (Hk4 : k = 4%nat).
      { apply (in_map fst) in Hin. rewrite Hmap in Hin.
        change (fst (enable, r)) with enable in Hin.
        destruct (Nat.eq_dec k 4) as [Heq|Hne]; [exact Heq|]. exfalso.
        unfold survey_protocol in Hin.
        assert (Hcases : k = 1%nat \/ k = 2%nat \/ k = 3%nat) by lia.
        destruct Hcases as [-> | [-> | ->]]; cbn [firstn In] in Hin;
          repeat (destruct Hin as [Hin|Hin];
                  [subst enable; simpl in Hpatch; discriminate Hpatch|]);
          contradiction. }
      destruct (Hfour Hk4) as (resp & Hnth & Hstatus).
      eexists. exists resp. split; [exact Hnth|]. split; [reflexivity | exact Hstatus].
Qed.

(** X19. Every [sys.exit] of the survey script's [main] has status 1.  When
    the URL, the token or the template id is empty, or the inventory file
    does not exist, [main] exits with status 1 without a single request. *)
Theorem X19_survey_exits_with_one (CONFIG : Config) (s s' : state W)
        (out : outcome unit) :
  main W session_request file_exists read_yaml py_int CONFIG s = (out, s') ->
  (forall code, out = SysExit code -> code = 1%Z)
  /\ (awx_url CONFIG = "" \/ awx_token CONFIG = "" \/ template_id CONFIG = ""
      \/ file_exists (k3s_apps_file CONFIG) = false ->
      out = SysExit 1
      /\ exchanges s' = exchanges s /\ world s' = world s).
Proof.
  intros H. split.
  - apply main_trace in H. destruct H as (new & _ & Hexit & _). exact Hexit.
  - intros Hbad. unfold main in H.
    pstep H Hw0 Hx0.
    apply bind_inv in H.
    unfold validate_config in H.
    destruct (missing CONFIG) as [|key keys] eqn:Hmissing.
    + assert (Hfile : file_exists (k3s_apps_file CONFIG) = false).
      { destruct Hbad as [Hb|[Hb|[Hb|Hb]]]; [| | |exact Hb]; exfalso;
          unfold missing, required, config_get in Hmissing; simpl in Hmissing;
          rewrite Hb in Hmissing; simpl in Hmissing;
          repeat match type of Hmissing with
                 | context [if ?c then _ else _] => destruct c
                 end; discriminate. }
      destruct H as [(valid & s1 & Hv & H) | [(e & Hv & _) | (c & Hv & _)]];
        try discriminate.
      unfold ret in Hv. injection Hv as <- <-. simpl negb in H. cbv iota in H.
      pstep H Hw2 Hx2.
      apply bind_inv in H.
      destruct H as [(apps & s3 & Hload & H) | [(e & Hload & ->) | (c & Hload & ->)]];
        apply load_inv in Hload;
        destruct Hload as (Hw3 & Hx3 & _ & _ & Hno);
        specialize (Hno Hfile); try discriminate.
      injection Hno as ->.
      split; [reflexivity|]. split; [chain; reflexivity | wchain; reflexivity].
    + destruct H as [(valid & s1 & Hv & H) | [(e & Hv & _) | (c & Hv & _)]];
        unfold bind, print, ret in Hv; try discriminate.
      injection Hv as <- <-. simpl negb in H. cbv iota in H.
      unfold sys_exit in H. injection H as <- <-. simpl.
      split; [reflexivity|]. split; assumption.
Qed.

(** X20. [update_survey] reports success exactly when the status is 200.
    When the remote answers at all, the result is an exception for a status
    from 400 to 599 and otherwise whether the status equals 200, so that 201
    or 204 count as failure; the exchange is logged in every case. *)
Theorem X20_update_survey_wants_200 (i : Z) (survey_spec : dict)
        (s s' : state W) (out : outcome bool) (resp : response) :
  update_survey W session_request i survey_spec s = (out, s') ->
  fst (session_request
         {| req_method := POST; req_endpoint := EP_survey_spec i;
            req_json := Some survey_spec |} (world s)) = Ok resp ->
  out = (if is_http_error resp then Raise RequestException
         else Val (status_code resp =? 200)%Z)
  /\ (out = Val true <-> status_code resp = 200%Z)
  /\ exchanges s'
     = exchanges s
       ++ [({| req_method := POST; req_endpoint := EP_survey_spec i;
               req_json := Some survey_spec |}, Ok resp)].
Proof.
  intros H Hresp. apply update_survey_exchange in H. cbv zeta in H.
  rewrite Hresp in H. destruct H as (Hx & _ & ->).
  split; [reflexivity|]. split; [|exact Hx].
  unfold is_http_error.
  destruct (status_code resp =? 200)%Z eqn:Hs.
  - apply Z.eqb_eq in Hs. rewrite Hs. simpl. split; [intros _|]; reflexivity.
  - apply Z.eqb_neq in Hs.
    destruct ((400 <=? status_code resp)%Z && (status_code resp <? 600)%Z);
      (split; [discriminate | intros Habs; contradiction]).
Qed.

(** X21. [get_template] and [get_survey] of the survey script make exactly
    one GET request, never raise a request exception and never exit: a
    transport failure or an error status gives [None], a good answer gives
    its decoded body.  [get_survey] prints nothing of its own; the only line
    it can leave is the error line of [_api_call] for an error status. *)
Theorem X21_survey_lookups_absorb_request_errors (i : Z) (s s' : state W)
        (out : outcome value) :
  (get_template W session_request i s = (out, s') ->
   lookup_facts session_request {| req_method := GET; req_endpoint := EP_job_template i;
                   req_json := None |} s s' out)
  /\ (get_survey W session_request i s = (out, s') ->
      lookup_facts session_request {| req_method := GET; req_endpoint := EP_survey_spec i;
                      req_json := None |} s s' out
      /\ console s' = console s
         ++ match fst (session_request
                         {| req_method := GET; req_endpoint := EP_survey_spec i;
                            req_json := None |} (world s)) with
            | Ok resp =>
                if is_http_error resp then
                  [match json resp with
                   | Ok detail => L_api_error_details detail
                   | Err _ => L_api_error_text
                   end]
                else []
            | Err _ => []
            end).
Proof.
  split; [apply get_template_exchange|].
  intros H. split; [apply get_survey_exchange; exact H|].
  unfold get_survey, try_except, bind, _api_call, bind, session_request_logged,
    print, raise, ret, lift in H.
  destruct (session_request _ (world s)) as [[resp|e] w']; simpl in H |- *.
  - destruct (is_http_error resp); simpl in H.
    + destruct (json resp); simpl in H; injection H as <- <-; reflexivity.
    + destruct (json resp) as [v|[|]]; simpl in H; injection H as <- <-;
        simpl; rewrite app_nil_r; reflexivity.
  - destruct e; simpl in H; injection H as <- <-; simpl;
      rewrite app_nil_r; reflexivity.
Qed.

(** X22. [load_k3s_applications] makes no request.  It exits with status 1
    when the file does not exist.  Otherwise it returns the entry
    [k3s_applications] of the document, or an empty dict when the document
    has no such key; a document that is not a mapping raises, and an error
    while reading the file is passed on. *)
Theorem X22_load_k3s_applications (filepath : string) (s s' : state W)
        (out : outcome value) :
  load_k3s_applications W file_exists read_yaml filepath s = (out, s') ->
  world s' = world s /\ exchanges s' = exchanges s
  /\ (file_exists filepath = false -> out = SysExit 1)
  /\ (forall doc,
         file_exists filepath = true -> read_yaml filepath = Ok doc ->
         out = match doc with
               | VDict data =>
                   Val (match dict_get data "k3s_applications" with
                        | Some applications => applications
                        | None => VDict []
                        end)
               | _ => Raise OtherException
               end)
  /\ (forall e,
         file_exists filepath = true -> read_yaml filepath = Err e ->
         out = Raise e).
Proof.
  intros H. pose proof (load_inv _ _ _ _ H) as (Hw & Hx & _ & _ & Hno).
  split; [exact Hw|]. split; [exact Hx|]. split; [exact Hno|].
  unfold load_k3s_applications in H.
  split.
  - intros doc Hex Hread. rewrite Hex, Hread in H. simpl in H.
    unfold bind, lift in H.
    destruct doc; simpl in H; injection H as <- _; reflexivity.
  - intros e Hex Hread. rewrite Hex, Hread in H. simpl in H.
    unfold bind, lift in H. injection H as <- _. reflexivity.
Qed.
End SurveyFacts.

(* ------------------------------------------------------------------ *)
(** ** The survey properties at concrete inputs *)

Lemma X17_survey_requests_in_order_witness :
  SurveyScript.main unit (survey_answer 200) inventory_exists inventory_yaml
    decimal_int survey_config survey_start
  = (SurveyScript.Val tt,
     snd (SurveyScript.main unit (survey_answer 200) inventory_exists
            inventory_yaml decimal_int survey_config survey_start))
  /\ exists new,
      SurveyScript.exchanges
        (snd (SurveyScript.main unit (survey_answer 200) inventory_exists
                inventory_yaml decimal_int survey_config survey_start))
      = SurveyScript.exchanges survey_start ++ new
      /\ (new = []
          \/ exists i apps k,
              decimal_int (SurveyScript.template_id survey_config) = Ok i
              /\ loaded inventory_exists inventory_yaml survey_config apps
              /\ map fst new = firstn k (survey_protocol i apps)).
Proof.
  assert (Hrun : SurveyScript.main unit (survey_answer 200) inventory_exists
                   inventory_yaml decimal_int survey_config survey_start
                 = (SurveyScript.Val tt,
                    snd (SurveyScript.main unit (survey_answer 200)
                           inventory_exists inventory_yaml decimal_int
                           survey_config survey_start)))
    by (vm_compute; reflexivity).
  split; [exact Hrun|].
  exact (X17_survey_requests_in_order unit (survey_answer 200) inventory_exists
           inventory_yaml decimal_int survey_config survey_start _ _ Hrun).
Defined.

Lemma X18_survey_enabled_only_after_200_witness :
  SurveyScript.main unit (survey_answer 201) inventory_exists inventory_yaml
    decimal_int survey_config survey_start
  = (SurveyScript.SysExit 1,
     snd (SurveyScript.main unit (survey_answer 201) inventory_exists
            inventory_yaml decimal_int survey_config survey_start))
  /\ exists new,
      SurveyScript.exchanges
        (snd (SurveyScript.main unit (survey_answer 201) inventory_exists
                inventory_yaml decimal_int survey_config survey_start))
      = SurveyScript.exchanges survey_start ++ new
      /\ List.length new = 3%nat
      /\ forall enable r,
          In (enable, r) new -> SurveyScript.req_method enable <> PATCH.
Proof.
  assert (Hrun : SurveyScript.main unit (survey_answer 201) inventory_exists
                   inventory_yaml decimal_int survey_config survey_start
                 = (SurveyScript.SysExit 1,
                    snd (SurveyScript.main unit (survey_answer 201)
                           inventory_exists inventory_yaml decimal_int
                           survey_config survey_start)))
    by (vm_compute; reflexivity).
  split; [exact Hrun|].
  destruct (X18_survey_enabled_only_after_200 unit (survey_answer 201)
              inventory_exists inventory_yaml decimal_int survey_config
              survey_start _ _ Hrun)
    as (new & Hx & _ & _ & Honly).
  exists new. split; [exact Hx|].
  assert (Hnew : new = skipn 0 (SurveyScript.exchanges
                   (snd (SurveyScript.main unit (survey_answer 201)
                           inventory_exists inventory_yaml decimal_int
                           survey_config survey_start))))
    by (rewrite Hx; reflexivity).
  split; [rewrite Hnew; vm_compute; reflexivity|].
  intros enable r Hin Hpatch.
  destruct (Honly enable r Hin Hpatch) as (update & resp & Hnth & _ & Hstatus).
  rewrite Hnew in Hnth. vm_compute in Hnth.
  injection Hnth as _ <-. discriminate Hstatus.
Defined.

Lemma X19_survey_exits_with_one_witness :
  SurveyScript.main unit (survey_answer 200) inventory_exists inventory_yaml
    decimal_int survey_config_without_token survey_start
  = (SurveyScript.SysExit 1,
     snd (SurveyScript.main unit (survey_answer 200) inventory_exists
            inventory_yaml decimal_int survey_config_without_token
            survey_start))
  /\ SurveyScript.exchanges
       (snd (SurveyScript.main unit (survey_answer 200) inventory_exists
               inventory_yaml decimal_int survey_config_without_token
               survey_start))
     = SurveyScript.exchanges survey_start.
Proof.
  assert (Hrun : SurveyScript.main unit (survey_answer 200) inventory_exists
                   inventory_yaml decimal_int survey_config_without_token
                   survey_start
                 = (SurveyScript.SysExit 1,
                    snd (SurveyScript.main unit (survey_answer 200)
                           inventory_exists inventory_yaml decimal_int
                           survey_config_without_token survey_start)))
    by (vm_compute; reflexivity).
  split; [exact Hrun|].
  destruct (X19_survey_exits_with_one unit (survey_answer 200) inventory_exists
              inventory_yaml decimal_int survey_config_without_token
              survey_start _ _ Hrun) as (_ & Hbad).
  destruct (Hbad (or_intror (or_introl eq_refl))) as (_ & Hx & _).
  exact Hx.
Defined.

Lemma X20_update_survey_wants_200_witness :
  fst (SurveyScript.update_survey unit (survey_answer 201) 32
         (build_survey_spec inventory_applications) survey_start)
  = SurveyScript.Val false
  /\ fst (SurveyScript.update_survey unit (survey_answer 200) 32
            (build_survey_spec inventory_applications) survey_start)
     = SurveyScript.Val true.
Proof.
  split.
  - destruct (X20_update_survey_wants_200 unit (survey_answer 201) 32
                (build_survey_spec inventory_applications) survey_start _ _
                {| status_code := 201; json := Err OtherException |}
                (surjective_pairing _) eq_refl) as (Hout & _).
    exact Hout.
  - destruct (X20_update_survey_wants_200 unit (survey_answer 200) 32
                (build_survey_spec inventory_applications) survey_start _ _
                {| status_code := 200; json := Err OtherException |}
                (surjective_pairing _) eq_refl) as (_ & Hiff & _).
    apply (proj2 Hiff). reflexivity.
Defined.

Lemma X21_survey_lookups_absorb_request_errors_witness :
  fst (SurveyScript.get_template unit survey_unreachable 32 survey_start)
  = SurveyScript.Val VNone
  /\ fst (SurveyScript.get_survey unit (survey_answer 200) 32 survey_start)
     = SurveyScript.Val VNone.
Proof.
  split.
  - destruct (X21_survey_lookups_absorb_request_errors unit survey_unreachable
                32 survey_start
                (snd (SurveyScript.get_template unit survey_unreachable 32
                        survey_start))
                (fst (SurveyScript.get_template unit survey_unreachable 32
                        survey_start))) as (Htemplate & _).
    destruct (Htemplate (surjective_pairing _))
      as (_ & _ & _ & _ & Hnone & _).
    apply Hnone. left. reflexivity.
  - destruct (X21_survey_lookups_absorb_request_errors unit (survey_answer 200)
                32 survey_start
                (snd (SurveyScript.get_survey unit (survey_answer 200) 32
                        survey_start))
                (fst (SurveyScript.get_survey unit (survey_answer 200) 32
                        survey_start))) as (_ & Hsurvey).
    destruct (Hsurvey (surjective_pairing _))
      as ((_ & _ & _ & _ & Hnone & _) & _).
    apply Hnone. right. eexists. split; reflexivity.
Defined.

Lemma X22_load_k3s_applications_witness :
  fst (SurveyScript.load_k3s_applications unit inventory_exists inventory_yaml
         "missing.yml" survey_start) = SurveyScript.SysExit 1.
Proof.
  destruct (X22_load_k3s_applications unit inventory_exists inventory_yaml
              "missing.yml" survey_start _ _ (surjective_pairing _))
    as (_ & _ & Hmissing & _).
  apply Hmissing. reflexivity.
Defined.

(* ------------------------------------------------------------------ *)
(** * Properties of the maintenance script *)

Section KumaFacts.
Import UptimeKuma.
Variable W : Type.
Variable api : api_call -> W -> result value * W.
Variable parse_args : list string -> Args + Z.

Lemma kuma_bind_inv {A B} (m : M W A) (k : A -> M W B) (s s' : state W)
      (out : outcome B) :
  bind W m k s = (out, s') ->
  (exists a s1, m s = (Val a, s1) /\ k a s1 = (out, s'))
  \/ (exists e, m s = (Raise e, s') /\ out = Raise e)
  \/ (exists code, m s = (SysExit code, s') /\ out = SysExit code).
Proof.
  unfold bind. destruct (m s) as [[a|e|code] s1]; intros H.
  - left. exists a, s1. split; [reflexivity | exact H].
  - right. left. injection H as <- <-. exists e. split; reflexivity.
  - right. right. injection H as <- <-. exists code. split; reflexivity.
Qed.

Lemma kuma_call_inv (c : api_call) (s s' : state W) (out : outcome value) :
  call W api c s = (out, s') ->
  calls s' = calls s ++ [c]
  /\ console s' = console s
  /\ world s' = snd (api c (world s))
  /\ out = match fst (api c (world s)) with
           | Ok v => Val v
           | Err e => Raise e
           end.
Proof.
  unfold call. destruct (api c (world s)) as [[v|e] w']; simpl;
    intros H; injection H as <- <-; repeat split; reflexivity.
Qed.

(** After a call that returned or raised, in both cases the call is logged. *)
Lemma kuma_call_bind {B} (c : api_call) (k : value -> M W B) (s s' : state W)
      (out : outcome B) :
  bind W (call W api c) k s = (out, s') ->
  (exists v s1,
      fst (api c (world s)) = Ok v
      /\ calls s1 = calls s ++ [c] /\ console s1 = console s
      /\ k v s1 = (out, s'))
  \/ (exists e,
         fst (api c (world s)) = Err e
         /\ calls s' = calls s ++ [c] /\ console s' = console s
         /\ out = Raise e).
Proof.
  intros H. apply kuma_bind_inv in H.
  destruct H as [(v & s1 & Hc & Hk) | [(e & Hc & ->) | (code & Hc & ->)]];
    apply kuma_call_inv in Hc; destruct Hc as (Hcalls & Hcon & _ & Hout).
  - left. exists v, s1.
    destruct (fst (api c (world s))); [|discriminate Hout].
    injection Hout as ->. repeat split; assumption.
  - right. exists e.
    destruct (fst (api c (world s))); [discriminate Hout|].
    injection Hout as ->. repeat split; assumption.
  - destruct (fst (api c (world s))); discriminate Hout.
Qed.

Lemma kuma_lift_bind {A B} (r : result A) (k : A -> M W B) (s s' : state W)
      (out : outcome B) :
  bind W (lift W r) k s = (out, s') ->
  (exists a, r = Ok a /\ k a s = (out, s'))
  \/ (exists e, r = Err e /\ s' = s /\ out = Raise e).
Proof.
  unfold bind, lift. destruct r as [a|e]; intros H.
  - left. exists a. split; [reflexivity | exact H].
  - right. exists e. injection H as <- <-. repeat split.
Qed.

Lemma kuma_print_bind {B} (l : line) (k : unit -> M W B) (s s' : state W)
      (out : outcome B) :
  bind W (print W l) k s = (out, s') ->
  exists s1,
    calls s1 = calls s /\ console s1 = console s ++ [l]
    /\ k tt s1 = (out, s').
Proof.
  unfold bind, print. intros H. eexists. split; [|split; [|exact H]]; reflexivity.
Qed.

(** What [group_ids] keeps. *)
Lemma group_ids_groups_of (monitors ids : list value) :
  group_ids monitors = Ok ids -> ids = groups_of monitors.
Proof.
  revert ids. induction monitors as [|m rest IH]; intros ids H; simpl in H.
  - injection H as <-. reflexivity.
  - destruct m as [| | | | |d]; simpl in H; try discriminate H.
    unfold groups_of. cbn [flat_map]. fold (groups_of rest).
    unfold py_getitem in H.
    destruct (dict_get d "type") as [[| | |type| |]|]; simpl in H;
      try (rewrite <- (IH ids H);
           destruct (dict_get d "id"); reflexivity).
    destruct (type =? "group").
    + destruct (dict_get d "id") as [id|]; simpl in H; [|discriminate H].
      destruct (group_ids rest) as [ids'|e]; simpl in H; [|discriminate H].
      injection H as <-. rewrite <- (IH ids' eq_refl). reflexivity.
    + rewrite <- (IH ids H). destruct (dict_get d "id"); reflexivity.
Qed.

Lemma delete_loop_trace (maintenances : list value) :
  forall (n : Z) (s s' : state W) (out : outcome Z),
    delete_loop W api maintenances n s = (out, s') ->
    (exists k,
        calls s' = calls s
                   ++ firstn k (map Delete_maintenance (titled_ids maintenances)))
    /\ (forall code, out <> SysExit code)
    /\ (forall n',
           out = Val n' ->
           n' = (n + Z.of_nat (List.length (titled_ids maintenances)))%Z
           /\ calls s' = calls s
                         ++ map Delete_maintenance (titled_ids maintenances)
           /\ console s' = console s ++ map L_deleted (titled_ids maintenances)).
Proof.
  induction maintenances as [|m rest IH]; intros n s s' out H.
  - simpl in H. unfold ret in H. injection H as <- <-.
    split; [exists 0%nat; simpl; rewrite app_nil_r; reflexivity|].
    split; [discriminate|].
    intros n' Hn. injection Hn as <-. simpl.
    rewrite Z.add_0_r, !app_nil_r. repeat split.
  - cbn [delete_loop] in H.
    apply kuma_lift_bind in H.
    destruct H as [(title & Htitle & H) | (e & Htitle & -> & ->)];
      [|split; [exists 0%nat; simpl; rewrite app_nil_r; reflexivity|];
        split; discriminate].
    destruct m as [| | | | |d]; simpl in Htitle; try discriminate Htitle.
    injection Htitle as Htitle.
    assert (Hskip : py_eq_str title window_title = false ->
                    titled_ids (VDict d :: rest) = titled_ids rest).
    { intros Hno. unfold titled_ids. cbn [flat_map].
      destruct (dict_get d "title") as [[| | |t| |]|]; subst title;
        simpl in Hno; try rewrite Hno;
        destruct (dict_get d "id"); reflexivity. }
    destruct (py_eq_str title window_title) eqn:Hmark.
    + destruct (dict_get d "title") as [[| | |t| |]|] eqn:Hd; subst title;
        simpl in Hmark; try discriminate Hmark.
      apply kuma_lift_bind in H.
      destruct H as [(id & Hid & H) | (e & Hid & -> & ->)].
      * unfold py_subscript, py_getitem in Hid.
        destruct (dict_get d "id") as [id'|] eqn:Hdid; [|discriminate Hid].
        injection Hid as ->.
        assert (Hcons : titled_ids (VDict d :: rest) = id :: titled_ids rest).
        { unfold titled_ids. cbn [flat_map]. rewrite Hd, Hdid, Hmark.
          reflexivity. }
        rewrite Hcons.
        apply kuma_call_bind in H.
        destruct H as [(v & s1 & _ & Hc1 & Hcon1 & H)
                      | (e & _ & Hc & _ & ->)].
        -- apply kuma_print_bind in H.
           destruct H as (s2 & Hc2 & Hcon2 & H).
           apply IH in H. destruct H as ((k & Hk) & Hexit & Hval).
           split; [exists (S k); rewrite Hk, Hc2, Hc1, <- app_assoc;
                   reflexivity|].
           split; [exact Hexit|].
           intros n' Hn. destruct (Hval n' Hn) as (-> & Hall & Hcon).
           split; [cbn [List.length]; lia|].
           split; [rewrite Hall, Hc2, Hc1, <- app_assoc; reflexivity|].
           rewrite Hcon, Hcon2, Hcon1, <- app_assoc. reflexivity.
        -- split; [exists 1%nat; rewrite Hc; reflexivity|].
           split; discriminate.
      * split; [exists 0%nat; simpl; rewrite app_nil_r; reflexivity|].
        split; discriminate.
    + rewrite (Hskip eq_refl). apply IH in H. exact H.
Qed.

(** The calls of the two actions are never session calls. *)
Lemma delete_loop_calls (maintenances : list value) :
  forall (n : Z) (s s' : state W) (out : outcome Z),
    delete_loop W api maintenances n s = (out, s') ->
    exists new, calls s' = calls s ++ new
                /\ Forall (fun c => is_session_call c = false) new.
Proof.
  intros n s s' out H. apply delete_loop_trace in H.
  destruct H as ((k & Hk) & _). eexists. split; [exact Hk|].
  apply Forall_forall. intros c Hin.
  assert (Hall : In c (map Delete_maintenance (titled_ids maintenances))).
  { rewrite <- (firstn_skipn k). apply in_or_app. left. exact Hin. }
  apply in_map_iff in Hall. destruct Hall as (id & <- & _). reflexivity.
Qed.

Ltac kchain :=
  repeat match goal with
         | H : calls ?a = _ |- context [calls ?a] => rewrite H
         end;
  rewrite <- ?app_assoc; reflexivity.

Ltac kraise l :=
  exists l; split; [kchain|];
  split; [repeat constructor|];
  split; [discriminate|];
  split; discriminate.

Lemma create_trace (s s' : state W) (out : outcome bool) :
  create_maintenance W api s = (out, s') ->
  exists new,
    calls s' = calls s ++ new
    /\ Forall (fun c => is_session_call c = false) new
    /\ (forall code, out <> SysExit code)
    /\ (out = Val false -> new = [Get_monitors; Add_maintenance])
    /\ (out = Val true ->
        exists monitors items,
          fst (api Get_monitors (world s)) = Ok monitors
          /\ AWXTemplateManager.py_iter monitors = Ok items
          /\ ((groups_of items = [] /\ new = [Get_monitors])
              \/ exists maintenance_id status_page_ids,
                  groups_of items <> []
                  /\ truthy maintenance_id = true
                  /\ new = Get_monitors :: Add_maintenance
                           :: association_calls maintenance_id
                                (groups_of items) status_page_ids)).
Proof.
  unfold create_maintenance. intros H.
  apply kuma_call_bind in H.
  destruct H as [(monitors & s1 & Hm & Hc1 & _ & H) | (e & _ & Hc & _ & ->)];
    [|kraise [Get_monitors]].
  apply kuma_lift_bind in H.
  destruct H as [(items & Hit & H) | (e & _ & -> & ->)];
    [|kraise [Get_monitors]].
  apply kuma_lift_bind in H.
  destruct H as [(ids & Hids & H) | (e & _ & -> & ->)];
    [|kraise [Get_monitors]].
  pose proof (group_ids_groups_of _ _ Hids) as Hg.
  destruct ids as [|id0 ids'].
  - apply kuma_print_bind in H. destruct H as (s2 & Hc2 & _ & H).
    unfold ret in H. injection H as <- <-.
    exists [Get_monitors]. split; [kchain|].
    split; [repeat constructor|]. split; [discriminate|].
    split; [discriminate|].
    intros _. exists monitors, items. split; [exact Hm|]. split; [exact Hit|].
    left. split; [symmetry; exact Hg | reflexivity].
  - assert (Hne : groups_of items <> []) by (rewrite <- Hg; discriminate).
    rewrite Hg in H.
    apply kuma_call_bind in H.
    destruct H as [(result & s2 & _ & Hc2 & _ & H) | (e & _ & Hc & _ & ->)];
      [|kraise [Get_monitors; Add_maintenance]].
    apply kuma_lift_bind in H.
    destruct H as [(maintenance_id & _ & H) | (e & _ & -> & ->)];
      [|kraise [Get_monitors; Add_maintenance]].
    destruct (truthy maintenance_id) eqn:Hid; cbv beta iota delta [negb] in H.
    + apply kuma_call_bind in H.
      destruct H as [(v3 & s3 & _ & Hc3 & _ & H) | (e & _ & Hc & _ & ->)];
        [|kraise [Get_monitors; Add_maintenance;
                  Add_monitor_maintenance maintenance_id (groups_of items)]].
      apply kuma_call_bind in H.
      destruct H as [(status_pages & s4 & _ & Hc4 & _ & H)
                    | (e & _ & Hc & _ & ->)];
        [|kraise [Get_monitors; Add_maintenance;
                  Add_monitor_maintenance maintenance_id (groups_of items);
                  Get_status_pages]].
      apply kuma_bind_inv in H.
      destruct (truthy status_pages).
      * destruct H as [(u & s5 & Hpages & H) | [(e & Hpages & ->) | (c & Hpages & ->)]];
          apply kuma_lift_bind in Hpages;
          destruct Hpages as [(pages & _ & Hpages) | (e' & _ & Hs & He)];
          try discriminate He;
          try (subst; kraise [Get_monitors; Add_maintenance;
                              Add_monitor_maintenance maintenance_id
                                (groups_of items);
                              Get_status_pages]);
          apply kuma_lift_bind in Hpages;
          destruct Hpages as [(page_list & _ & Hpages) | (e' & _ & Hs & He)];
          try discriminate He;
          try (subst; kraise [Get_monitors; Add_maintenance;
                              Add_monitor_maintenance maintenance_id
                                (groups_of items);
                              Get_status_pages]);
          apply kuma_call_bind in Hpages;
          destruct Hpages as [(v5 & s6 & _ & Hc6 & _ & Hpages)
                             | (e' & _ & Hc & _ & He)];
          try discriminate He;
          try (kraise [Get_monitors; Add_maintenance;
                       Add_monitor_maintenance maintenance_id
                         (groups_of items);
                       Get_status_pages;
                       Add_status_page_maintenance maintenance_id page_list]);
          unfold print in Hpages; try discriminate Hpages.
        injection Hpages as _ Hs5. unfold ret in H. injection H as <- <-.
        exists [Get_monitors; Add_maintenance;
                Add_monitor_maintenance maintenance_id (groups_of items);
                Get_status_pages;
                Add_status_page_maintenance maintenance_id page_list].
        split; [rewrite <- Hs5; simpl; kchain|].
        split; [repeat constructor|]. split; [discriminate|].
        split; [discriminate|].
        intros _. exists monitors, items. split; [exact Hm|].
        split; [exact Hit|]. right.
        exists maintenance_id, (Some page_list).
        split; [exact Hne|]. split; [exact Hid | reflexivity].
      * destruct H as [(u & s5 & Hpages & H) | [(e & Hpages & ->) | (c & Hpages & ->)]];
          unfold print in Hpages; try discriminate Hpages.
        injection Hpages as _ Hs5. unfold ret in H. injection H as <- <-.
        exists [Get_monitors; Add_maintenance;
                Add_monitor_maintenance maintenance_id (groups_of items);
                Get_status_pages].
        split; [rewrite <- Hs5; simpl; kchain|].
        split; [repeat constructor|]. split; [discriminate|].
        split; [discriminate|].
        intros _. exists monitors, items. split; [exact Hm|].
        split; [exact Hit|]. right.
        exists maintenance_id, None.
        split; [exact Hne|]. split; [exact Hid | reflexivity].
    + apply kuma_print_bind in H. destruct H as (s3 & Hc3 & _ & H).
      unfold ret in H. injection H as <- <-.
      exists [Get_monitors; Add_maintenance]. split; [kchain|].
      split; [repeat constructor|]. split; [discriminate|].
      split; [reflexivity|]. discriminate.
Qed.

Lemma delete_trace (s s' : state W) (out : outcome bool) :
  delete_maintenance W api s = (out, s') ->
  (forall code, out <> SysExit code)
  /\ out <> Val false
  /\ exists new,
      calls s' = calls s ++ Get_maintenances :: new
      /\ Forall (fun c => is_session_call c = false) new
      /\ forall maintenances items,
          fst (api Get_maintenances (world s)) = Ok maintenances ->
          AWXTemplateManager.py_iter maintenances = Ok items ->
          (exists k,
              new = firstn k (map Delete_maintenance (titled_ids items)))
          /\ (out = Val true ->
              new = map Delete_maintenance (titled_ids items)
              /\ console s'
                 = console s ++ map L_deleted (titled_ids items)
                   ++ [match titled_ids items with
                       | [] => L_nothing_to_delete
                       | _ :: _ =>
                           L_deleted_count
                             (Z.of_nat (List.length (titled_ids items)))
                       end]).
Proof.
  unfold delete_maintenance. intros H.
  apply kuma_call_bind in H.
  destruct H as [(maintenances & s1 & Hm & Hc1 & Hcon1 & H)
                | (e & Hm & Hc & _ & ->)].
  2:{ split; [discriminate|]. split; [discriminate|].
      exists []. split; [exact Hc|]. split; [constructor|].
      intros ms items Hms. rewrite Hm in Hms. discriminate Hms. }
  apply kuma_lift_bind in H.
  destruct H as [(items & Hit & H) | (e & Hit & -> & ->)].
  2:{ split; [discriminate|]. split; [discriminate|].
      exists []. split; [exact Hc1|]. split; [constructor|].
      intros ms items Hms Hitems. rewrite Hm in Hms. injection Hms as <-.
      rewrite Hit in Hitems. discriminate Hitems. }
  apply kuma_bind_inv in H.
  destruct H as [(n & s2 & Hloop & H) | [(e & Hloop & ->) | (c & Hloop & ->)]].
  - pose proof (delete_loop_trace _ _ _ _ _ Hloop) as (_ & _ & Hval).
    destruct (Hval n eq_refl) as (Hn & Hc2 & Hcon2).
    assert (Hend : out = Val true
                   /\ calls s' = calls s2
                   /\ console s'
                      = console s2
                        ++ [match titled_ids items with
                            | [] => L_nothing_to_delete
                            | _ :: _ =>
                                L_deleted_count
                                  (Z.of_nat (List.length (titled_ids items)))
                            end]).
    { rewrite Z.add_0_l in Hn. subst n.
      destruct (titled_ids items) as [|i0 rest]; simpl List.length in H.
      - change (Z.of_nat 0 =? 0)%Z with true in H. cbv iota in H.
        unfold bind, print, ret in H. injection H as <- <-.
        repeat split.
      - assert (Hz : (Z.of_nat (S (List.length rest)) =? 0)%Z = false)
          by (apply Z.eqb_neq; lia).
        rewrite Hz in H.
        unfold bind, print, ret in H. injection H as <- <-.
        repeat split. }
    destruct Hend as (-> & Hc3 & Hcon3).
    split; [discriminate|]. split; [discriminate|].
    exists (map Delete_maintenance (titled_ids items)).
    split; [rewrite Hc3, Hc2, Hc1, <- app_assoc; reflexivity|].
    split; [apply Forall_forall; intros c Hin; apply in_map_iff in Hin;
            destruct Hin as (id & <- & _); reflexivity|].
    intros ms items' Hms Hitems. rewrite Hm in Hms. injection Hms as <-.
    rewrite Hit in Hitems. injection Hitems as <-.
    split.
    + exists (List.length (map Delete_maintenance (titled_ids items))).
      rewrite firstn_all. reflexivity.
    + intros _. split; [reflexivity|].
      rewrite Hcon3, Hcon2, Hcon1, <- app_assoc. reflexivity.
  - pose proof (delete_loop_trace _ _ _ _ _ Hloop) as ((k & Hk) & _ & _).
    pose proof (delete_loop_calls _ _ _ _ _ Hloop) as (new & Hnew & Hall).
    assert (Heq : new = firstn k (map Delete_maintenance (titled_ids items))).
    { rewrite Hk in Hnew. apply app_inv_head in Hnew. symmetry. exact Hnew. }
    split; [discriminate|]. split; [discriminate|].
    exists new. split; [rewrite Hnew, Hc1, <- app_assoc; reflexivity|].
    split; [exact Hall|].
    intros ms items' Hms Hitems. rewrite Hm in Hms. injection Hms as <-.
    rewrite Hit in Hitems. injection Hitems as <-.
    split; [exists k; exact Heq | discriminate].
  - pose proof (delete_loop_trace _ _ _ _ _ Hloop) as (_ & Hexit & _).
    exfalso. exact (Hexit c eq_refl).
Qed.

(** X23. [delete_maintenance] lists the maintenance windows once and then
    deletes, in the order of the listing, the windows whose title is
    ["Ansible Maintenance Window"] and no other: the calls it makes are the
    listing followed by a prefix of these deletions, and when it returns it
    has made all of them, has printed one line for each and then the total
    (or that there was nothing to delete).  It never returns [False]. *)
Theorem X23_delete_removes_titled_windows (s s' : state W)
        (out : outcome bool) (maintenances : value) (items : list value) :
  delete_maintenance W api s = (out, s') ->
  fst (api Get_maintenances (world s)) = Ok maintenances ->
  AWXTemplateManager.py_iter maintenances = Ok items ->
  out <> Val false
  /\ (exists k,
         calls s'
         = calls s ++ Get_maintenances
                   :: firstn k (map Delete_maintenance (titled_ids items)))
  /\ (out = Val true ->
      calls s'
      = calls s ++ Get_maintenances
                :: map Delete_maintenance (titled_ids items)
      /\ console s'
         = console s ++ map L_deleted (titled_ids items)
           ++ [match titled_ids items with
               | [] => L_nothing_to_delete
               | _ :: _ =>
                   L_deleted_count (Z.of_nat (List.length (titled_ids items)))
               end]).
Proof.
  intros H Hm Hit. apply delete_trace in H.
  destruct H as (_ & Hfalse & new & Hcalls & _ & Hnew).
  destruct (Hnew maintenances items Hm Hit) as ((k & Hk) & Hval).
  split; [exact Hfalse|]. split.
  - exists k. rewrite Hcalls, Hk. reflexivity.
  - intros Hout. destruct (Hval Hout) as (Hall & Hcon).
    split; [rewrite Hcalls, Hall; reflexivity | exact Hcon].
Qed.



End KumaFacts.

(* ------------------------------------------------------------------ *)
(** ** The maintenance properties at concrete inputs *)

Lemma X23_delete_removes_titled_windows_witness :
  UptimeKuma.delete_maintenance unit kuma_api kuma_start
  = (UptimeKuma.Val true,
     snd (UptimeKuma.delete_maintenance unit kuma_api kuma_start))
  /\ UptimeKuma.calls
       (snd (UptimeKuma.delete_maintenance unit kuma_api kuma_start))
     = [UptimeKuma.Get_maintenances;
        UptimeKuma.Delete_maintenance (VInt 4);
        UptimeKuma.Delete_maintenance (VInt 7)].
Proof.
  assert (Hrun : UptimeKuma.delete_maintenance unit kuma_api kuma_start
                 = (UptimeKuma.Val true,
                    snd (UptimeKuma.delete_maintenance unit kuma_api
                           kuma_start)))
    by (vm_compute; reflexivity).
  split; [exact Hrun|].
  destruct (X23_delete_removes_titled_windows unit kuma_api kuma_start _ _
              (VList kuma_windows) kuma_windows Hrun eq_refl eq_refl)
    as (_ & _ & Hall).
  destruct (Hall eq_refl) as (Hcalls & _).
  exact Hcalls.
Defined.


